(** * Volcano Hybrid device engine: notification decoding, temperature
    reads, command queue, reconnection and brightness animation.

    The development embeds the relevant methods of [VolcanoHybrid]
    (custom_components/volcano_hybrid/volcano.py) and of
    [VolcanoDataUpdateCoordinator] (volcano_hybrid/coordinator.py) as
    executable functions and proves properties of them. *)

From Stdlib Require Import ZArith List String Bool Lia.
From Stdlib.Strings Require Import Byte.
From stdpp Require Import base option list gmap strings.

Local Open Scope string_scope.
Local Open Scope Z_scope.
Local Open Scope list_scope.

(** ** Bytes and Python arithmetic *)

(** The integer value of one element of a [bytes] object. *)
Definition byte_val (b : byte) : Z := Z.of_N (Byte.to_N b).

(** The byte holding [n mod 256], as [struct.pack] stores it. *)
Definition byte_of_Z (n : Z) : byte :=
  match Byte.of_N (Z.to_N (n mod 256)) with
  | Some b => b
  | None => x00
  end.

(** [data[i]] once the length has been checked; [x00] is never reached
    under the guards of the callers. *)
Definition getitem (data : list byte) (i : nat) : Z := byte_val (nth i data x00).

(** Python truthiness of a [bytes]/[bytearray] value. *)
Definition truthy (data : list byte) : bool :=
  match data with
  | [] => false
  | _ :: _ => true
  end.

(** [value.hex() if value else None]: the raw bytes kept for debugging. *)
Definition hex_or_None (value : list byte) : option (list byte) :=
  if truthy value then Some value else None.

(** [int.from_bytes(bs, byteorder='little')]. *)
Fixpoint from_bytes_little (bs : list byte) : Z :=
  match bs with
  | [] => 0
  | b :: rest => byte_val b + 256 * from_bytes_little rest
  end.

(** [struct.pack('<I', n)] for [0 <= n < 2^32]. *)
Definition pack_u32_le (n : Z) : list byte :=
  [byte_of_Z n; byte_of_Z (n / 256); byte_of_Z (n / 65536); byte_of_Z (n / 16777216)].

(** [struct.pack('<H', n)] for [0 <= n < 2^16]. *)
Definition pack_u16_le (n : Z) : list byte :=
  [byte_of_Z n; byte_of_Z (n / 256)].

(** [round(n / 10)] for an integer [0 <= n < 2^16].  Python divides in
    binary floating point and rounds half to even.  A quotient with
    [n mod 10 = 5] is a half-integer, which a double holds exactly, so the
    tie rule applies to it; every other quotient is at least 1/10 away
    from a half-integer, far more than the rounding error of the
    division, so it goes to the nearest integer. *)
Definition round_div10 (n : Z) : Z :=
  let q := n / 10 in
  let r := n mod 10 in
  if r <? 5 then q
  else if 5 <? r then q + 1
  else if Z.even q then q else q + 1.

(** ** Characteristic identifiers *)

Definition heat_on_uuid := "1011000f-5354-4f52-5a26-4249434b454c".
Definition heat_off_uuid := "10110010-5354-4f52-5a26-4249434b454c".
Definition fan_on_uuid := "10110013-5354-4f52-5a26-4249434b454c".
Definition fan_off_uuid := "10110014-5354-4f52-5a26-4249434b454c".
Definition screen_brightness_uuid := "10110005-5354-4f52-5a26-4249434b454c".
Definition target_temp_uuid := "10110003-5354-4f52-5a26-4249434b454c".
Definition register_one_uuid := "1010000c-5354-4f52-5a26-4249434b454c".
Definition current_temp_uuid := "10110001-5354-4f52-5a26-4249434b454c".
Definition auto_shutoff_uuid := "1011000c-5354-4f52-5a26-4249434b454c".
Definition auto_shutoff_setting_uuid := "1011000d-5354-4f52-5a26-4249434b454c".

(** ** Exceptions and results *)

(** The exceptions the modelled code raises or receives.  [Cancelled] is
    [asyncio.CancelledError], a [BaseException]: an [except Exception]
    clause does not catch it; the enclosing timeout turns it into
    [TimeoutError].  [InvalidStateError] is what a future raises when
    it is given a result a second time. *)
Inductive exn : Type :=
| ConnectionError
| TimeoutError
| BleakError
| IndexError
| InvalidStateError
| Cancelled.

Inductive outcome (A : Type) : Type :=
| Return (a : A)
| Raise (e : exn).
Arguments Return {A} a.
Arguments Raise {A} e.

(** ** The device object *)

(** A queued command: [(uuid, data, future)]; the future is named by a
    number. *)
Record Command : Type := {
  cmd_uuid : string;
  cmd_data : list byte;
  cmd_future : nat
}.

(** The attributes of a [VolcanoHybrid] object.  Timestamps are the
    values of [time.time()] in integer milliseconds.  [client] tells
    whether a [BleakClient] object is held. *)
Record Device : Type := {
  _current_temperature : Z;
  _target_temperature : Z;
  _heater_on : bool;
  _fan_on : bool;
  _brightness : Z;
  _is_connected : bool;
  client : bool;
  _last_command_time : Z;
  _last_heater_change_time : Z;
  _heater_change_source : string;
  _auto_off_time_seconds : Z;
  _command_queue : list Command;
  _processing_commands : bool;
  _temp_cache_time : Z;
  _current_temperature_raw : option (list byte);
  _target_temperature_raw : option (list byte);
  _register_one_raw : option (list byte);
  _auto_off_time_raw : option (list byte)
}.

(** [__init__]. *)
Definition init : Device :=
  {| _current_temperature := 0; _target_temperature := 0; _heater_on := false;
     _fan_on := false; _brightness := 70; _is_connected := false; client := false;
     _last_command_time := 0; _last_heater_change_time := 0;
     _heater_change_source := "init"; _auto_off_time_seconds := 0;
     _command_queue := []; _processing_commands := false; _temp_cache_time := 0;
     _current_temperature_raw := None; _target_temperature_raw := None;
     _register_one_raw := None; _auto_off_time_raw := None |}.

(** Attribute assignment, one function per assigned attribute. *)

Definition upd_current_temperature (v : Z) (d : Device) : Device :=
  {| _current_temperature := v; _target_temperature := _target_temperature d;
     _heater_on := _heater_on d; _fan_on := _fan_on d; _brightness := _brightness d;
     _is_connected := _is_connected d; client := client d;
     _last_command_time := _last_command_time d;
     _last_heater_change_time := _last_heater_change_time d;
     _heater_change_source := _heater_change_source d;
     _auto_off_time_seconds := _auto_off_time_seconds d; _command_queue := _command_queue d;
     _processing_commands := _processing_commands d; _temp_cache_time := _temp_cache_time d;
     _current_temperature_raw := _current_temperature_raw d;
     _target_temperature_raw := _target_temperature_raw d;
     _register_one_raw := _register_one_raw d; _auto_off_time_raw := _auto_off_time_raw d |}.

Definition upd_target_temperature (v : Z) (d : Device) : Device :=
  {| _current_temperature := _current_temperature d; _target_temperature := v;
     _heater_on := _heater_on d; _fan_on := _fan_on d; _brightness := _brightness d;
     _is_connected := _is_connected d; client := client d;
     _last_command_time := _last_command_time d;
     _last_heater_change_time := _last_heater_change_time d;
     _heater_change_source := _heater_change_source d;
     _auto_off_time_seconds := _auto_off_time_seconds d; _command_queue := _command_queue d;
     _processing_commands := _processing_commands d; _temp_cache_time := _temp_cache_time d;
     _current_temperature_raw := _current_temperature_raw d;
     _target_temperature_raw := _target_temperature_raw d;
     _register_one_raw := _register_one_raw d; _auto_off_time_raw := _auto_off_time_raw d |}.

Definition upd_heater_on (v : bool) (d : Device) : Device :=
  {| _current_temperature := _current_temperature d;
     _target_temperature := _target_temperature d; _heater_on := v; _fan_on := _fan_on d;
     _brightness := _brightness d; _is_connected := _is_connected d; client := client d;
     _last_command_time := _last_command_time d;
     _last_heater_change_time := _last_heater_change_time d;
     _heater_change_source := _heater_change_source d;
     _auto_off_time_seconds := _auto_off_time_seconds d; _command_queue := _command_queue d;
     _processing_commands := _processing_commands d; _temp_cache_time := _temp_cache_time d;
     _current_temperature_raw := _current_temperature_raw d;
     _target_temperature_raw := _target_temperature_raw d;
     _register_one_raw := _register_one_raw d; _auto_off_time_raw := _auto_off_time_raw d |}.

Definition upd_fan_on (v : bool) (d : Device) : Device :=
  {| _current_temperature := _current_temperature d;
     _target_temperature := _target_temperature d; _heater_on := _heater_on d; _fan_on := v;
     _brightness := _brightness d; _is_connected := _is_connected d; client := client d;
     _last_command_time := _last_command_time d;
     _last_heater_change_time := _last_heater_change_time d;
     _heater_change_source := _heater_change_source d;
     _auto_off_time_seconds := _auto_off_time_seconds d; _command_queue := _command_queue d;
     _processing_commands := _processing_commands d; _temp_cache_time := _temp_cache_time d;
     _current_temperature_raw := _current_temperature_raw d;
     _target_temperature_raw := _target_temperature_raw d;
     _register_one_raw := _register_one_raw d; _auto_off_time_raw := _auto_off_time_raw d |}.

Definition upd_brightness (v : Z) (d : Device) : Device :=
  {| _current_temperature := _current_temperature d;
     _target_temperature := _target_temperature d; _heater_on := _heater_on d;
     _fan_on := _fan_on d; _brightness := v; _is_connected := _is_connected d;
     client := client d; _last_command_time := _last_command_time d;
     _last_heater_change_time := _last_heater_change_time d;
     _heater_change_source := _heater_change_source d;
     _auto_off_time_seconds := _auto_off_time_seconds d; _command_queue := _command_queue d;
     _processing_commands := _processing_commands d; _temp_cache_time := _temp_cache_time d;
     _current_temperature_raw := _current_temperature_raw d;
     _target_temperature_raw := _target_temperature_raw d;
     _register_one_raw := _register_one_raw d; _auto_off_time_raw := _auto_off_time_raw d |}.

Definition upd_is_connected (v : bool) (d : Device) : Device :=
  {| _current_temperature := _current_temperature d;
     _target_temperature := _target_temperature d; _heater_on := _heater_on d;
     _fan_on := _fan_on d; _brightness := _brightness d; _is_connected := v;
     client := client d; _last_command_time := _last_command_time d;
     _last_heater_change_time := _last_heater_change_time d;
     _heater_change_source := _heater_change_source d;
     _auto_off_time_seconds := _auto_off_time_seconds d; _command_queue := _command_queue d;
     _processing_commands := _processing_commands d; _temp_cache_time := _temp_cache_time d;
     _current_temperature_raw := _current_temperature_raw d;
     _target_temperature_raw := _target_temperature_raw d;
     _register_one_raw := _register_one_raw d; _auto_off_time_raw := _auto_off_time_raw d |}.

Definition upd_last_command_time (v : Z) (d : Device) : Device :=
  {| _current_temperature := _current_temperature d;
     _target_temperature := _target_temperature d; _heater_on := _heater_on d;
     _fan_on := _fan_on d; _brightness := _brightness d; _is_connected := _is_connected d;
     client := client d; _last_command_time := v;
     _last_heater_change_time := _last_heater_change_time d;
     _heater_change_source := _heater_change_source d;
     _auto_off_time_seconds := _auto_off_time_seconds d; _command_queue := _command_queue d;
     _processing_commands := _processing_commands d; _temp_cache_time := _temp_cache_time d;
     _current_temperature_raw := _current_temperature_raw d;
     _target_temperature_raw := _target_temperature_raw d;
     _register_one_raw := _register_one_raw d; _auto_off_time_raw := _auto_off_time_raw d |}.

Definition upd_last_heater_change_time (v : Z) (d : Device) : Device :=
  {| _current_temperature := _current_temperature d;
     _target_temperature := _target_temperature d; _heater_on := _heater_on d;
     _fan_on := _fan_on d; _brightness := _brightness d; _is_connected := _is_connected d;
     client := client d; _last_command_time := _last_command_time d;
     _last_heater_change_time := v; _heater_change_source := _heater_change_source d;
     _auto_off_time_seconds := _auto_off_time_seconds d; _command_queue := _command_queue d;
     _processing_commands := _processing_commands d; _temp_cache_time := _temp_cache_time d;
     _current_temperature_raw := _current_temperature_raw d;
     _target_temperature_raw := _target_temperature_raw d;
     _register_one_raw := _register_one_raw d; _auto_off_time_raw := _auto_off_time_raw d |}.

Definition upd_heater_change_source (v : string) (d : Device) : Device :=
  {| _current_temperature := _current_temperature d;
     _target_temperature := _target_temperature d; _heater_on := _heater_on d;
     _fan_on := _fan_on d; _brightness := _brightness d; _is_connected := _is_connected d;
     client := client d; _last_command_time := _last_command_time d;
     _last_heater_change_time := _last_heater_change_time d; _heater_change_source := v;
     _auto_off_time_seconds := _auto_off_time_seconds d; _command_queue := _command_queue d;
     _processing_commands := _processing_commands d; _temp_cache_time := _temp_cache_time d;
     _current_temperature_raw := _current_temperature_raw d;
     _target_temperature_raw := _target_temperature_raw d;
     _register_one_raw := _register_one_raw d; _auto_off_time_raw := _auto_off_time_raw d |}.

Definition upd_auto_off_time_seconds (v : Z) (d : Device) : Device :=
  {| _current_temperature := _current_temperature d;
     _target_temperature := _target_temperature d; _heater_on := _heater_on d;
     _fan_on := _fan_on d; _brightness := _brightness d; _is_connected := _is_connected d;
     client := client d; _last_command_time := _last_command_time d;
     _last_heater_change_time := _last_heater_change_time d;
     _heater_change_source := _heater_change_source d; _auto_off_time_seconds := v;
     _command_queue := _command_queue d; _processing_commands := _processing_commands d;
     _temp_cache_time := _temp_cache_time d;
     _current_temperature_raw := _current_temperature_raw d;
     _target_temperature_raw := _target_temperature_raw d;
     _register_one_raw := _register_one_raw d; _auto_off_time_raw := _auto_off_time_raw d |}.

Definition upd_command_queue (v : list Command) (d : Device) : Device :=
  {| _current_temperature := _current_temperature d;
     _target_temperature := _target_temperature d; _heater_on := _heater_on d;
     _fan_on := _fan_on d; _brightness := _brightness d; _is_connected := _is_connected d;
     client := client d; _last_command_time := _last_command_time d;
     _last_heater_change_time := _last_heater_change_time d;
     _heater_change_source := _heater_change_source d;
     _auto_off_time_seconds := _auto_off_time_seconds d; _command_queue := v;
     _processing_commands := _processing_commands d; _temp_cache_time := _temp_cache_time d;
     _current_temperature_raw := _current_temperature_raw d;
     _target_temperature_raw := _target_temperature_raw d;
     _register_one_raw := _register_one_raw d; _auto_off_time_raw := _auto_off_time_raw d |}.

Definition upd_temp_cache_time (v : Z) (d : Device) : Device :=
  {| _current_temperature := _current_temperature d;
     _target_temperature := _target_temperature d; _heater_on := _heater_on d;
     _fan_on := _fan_on d; _brightness := _brightness d; _is_connected := _is_connected d;
     client := client d; _last_command_time := _last_command_time d;
     _last_heater_change_time := _last_heater_change_time d;
     _heater_change_source := _heater_change_source d;
     _auto_off_time_seconds := _auto_off_time_seconds d; _command_queue := _command_queue d;
     _processing_commands := _processing_commands d; _temp_cache_time := v;
     _current_temperature_raw := _current_temperature_raw d;
     _target_temperature_raw := _target_temperature_raw d;
     _register_one_raw := _register_one_raw d; _auto_off_time_raw := _auto_off_time_raw d |}.

Definition upd_current_temperature_raw (v : option (list byte)) (d : Device) : Device :=
  {| _current_temperature := _current_temperature d;
     _target_temperature := _target_temperature d; _heater_on := _heater_on d;
     _fan_on := _fan_on d; _brightness := _brightness d; _is_connected := _is_connected d;
     client := client d; _last_command_time := _last_command_time d;
     _last_heater_change_time := _last_heater_change_time d;
     _heater_change_source := _heater_change_source d;
     _auto_off_time_seconds := _auto_off_time_seconds d; _command_queue := _command_queue d;
     _processing_commands := _processing_commands d; _temp_cache_time := _temp_cache_time d;
     _current_temperature_raw := v; _target_temperature_raw := _target_temperature_raw d;
     _register_one_raw := _register_one_raw d; _auto_off_time_raw := _auto_off_time_raw d |}.

Definition upd_target_temperature_raw (v : option (list byte)) (d : Device) : Device :=
  {| _current_temperature := _current_temperature d;
     _target_temperature := _target_temperature d; _heater_on := _heater_on d;
     _fan_on := _fan_on d; _brightness := _brightness d; _is_connected := _is_connected d;
     client := client d; _last_command_time := _last_command_time d;
     _last_heater_change_time := _last_heater_change_time d;
     _heater_change_source := _heater_change_source d;
     _auto_off_time_seconds := _auto_off_time_seconds d; _command_queue := _command_queue d;
     _processing_commands := _processing_commands d; _temp_cache_time := _temp_cache_time d;
     _current_temperature_raw := _current_temperature_raw d; _target_temperature_raw := v;
     _register_one_raw := _register_one_raw d; _auto_off_time_raw := _auto_off_time_raw d |}.

Definition upd_register_one_raw (v : option (list byte)) (d : Device) : Device :=
  {| _current_temperature := _current_temperature d;
     _target_temperature := _target_temperature d; _heater_on := _heater_on d;
     _fan_on := _fan_on d; _brightness := _brightness d; _is_connected := _is_connected d;
     client := client d; _last_command_time := _last_command_time d;
     _last_heater_change_time := _last_heater_change_time d;
     _heater_change_source := _heater_change_source d;
     _auto_off_time_seconds := _auto_off_time_seconds d; _command_queue := _command_queue d;
     _processing_commands := _processing_commands d; _temp_cache_time := _temp_cache_time d;
     _current_temperature_raw := _current_temperature_raw d;
     _target_temperature_raw := _target_temperature_raw d; _register_one_raw := v;
     _auto_off_time_raw := _auto_off_time_raw d |}.

Definition upd_auto_off_time_raw (v : option (list byte)) (d : Device) : Device :=
  {| _current_temperature := _current_temperature d;
     _target_temperature := _target_temperature d; _heater_on := _heater_on d;
     _fan_on := _fan_on d; _brightness := _brightness d; _is_connected := _is_connected d;
     client := client d; _last_command_time := _last_command_time d;
     _last_heater_change_time := _last_heater_change_time d;
     _heater_change_source := _heater_change_source d;
     _auto_off_time_seconds := _auto_off_time_seconds d; _command_queue := _command_queue d;
     _processing_commands := _processing_commands d; _temp_cache_time := _temp_cache_time d;
     _current_temperature_raw := _current_temperature_raw d;
     _target_temperature_raw := _target_temperature_raw d;
     _register_one_raw := _register_one_raw d; _auto_off_time_raw := v |}.

Definition upd_processing_commands (v : bool) (d : Device) : Device :=
  {| _current_temperature := _current_temperature d;
     _target_temperature := _target_temperature d; _heater_on := _heater_on d;
     _fan_on := _fan_on d; _brightness := _brightness d; _is_connected := _is_connected d;
     client := client d; _last_command_time := _last_command_time d;
     _last_heater_change_time := _last_heater_change_time d;
     _heater_change_source := _heater_change_source d;
     _auto_off_time_seconds := _auto_off_time_seconds d; _command_queue := _command_queue d;
     _processing_commands := v; _temp_cache_time := _temp_cache_time d;
     _current_temperature_raw := _current_temperature_raw d;
     _target_temperature_raw := _target_temperature_raw d;
     _register_one_raw := _register_one_raw d; _auto_off_time_raw := _auto_off_time_raw d |}.

(** ** The world around the object *)

(** What a transport operation meets: it completes, the link reports an
    error ([BleakError]), or it does not complete before the timeout
    that encloses it. *)
Inductive fault : Type :=
| NoFault
| LinkError
| Hang.

(** What the coroutines leave in the trace: [asyncio.sleep] with its
    argument in milliseconds, and a call of [connect]. *)
Inductive event : Type :=
| Slept (ms : Z)
| ConnectCalled.

(** The object together with what it talks to.  [peer] is the
    characteristic table of the appliance; [faults] lists what the next
    transport operations meet, oldest first (none left: no fault);
    [clock] is [time.time()] in milliseconds; [trace] records what
    the coroutines modelled here did, oldest first;
    [futures] holds the futures that are done, with their result, their
    exception or, for a cancelled one, [Raise Cancelled]; [processor] is
    the local
    [last_command_time] of the command processor task while that task
    runs, [None] when there is no task or it is done. *)
Record World : Type := {
  dev : Device;
  peer : gmap string (list byte);
  faults : list fault;
  clock : Z;
  trace : list event;
  futures : gmap nat (outcome bool);
  next_future : nat;
  processor : option Z
}.

Definition with_dev (v : Device) (w : World) : World :=
  {| dev := v; peer := peer w; faults := faults w; clock := clock w; trace := trace w;
     futures := futures w; next_future := next_future w; processor := processor w |}.

Definition with_peer (v : gmap string (list byte)) (w : World) : World :=
  {| dev := dev w; peer := v; faults := faults w; clock := clock w; trace := trace w;
     futures := futures w; next_future := next_future w; processor := processor w |}.

Definition with_faults (v : list fault) (w : World) : World :=
  {| dev := dev w; peer := peer w; faults := v; clock := clock w; trace := trace w;
     futures := futures w; next_future := next_future w; processor := processor w |}.

Definition with_clock (v : Z) (w : World) : World :=
  {| dev := dev w; peer := peer w; faults := faults w; clock := v; trace := trace w;
     futures := futures w; next_future := next_future w; processor := processor w |}.

Definition with_trace (v : list event) (w : World) : World :=
  {| dev := dev w; peer := peer w; faults := faults w; clock := clock w; trace := v;
     futures := futures w; next_future := next_future w; processor := processor w |}.

Definition with_futures (v : gmap nat (outcome bool)) (w : World) : World :=
  {| dev := dev w; peer := peer w; faults := faults w; clock := clock w; trace := trace w;
     futures := v; next_future := next_future w; processor := processor w |}.

Definition with_next_future (v : nat) (w : World) : World :=
  {| dev := dev w; peer := peer w; faults := faults w; clock := clock w; trace := trace w;
     futures := futures w; next_future := v; processor := processor w |}.

Definition with_processor (v : option Z) (w : World) : World :=
  {| dev := dev w; peer := peer w; faults := faults w; clock := clock w; trace := trace w;
     futures := futures w; next_future := next_future w; processor := v |}.

(** ** Coroutines as state-and-exception computations

    A raised exception keeps the assignments made before it, as in
    Python. *)
Definition M (A : Type) : Type := World -> outcome A * World.

Definition ret {A} (a : A) : M A := fun w => (Return a, w).

Definition raise {A} (e : exn) : M A := fun w => (Raise e, w).

Definition bind {A B} (c : M A) (k : A -> M B) : M B :=
  fun w =>
    match c w with
    | (Return a, w') => k a w'
    | (Raise e, w') => (Raise e, w')
    end.

Declare Scope coroutine_scope.
Delimit Scope coroutine_scope with co.
Notation "'let*' x ':=' c 'in' k" := (bind c (fun x => k))
  (at level 10, x name, c at level 100, k at level 200) : coroutine_scope.
Notation "c ;; k" := (bind c (fun _ => k))
  (at level 100, k at level 200, right associativity) : coroutine_scope.
Local Open Scope coroutine_scope.

(** [try: c except Exception as e: h e]. *)
Definition try_except {A} (c : M A) (h : exn -> M A) : M A :=
  fun w =>
    match c w with
    | (Return a, w') => (Return a, w')
    | (Raise Cancelled, w') => (Raise Cancelled, w')
    | (Raise e, w') => h e w'
    end.

(** [asyncio.timeout(ms)] around [c]: an operation that hangs inside is
    cancelled when the time is up and the block raises [TimeoutError]. *)
Definition asyncio_timeout {A} (ms : Z) (c : M A) : M A :=
  fun w =>
    match c w with
    | (Raise Cancelled, w') => (Raise TimeoutError, with_clock (clock w + ms) w')
    | r => r
    end.

(** [asyncio.wait_for(c, timeout)]. *)
Definition wait_for {A} (c : M A) (ms : Z) : M A := asyncio_timeout ms c.

(** [self.x]. *)
Definition self {A} (field : Device -> A) : M A := fun w => (Return (field (dev w)), w).

(** [self.x = v], given the assignment function of [x]. *)
Definition assign {A} (upd : A -> Device -> Device) (v : A) : M unit :=
  fun w => (Return tt, with_dev (upd v (dev w)) w).

(** [time.time()]. *)
Definition time_time : M Z := fun w => (Return (clock w), w).

(** [asyncio.sleep(ms)]. *)
Definition sleep (ms : Z) : M unit :=
  fun w =>
    (Return tt, with_trace (trace w ++ [Slept ms]) (with_clock (clock w + Z.max 0 ms) w)).

(** What the next transport operation meets. *)
Definition next_fault : M fault :=
  fun w =>
    match faults w with
    | [] => (Return NoFault, w)
    | f :: rest => (Return f, with_faults rest w)
    end.

(** [self.client.read_gatt_char(uuid)]. *)
Definition read_gatt_char (uuid : string) : M (list byte) :=
  let* f := next_fault in
  match f with
  | NoFault =>
      fun w =>
        match peer w !! uuid with
        | Some value => (Return value, w)
        | None => (Raise BleakError, w)
        end
  | LinkError => raise BleakError
  | Hang => raise Cancelled
  end.

(** [self.client.write_gatt_char(uuid, data)]. *)
Definition write_gatt_char (uuid : string) (data : list byte) : M unit :=
  let* f := next_fault in
  match f with
  | NoFault => fun w => (Return tt, with_peer (<[uuid := data]> (peer w)) w)
  | LinkError => raise BleakError
  | Hang => raise Cancelled
  end.

(** [value[i]], raising [IndexError] out of range. *)
Definition getitem_exn (value : list byte) (i : nat) : M Z :=
  match nth_error value i with
  | Some b => ret (byte_val b)
  | None => raise IndexError
  end.

(** ** Notification decoder *)

(** [_process_notification(data, source)].  [now] is the value of
    [time.time()] during the call; [data] is [None] or a byte string. *)
Definition _process_notification (data : option (list byte)) (source : string)
    (now : Z) (d : Device) : Device :=
  match data with
  | None => d
  | Some data =>
      if negb (truthy data) || (length data <? 2)%nat then d
      else
        let decoded_value := getitem data 0 + getitem data 1 * 256 in
        let unmasked_fan_on_value := Z.land decoded_value 0x2000 in
        let unmasked_heat_on_value := Z.land decoded_value 0x0020 in
        let d :=
          if String.eqb source "user_command"
             || (5000 <? now - _last_heater_change_time d)
             || negb (String.eqb (_heater_change_source d) "user_command")
          then
            let new_heater_state := negb (unmasked_heat_on_value =? 0) in
            upd_heater_on new_heater_state d
          else d in
        let d := upd_fan_on (negb (unmasked_fan_on_value =? 0)) d in
        let temp_value := Z.shiftr (Z.land decoded_value 0xFF00) 8 in
        if (40 <=? temp_value) && (temp_value <=? 230)
        then upd_temp_cache_time now (upd_current_temperature temp_value d)
        else d
  end.

(** [_notification_handler(sender, data)], up to the call of the
    external callback. *)
Definition _notification_handler (data : option (list byte)) (now : Z) (d : Device)
    : Device :=
  let d := upd_register_one_raw
             (match data with Some data => hex_or_None data | None => None end) d in
  let old_heater_state := _heater_on d in
  let d := _process_notification data "notification" now d in
  if negb (Bool.eqb old_heater_state (_heater_on d))
  then upd_heater_change_source "notification" (upd_last_heater_change_time now d)
  else d.

(** ** Command serializer, connection and caller-facing operations *)

(** [self._command_rate_limit] and [self._temp_cache_duration], in
    milliseconds. *)
Definition _command_rate_limit : Z := 200.
Definition _temp_cache_duration : Z := 1000.

(** [future.set_result(r)] and [future.set_exception(e)]: on a future
    that is done already they raise [InvalidStateError]. *)
Definition resolve (fut : nat) (r : outcome bool) : M unit :=
  fun w =>
    match futures w !! fut with
    | None => (Return tt, with_futures (<[fut := r]> (futures w)) w)
    | Some _ => (Raise InvalidStateError, w)
    end.

(** [future.cancel()]: a future that is not done becomes cancelled, one
    that is done stays as it is. *)
Definition cancel (fut : nat) (w : World) : World :=
  match futures w !! fut with
  | None => with_futures (<[fut := Raise Cancelled]> (futures w)) w
  | Some _ => w
  end.

(** [asyncio.Future()]. *)
Definition new_future : M nat :=
  fun w => (Return (next_future w), with_next_future (S (next_future w)) w).

(** [self._command_queue.popleft()]. *)
Definition popleft : M Command :=
  let* q := self _command_queue in
  match q with
  | cmd :: rest => assign upd_command_queue rest ;; ret cmd
  | [] => raise IndexError
  end.

(** [_characteristic_exists(uuid)]: the characteristic is looked up in
    the services of the connected client. *)
Definition _characteristic_exists (uuid : string) : M bool :=
  let* connected := self _is_connected in
  let* has_client := self client in
  if negb connected || negb has_client then ret false
  else fun w => (Return (bool_decide (is_Some (peer w !! uuid))), w).

Section Engine.

(** [connect(self._notification_callback)] drives the scanner and the
    client of the BLE stack.  Its effect on the world and its result
    are left open, so that what follows holds for every behaviour of
    it.  The trace records the call and leaves out what happens
    inside. *)
Variable connect_effect : M bool.

Definition connect : M bool :=
  fun w =>
    let w := with_trace (trace w ++ [ConnectCalled]) w in
    match connect_effect w with
    | (r, w') => (r, with_trace (trace w) w')
    end.

(** [_ensure_connected()]. *)
Definition _ensure_connected : M unit :=
  let* connected := self _is_connected in
  if negb connected then
    let* ok := connect in
    if negb ok then raise ConnectionError else ret tt
  else ret tt.

(** [_execute_command(characteristic_uuid, data)]. *)
Definition _execute_command (characteristic_uuid : string) (data : list byte) : M bool :=
  _ensure_connected ;;
  try_except
    (write_gatt_char characteristic_uuid data ;;
     let* t := time_time in
     assign upd_last_command_time t ;;
     ret true)
    (fun e => assign upd_is_connected false ;; raise e).

(** One turn of the [while] loop of [_process_command_queue], entered
    with the loop's local [last_command_time]; the result is the new
    value of that local. *)
Definition processor_iteration (last_command_time : Z) : M Z :=
  try_except
    (let* q := self _command_queue in
     match q with
     | _ :: _ =>
       let* t := time_time in
       let time_since_last := t - last_command_time in
       (if time_since_last <? _command_rate_limit
        then sleep (_command_rate_limit - time_since_last) else ret tt) ;;
       let* cmd := popleft in
       try_except
         (let* result := _execute_command (cmd_uuid cmd) (cmd_data cmd) in
          resolve (cmd_future cmd) (Return result))
         (fun e => resolve (cmd_future cmd) (Raise e)) ;;
       time_time
     | [] =>
       sleep 100 ;; ret last_command_time
     end)
    (fun e => sleep 1000 ;; ret last_command_time).

(** [_process_command_queue()]: the processor task runs for at most
    [fuel] turns of its loop.  It is done ([processor] is [None]) once
    the loop condition fails or an exception escapes. *)
Fixpoint _process_command_queue (fuel : nat) (w : World) : World :=
  match processor w with
  | None => w
  | Some last_command_time =>
      if _processing_commands (dev w) && _is_connected (dev w) then
        match fuel with
        | O => w
        | S fuel' =>
            match processor_iteration last_command_time w with
            | (Return t, w') => _process_command_queue fuel' (with_processor (Some t) w')
            | (Raise _, w') => with_processor None w'
            end
        end
      else with_processor None w
  end.

(** [_start_command_processor()]. *)
Definition _start_command_processor : M unit :=
  fun w =>
    match processor w with
    | None =>
        (Return tt, with_processor (Some 0) (with_dev (upd_processing_commands true (dev w)) w))
    | Some _ => (Return tt, w)
    end.

(** [await future] before [deadline]: the caller is suspended while the
    processor task takes its turns; [fuel] bounds the turns waited
    for.  The timeout that cancels the waiting caller cancels the
    future it waits for. *)
Fixpoint await_future (fuel : nat) (fut : nat) (deadline : Z) (w : World)
    : outcome bool * World :=
  if deadline <? clock w then (Raise Cancelled, cancel fut w)
  else
    match futures w !! fut with
    | Some r => (r, w)
    | None =>
        match fuel, processor w with
        | S fuel', Some _ => await_future fuel' fut deadline (_process_command_queue 1 w)
        | _, _ => (Raise Cancelled, cancel fut w)
        end
    end.

(** [_queue_command(uuid, data)], awaited until [deadline].  Every turn
    of the processor takes a command off a non-empty queue, so the wait
    is over within as many turns as the queue is long
    ([await_future_enough] below). *)
Definition _queue_command (uuid : string) (data : list byte) (deadline : Z) : M bool :=
  let* future := new_future in
  let* q := self _command_queue in
  assign upd_command_queue
    (q ++ [{| cmd_uuid := uuid; cmd_data := data; cmd_future := future |}])%list ;;
  let* processing := self _processing_commands in
  (if negb processing then _start_command_processor else ret tt) ;;
  (fun w => await_future (S (length (_command_queue (dev w)))) future deadline w).

(** [_send_command(characteristic_uuid, data)]. *)
Definition _send_command (characteristic_uuid : string) (data : list byte) : M bool :=
  fun w =>
    match asyncio_timeout 10000
            (_queue_command characteristic_uuid data (clock w + 10000)) w with
    | (Raise TimeoutError, w') =>
        (assign upd_is_connected false ;; raise TimeoutError) w'
    | r => r
    end.

(** [turn_heater_on()]. *)
Definition turn_heater_on : M unit :=
  _send_command heat_on_uuid [x00] ;;
  assign upd_heater_on true ;;
  let* t := time_time in
  assign upd_last_heater_change_time t ;;
  assign upd_heater_change_source "user_command".

(** [turn_heater_off()]. *)
Definition turn_heater_off : M unit :=
  _send_command heat_off_uuid [x00] ;;
  assign upd_heater_on false ;;
  let* t := time_time in
  assign upd_last_heater_change_time t ;;
  assign upd_heater_change_source "user_command".

(** [set_target_temperature(temperature)]; the handler logs and
    raises again. *)
Definition set_target_temperature (temperature : Z) : M unit :=
  try_except
    (let temperature := Z.max 40 (Z.min 230 temperature) in
     let packed_data := pack_u32_le (temperature * 10) in
     _send_command target_temp_uuid packed_data ;;
     assign upd_target_temperature temperature)
    (fun e => raise e).

(** [set_brightness(brightness)]. *)
Definition set_brightness (brightness : Z) : M unit :=
  try_except
    (let brightness := Z.max 0 (Z.min 100 brightness) in
     let packed_data := pack_u16_le brightness in
     _send_command screen_brightness_uuid packed_data ;;
     assign upd_brightness brightness)
    (fun e => raise e).

(** [_fast_read_current_temperature()].  The connection lock is free
    whenever one coroutine runs at a time. *)
Definition _fast_read_current_temperature : M Z :=
  let* t := time_time in
  let* cache_time := self _temp_cache_time in
  if t - cache_time <? _temp_cache_duration then self _current_temperature
  else
    try_except
      (let* connected := self _is_connected in
       let* has_client := self client in
       if negb connected || negb has_client then raise ConnectionError
       else
         try_except
           (let* value := wait_for (read_gatt_char current_temp_uuid) 2000 in
            let* t := time_time in
            assign upd_last_command_time t ;;
            assign upd_current_temperature_raw (hex_or_None value) ;;
            if (2 <=? length value)%nat then
              let decoded_value := getitem value 0 + getitem value 1 * 256 in
              let temperature := round_div10 decoded_value in
              if (1000 <? temperature) || (temperature <? 0)
              then self _current_temperature
              else
                assign upd_current_temperature temperature ;;
                let* t := time_time in
                assign upd_temp_cache_time t ;;
                ret temperature
            else self _current_temperature)
           (fun e => self _current_temperature))
      (fun e => self _current_temperature).

(** The fallback of [read_current_temperature()] after the fast read:
    the body of its second [try]. *)
Definition full_read_current_temperature : M Z :=
  try_except
    (asyncio_timeout 3000
       (_ensure_connected ;;
        try_except
          (let* returned :=
             try_except
               (let* value := read_gatt_char current_temp_uuid in
                let* t := time_time in
                assign upd_last_command_time t ;;
                assign upd_current_temperature_raw (hex_or_None value) ;;
                if (2 <=? length value)%nat then
                  let decoded_value := getitem value 0 + getitem value 1 * 256 in
                  let temperature := round_div10 decoded_value in
                  if (1000 <? temperature) || (temperature <? 0)
                  then
                    let* current := self _current_temperature in
                    ret (Some current)
                  else
                    assign upd_current_temperature temperature ;;
                    let* t := time_time in
                    assign upd_temp_cache_time t ;;
                    ret (Some temperature)
                else ret None)
               (fun e => ret None) in
           match returned with
           | Some temperature => ret temperature
           | None =>
               let* value := read_gatt_char register_one_uuid in
               let* t := time_time in
               assign upd_last_command_time t ;;
               assign upd_register_one_raw (hex_or_None value) ;;
               let* b0 := getitem_exn value 0 in
               let* b1 := getitem_exn value 1 in
               let decoded_value := b0 + b1 * 256 in
               let temperature := Z.land decoded_value 0xFF in
               if (1000 <? temperature) || (temperature <? 0)
               then self _current_temperature
               else
                 assign upd_current_temperature temperature ;;
                 let* t := time_time in
                 assign upd_temp_cache_time t ;;
                 ret temperature
           end)
          (fun e => self _current_temperature)))
    (fun e => self _current_temperature).

(** [read_current_temperature()]. *)
Definition read_current_temperature : M Z :=
  let* fast :=
    try_except
      (let* temp := _fast_read_current_temperature in
       ret (if 0 <? temp then Some temp else None))
      (fun e => ret None) in
  match fast with
  | Some temp => ret temp
  | None => full_read_current_temperature
  end.

(** [_fast_read_target_temperature()]. *)
Definition _fast_read_target_temperature : M Z :=
  try_except
    (let* connected := self _is_connected in
     let* has_client := self client in
     if negb connected || negb has_client then raise ConnectionError
     else
       try_except
         (let* value := wait_for (read_gatt_char target_temp_uuid) 2000 in
          let* t := time_time in
          assign upd_last_command_time t ;;
          assign upd_target_temperature_raw (hex_or_None value) ;;
          if (2 <=? length value)%nat then
            let decoded_value := getitem value 0 + getitem value 1 * 256 in
            let temperature := round_div10 decoded_value in
            assign upd_target_temperature temperature ;;
            ret temperature
          else self _target_temperature)
         (fun e => self _target_temperature))
    (fun e => self _target_temperature).

(** [read_target_temperature()]. *)
Definition read_target_temperature : M Z :=
  let* fast :=
    try_except
      (let* temp := _fast_read_target_temperature in
       ret (if 0 <? temp then Some temp else None))
      (fun e => ret None) in
  match fast with
  | Some temp => ret temp
  | None =>
      try_except
        (asyncio_timeout 3000
           (_ensure_connected ;;
            try_except
              (let* value := read_gatt_char target_temp_uuid in
               let* t := time_time in
               assign upd_last_command_time t ;;
               assign upd_target_temperature_raw (hex_or_None value) ;;
               if (2 <=? length value)%nat then
                 let decoded_value := getitem value 0 + getitem value 1 * 256 in
                 let temperature := round_div10 decoded_value in
                 assign upd_target_temperature temperature ;;
                 ret temperature
               else self _target_temperature)
              (fun e => self _target_temperature)))
        (fun e => self _target_temperature)
  end.

(** [_reconnect()]: the wait, then the attempts of
    [for attempt in range(5)]. *)
Fixpoint reconnect_attempts (attempts : list Z) : M unit :=
  match attempts with
  | [] => ret tt
  | attempt :: rest =>
      let* connected :=
        try_except connect (fun e => ret false) in
      if connected then ret tt
      else
        sleep (1000 * Z.min 30 (2 ^ attempt)) ;;
        reconnect_attempts rest
  end.

Definition _reconnect : M unit :=
  sleep 2000 ;;
  reconnect_attempts [0; 1; 2; 3; 4].

End Engine.

(** ** Background reader: auto-off time *)

(** The decoding of the auto-off time in [_read_device_information],
    from the value read ([None] when no read succeeded) to the seconds
    stored in [_auto_off_time_seconds].  [minutes] stays unbound when
    neither length test holds; using it then raises, and the handler
    stores the default. *)
Definition auto_off_seconds (auto_off_value : option (list byte)) : Z :=
  match auto_off_value with
  | Some value =>
      if truthy value && (2 <=? length value)%nat then
        let minutes :=
          if (length value =? 1)%nat then Some (getitem value 0)
          else if (2 <=? length value)%nat then
            let minutes := from_bytes_little (firstn 2 value) in
            if 180 <? minutes then
              if minutes mod 60 =? 0 then Some (minutes / 60) else Some minutes
            else Some minutes
          else None in
        match minutes with
        | Some minutes =>
            let minutes := if (minutes <? 1) || (180 <? minutes) then 30 else minutes in
            minutes * 60
        | None => 30 * 60
        end
      else 30 * 60
  | None => 30 * 60
  end.

(** The auto-off part of [_read_device_information()]. *)
Definition read_auto_off_time : M unit :=
  try_except
    (let* first :=
       try_except
         (let* found := _characteristic_exists auto_shutoff_setting_uuid in
          if found then
            let* value := wait_for (read_gatt_char auto_shutoff_setting_uuid) 2000 in
            ret (Some value)
          else ret None)
         (fun e => ret None) in
     let falsy := match first with Some value => negb (truthy value) | None => true end in
     let* found := if falsy then _characteristic_exists auto_shutoff_uuid else ret false in
     let* auto_off_value :=
       if found then
         try_except
           (let* value := wait_for (read_gatt_char auto_shutoff_uuid) 2000 in
            ret (Some value))
           (fun e => ret first)
       else ret first in
     assign upd_auto_off_time_raw
       (match auto_off_value with Some value => hex_or_None value | None => None end) ;;
     assign upd_auto_off_time_seconds (auto_off_seconds auto_off_value))
    (fun e => assign upd_auto_off_time_seconds (30 * 60)).

(** ** Brightness animation (coordinator) *)

Definition ANIMATION_NONE := "none".
Definition ANIMATION_BLINKING := "blinking".
Definition ANIMATION_BREATHING := "breathing".
Definition ANIMATION_ASCENDING := "ascending".
Definition ANIMATION_DESCENDING := "descending".

Definition MIN_BRIGHTNESS : Z := 0.
Definition MAX_BRIGHTNESS : Z := 100.
Definition interval : Z := 8.

(** The locals of [_animation_loop]; [sleep_time] in milliseconds. *)
Record Animation : Type := {
  brightness : Z;
  increment : bool;
  sleep_time : Z
}.

(** The locals where the loop starts. *)
Definition animation_start : Animation :=
  {| brightness := MIN_BRIGHTNESS; increment := true; sleep_time := 100 |}.

(** The first half of one turn of the loop of [_animation_loop]: the
    next brightness, which the second half passes to [set_brightness].
    [None] is the [break] of an unknown animation type. *)
Definition animation_tick (animation_type : string) (a : Animation) : option Animation :=
  if String.eqb animation_type ANIMATION_BLINKING then
    Some {| brightness := if brightness a =? 100 then 0 else 100;
            increment := increment a; sleep_time := 500 |}
  else if String.eqb animation_type ANIMATION_BREATHING then
    let b := brightness a + (if increment a then interval else - interval) in
    let inc :=
      if (MAX_BRIGHTNESS <=? b) || (b <=? MIN_BRIGHTNESS)
      then negb (increment a) else increment a in
    Some {| brightness := Z.min (Z.max b MIN_BRIGHTNESS) MAX_BRIGHTNESS;
            increment := inc; sleep_time := sleep_time a |}
  else if String.eqb animation_type ANIMATION_ASCENDING then
    let b := if MAX_BRIGHTNESS <=? brightness a then - interval else brightness a in
    Some {| brightness := Z.min (interval + b) MAX_BRIGHTNESS;
            increment := increment a; sleep_time := sleep_time a |}
  else if String.eqb animation_type ANIMATION_DESCENDING then
    let b :=
      if brightness a <=? MIN_BRIGHTNESS then MAX_BRIGHTNESS + interval else brightness a in
    Some {| brightness := Z.max (b - interval) MIN_BRIGHTNESS;
            increment := increment a; sleep_time := sleep_time a |}
  else None.

(** The locals after [ticks] turns of the loop, while [_is_animating]
    stays set. *)
Fixpoint animation_after (animation_type : string) (ticks : nat) : option Animation :=
  match ticks with
  | O => Some animation_start
  | S n =>
      match animation_after animation_type n with
      | Some a => animation_tick animation_type a
      | None => None
      end
  end.

(** ** More of the device object *)

Definition upd_client (v : bool) (d : Device) : Device :=
  {| _current_temperature := _current_temperature d;
     _target_temperature := _target_temperature d; _heater_on := _heater_on d;
     _fan_on := _fan_on d; _brightness := _brightness d; _is_connected := _is_connected d;
     client := v; _last_command_time := _last_command_time d;
     _last_heater_change_time := _last_heater_change_time d;
     _heater_change_source := _heater_change_source d;
     _auto_off_time_seconds := _auto_off_time_seconds d; _command_queue := _command_queue d;
     _processing_commands := _processing_commands d; _temp_cache_time := _temp_cache_time d;
     _current_temperature_raw := _current_temperature_raw d;
     _target_temperature_raw := _target_temperature_raw d;
     _register_one_raw := _register_one_raw d; _auto_off_time_raw := _auto_off_time_raw d |}.

(** [try: c finally: f]. *)
Definition try_finally {A} (c : M A) (f : M unit) : M A :=
  fun w =>
    match c w with
    | (r, w') =>
        match f w' with
        | (Return _, w'') => (r, w'')
        | (Raise e, w'') => (Raise e, w'')
        end
    end.

(** A call of the client that carries no data: [stop_notify],
    [disconnect]. *)
Definition client_call : M unit :=
  let* f := next_fault in
  match f with
  | NoFault => ret tt
  | LinkError => raise BleakError
  | Hang => raise Cancelled
  end.

(** One turn of the loop of [_keepalive_loop]. *)
Definition keepalive_iteration : M unit :=
  try_except
    (let* t := time_time in
     let* last := self _last_command_time in
     if 20000 <? t - last then
       try_except
         (let* value := read_gatt_char register_one_uuid in
          let* t := time_time in
          assign upd_last_command_time t ;;
          assign upd_register_one_raw (hex_or_None value))
         (fun e => ret tt)
     else ret tt)
    (fun e => ret tt) ;;
  sleep 10000.

(** [_keepalive_loop()], for at most [fuel] turns. *)
Fixpoint _keepalive_loop (fuel : nat) (w : World) : outcome unit * World :=
  if _is_connected (dev w) then
    match fuel with
    | O => (Return tt, w)
    | S fuel' =>
        match keepalive_iteration w with
        | (Return _, w') => _keepalive_loop fuel' w'
        | (Raise e, w') => (Raise e, w')
        end
    end
  else (Return tt, w).

Section Operations.

Variable connect_effect : M bool.

(** [turn_fan_on()]. *)
Definition turn_fan_on : M unit :=
  _send_command connect_effect fan_on_uuid [x00] ;;
  assign upd_fan_on true.

(** [turn_fan_off()]. *)
Definition turn_fan_off : M unit :=
  _send_command connect_effect fan_off_uuid [x00] ;;
  assign upd_fan_on false.

(** [fan_timer(duration, turn_off_heat, turn_off_screen)], up to the
    task it creates, which is [_fan_timer_task]. *)
Definition fan_timer : M unit :=
  _ensure_connected connect_effect ;;
  turn_fan_on.

(** [_fan_timer_task(duration, turn_off_heat, turn_off_screen)], with
    [duration] in milliseconds. *)
Definition _fan_timer_task (duration : Z) (turn_off_heat turn_off_screen : bool) : M unit :=
  sleep duration ;;
  try_except
    (turn_fan_off ;;
     (if turn_off_heat then turn_heater_off connect_effect else ret tt) ;;
     (if turn_off_screen then set_brightness connect_effect 0 else ret tt))
    (fun e => ret tt).

(** [set_auto_off_time(minutes)].  The result [false] stands for the
    exception the method raises when no write succeeded; it raises
    nothing else, its inner handlers catch what the writes raise. *)
Definition set_auto_off_time (minutes : Z) : M bool :=
  let minutes := Z.max 1 (Z.min 180 minutes) in
  let seconds := minutes * 60 in
  let packed_data := pack_u16_le seconds in
  let* found := _characteristic_exists auto_shutoff_setting_uuid in
  let* success :=
    if found then
      try_except
        (_send_command connect_effect auto_shutoff_setting_uuid packed_data ;; ret true)
        (fun e => ret false)
    else ret false in
  let* found := if negb success then _characteristic_exists auto_shutoff_uuid else ret false in
  let* success :=
    if found then
      try_except
        (_send_command connect_effect auto_shutoff_uuid packed_data ;; ret true)
        (fun e => ret false)
    else ret success in
  if success then
    assign upd_auto_off_time_seconds (minutes * 60) ;; ret true
  else ret false.

(** [disconnect()].  The processor task, told to stop, ends at the next
    test of its loop condition. *)
Definition disconnect : M unit :=
  assign upd_processing_commands false ;;
  (fun w => (Return tt, _process_command_queue connect_effect 1 w)) ;;
  let* has_client := self client in
  let* connected := self _is_connected in
  if has_client && connected then
    try_finally
      (try_except (client_call ;; client_call) (fun e => ret tt))
      (assign upd_is_connected false ;; assign upd_client false)
  else ret tt.

End Operations.

(** ** Callers: light and number entities, coordinator *)

(** [VolcanoScreenLight.brightness]: [int(percent * 255 / 100)] for a
    percentage that is not negative.  The quotient is an integer or at
    least 1/100 away from one, so the truncation of the floating-point
    quotient is the integer quotient. *)
Definition light_brightness (percent : Z) : Z := percent * 255 / 100.

(** The percentage [VolcanoScreenLight.async_turn_on] passes on:
    [int(brightness * 100 / 255)]. *)
Definition light_brightness_percent (brightness : Z) : Z := brightness * 100 / 255.

(** [VolcanoAutoOffTimeNumber.native_value], from the stored seconds. *)
Definition auto_off_native_value (seconds : Z) : Z :=
  if seconds =? 0 then 30 else seconds / 60.

(** What [async_connect] reports after the call of [connect]. *)
Inductive connect_report : Type :=
| ConnectedNow
| WillRetry
| GaveUp.

Definition _max_connection_retries : Z := 5.

(** The retry counter of [async_connect]: the new
    [_connection_retry_count] and what is reported ([UpdateFailed] with
    one of two messages, or success). *)
Definition async_connect_count (success : bool) (_connection_retry_count : Z)
    : Z * connect_report :=
  if negb success then
    let count := _connection_retry_count + 1 in
    if _max_connection_retries <? count then (0, GaveUp) else (count, WillRetry)
  else (0, ConnectedNow).

(** * Vocabulary of the statements *)

(** The little-endian 16-bit word of the first two bytes of a payload. *)
Definition status_word (data : list byte) : Z := from_bytes_little (firstn 2 data).

(** The flags a status word carries. *)
Definition fan_bit (data : list byte) : bool :=
  negb (Z.land (status_word data) 0x2000 =? 0).

Definition heater_bit (data : list byte) : bool :=
  negb (Z.land (status_word data) 0x0020 =? 0).

(** The two ways for a notification to pass the override window. *)
Definition window_passed (now : Z) (d : Device) : Prop :=
  5000 < now - _last_heater_change_time d \/ _heater_change_source d <> "user_command".

(** A device whose heater the user switched on at time 1000. *)
Definition heater_set_by_user : Device :=
  upd_heater_change_source "user_command"
    (upd_last_heater_change_time 1000 (upd_heater_on true init)).

(** A connected object that holds a client and whose processor flag is
    set, otherwise as created. *)
Definition linked : Device :=
  {| _current_temperature := 0; _target_temperature := 0; _heater_on := false;
     _fan_on := false; _brightness := 70; _is_connected := true; client := true;
     _last_command_time := 0; _last_heater_change_time := 0;
     _heater_change_source := "init"; _auto_off_time_seconds := 0;
     _command_queue := []; _processing_commands := true; _temp_cache_time := 0;
     _current_temperature_raw := None; _target_temperature_raw := None;
     _register_one_raw := None; _auto_off_time_raw := None |}.

(** The world of object [d] at time [t], with characteristic table [p]
    and upcoming faults [fs]; the processor task runs and no future is
    resolved. *)
Definition world_of (d : Device) (p : gmap string (list byte)) (fs : list fault) (t : Z)
    : World :=
  {| dev := d; peer := p; faults := fs; clock := t; trace := []; futures := ∅;
     next_future := 0; processor := Some 0 |}.

(** The sleep that follows failed attempt number [attempt], in
    milliseconds. *)
Definition backoff (attempt : Z) : Z := 1000 * Z.min 30 (2 ^ attempt).

(** What a run of failed attempts leaves in the trace. *)
Definition failed_attempts (attempts : list Z) : list event :=
  flat_map (fun attempt => [ConnectCalled; Slept (backoff attempt)]) attempts.

(** The arguments of the sleeps of a trace, in order. *)
Definition sleeps (t : list event) : list Z :=
  flat_map (fun e => match e with Slept ms => [ms] | ConnectCalled => [] end) t.

(** [connect] fails every time: it returns [False] or raises an
    exception that [except Exception] catches. *)
Definition connect_fails (connect_effect : M bool) : Prop :=
  forall w, match fst (connect_effect w) with
            | Return true | Raise Cancelled => False
            | _ => True
            end.

(** A [connect] that finds nothing and returns [False]. *)
Definition connect_never : M bool := ret false.

(** The world after the sleep that keeps two commands
    [_command_rate_limit] apart. *)
Definition paced (last_command_time : Z) (w : World) : World :=
  if clock w - last_command_time <? _command_rate_limit
  then snd (sleep (_command_rate_limit - (clock w - last_command_time)) w)
  else w.

(** Two commands, as [turn_heater_on] and [turn_fan_on] queue them. *)
Definition first_command : Command :=
  {| cmd_uuid := heat_on_uuid; cmd_data := [x00]; cmd_future := 0 |}.

Definition second_command : Command :=
  {| cmd_uuid := fan_on_uuid; cmd_data := [x00]; cmd_future := 1 |}.

(** A world with the two commands queued, [first_command] ahead, whose
    next write meets a link error. *)
Definition two_queued : World :=
  {| dev := upd_command_queue [first_command; second_command] linked;
     peer := ∅; faults := [LinkError]; clock := 5000; trace := [];
     futures := ∅; next_future := 2; processor := Some 0 |}.

(** The queue holds a command whose future is [fut], with fewer than
    [n] commands ahead of it. *)
Definition queued_within (n : nat) (fut : nat) (w : World) : Prop :=
  exists ahead cmd behind,
    _command_queue (dev w) = ahead ++ cmd :: behind
    /\ cmd_future cmd = fut
    /\ (length ahead < n)%nat.

(** The link is up, the processor task runs and waits on an empty queue,
    no fault is coming, and the next future is unresolved. *)
Definition ready (w : World) : Prop :=
  _is_connected (dev w) = true
  /\ client (dev w) = true
  /\ _processing_commands (dev w) = true
  /\ _command_queue (dev w) = []
  /\ (exists last, processor w = Some last /\ last <= clock w)
  /\ faults w = []
  /\ futures w !! next_future w = None.

(** The cache is older than [_temp_cache_duration]. *)
Definition stale (w : World) : Prop :=
  _temp_cache_duration <= clock w - _temp_cache_time (dev w).

(** A connected object whose cache holds 180 degrees since time 0, at
    time 5000, with the temperature characteristic at 1808 tenths. *)
Definition warm (fs : list fault) : World :=
  world_of (upd_current_temperature 180 linked) {[current_temp_uuid := [x10; x07]]} fs 5000.

(** A connected object just created (cached temperature 0) whose next
    two transport operations meet a link error, while the status
    characteristic reads 0x37 0x00. *)
Definition cold_start : World :=
  world_of linked {[register_one_uuid := [x37; x00]]} [LinkError; LinkError] 5000.

(** What the object holds about the appliance and about the last heater
    change: everything but the connection, the queue and the raw bytes
    kept for debugging. *)
Definition readings (d : Device) : Z * Z * bool * bool * Z * Z * string * Z * Z :=
  (_current_temperature d, _target_temperature d, _heater_on d, _fan_on d, _brightness d,
   _last_heater_change_time d, _heater_change_source d, _temp_cache_time d,
   _auto_off_time_seconds d).

(** The number of calls of [connect] in a trace. *)
Fixpoint connect_calls (t : list event) : nat :=
  match t with
  | [] => 0
  | ConnectCalled :: rest => S (connect_calls rest)
  | Slept _ :: rest => connect_calls rest
  end.

(** From [w] to [w'] the readings stayed and [connect] was not called. *)
Definition untouched (w w' : World) : Prop :=
  readings (dev w') = readings (dev w)
  /\ connect_calls (trace w') = connect_calls (trace w).

(** The characteristic table after the writes of a list of commands,
    first to last. *)
Definition written (q : list Command) (p : gmap string (list byte))
    : gmap string (list byte) :=
  fold_left (fun p cmd => <[cmd_uuid cmd := cmd_data cmd]> p) q p.

(** The futures after each of a list of commands has succeeded. *)
Definition succeeded (q : list Command) (f : gmap nat (outcome bool))
    : gmap nat (outcome bool) :=
  fold_left (fun f cmd => <[cmd_future cmd := Return true]> f) q f.

(** Every command of [q] has a future of its own, and none of these
    futures is done: no sender has timed out. *)
Definition pending (q : list Command) (w : World) : Prop :=
  NoDup (map cmd_future q) /\ Forall (fun c => futures w !! cmd_future c = None) q.

(** An object that was never connected, in a world without a processor
    task. *)
Definition offline : World :=
  {| dev := init; peer := ∅; faults := []; clock := 0; trace := []; futures := ∅;
     next_future := 0; processor := None |}.

(** The handler of the transport run over notifications
    [(data, time of arrival)], first to last. *)
Definition notify_all (events : list (option (list byte) * Z)) (d : Device) : Device :=
  fold_left (fun d e => _notification_handler (fst e) (snd e) d) events d.

(** The cached current temperature is one the reads accept. *)
Definition plausible (d : Device) : Prop := 0 <= _current_temperature d <= 1000.

(** Computation [c] keeps property [P] of the object, whatever it
    returns or raises. *)
Definition preserves {A} (P : Device -> Prop) (c : M A) : Prop :=
  forall w, P (dev w) -> P (dev (snd (c w))).

(** The animation types the loop knows. *)
Definition patterns : list string :=
  [ANIMATION_BLINKING; ANIMATION_BREATHING; ANIMATION_ASCENDING; ANIMATION_DESCENDING].

(** The retry counter after a history of calls of [async_connect], the
    latest first, each with the result of its [connect]. *)
Fixpoint count_after (history : list bool) : Z :=
  match history with
  | [] => 0
  | success :: earlier => fst (async_connect_count success (count_after earlier))
  end.

(** The number of failures since the last success, the latest call
    first. *)
Fixpoint failures_in_a_row (history : list bool) : nat :=
  match history with
  | false :: earlier => S (failures_in_a_row earlier)
  | _ => 0
  end.

(** ** Proof steps *)

(** Projections of updated objects and worlds. *)
Ltac world_simpl :=
  cbn [_current_temperature _target_temperature _heater_on _fan_on _brightness
       _is_connected client _last_command_time _last_heater_change_time
       _heater_change_source _auto_off_time_seconds _command_queue _processing_commands
       _temp_cache_time _current_temperature_raw _target_temperature_raw _register_one_raw
       _auto_off_time_raw upd_current_temperature upd_target_temperature upd_heater_on
       upd_fan_on upd_brightness upd_is_connected upd_last_command_time
       upd_last_heater_change_time upd_heater_change_source upd_auto_off_time_seconds
       upd_command_queue upd_processing_commands upd_temp_cache_time
       upd_current_temperature_raw upd_target_temperature_raw upd_register_one_raw
       upd_auto_off_time_raw dev peer faults clock trace futures next_future processor
       with_dev with_peer with_faults with_clock with_trace with_futures with_next_future
       with_processor cmd_uuid cmd_data cmd_future fst snd andb orb negb].

(** Unfolding of the coroutine primitives. *)
Ltac run :=
  repeat (progress (unfold ret, raise, bind, self, assign, time_time, try_except,
                    asyncio_timeout, wait_for, sleep, next_fault, resolve, new_future;
                    world_simpl)).

(** The same in a hypothesis, and with the client attribute. *)
Tactic Notation "world_simpl" "in" hyp(H) :=
  cbn [_current_temperature _target_temperature _heater_on _fan_on _brightness
       _is_connected client _last_command_time _last_heater_change_time
       _heater_change_source _auto_off_time_seconds _command_queue _processing_commands
       _temp_cache_time _current_temperature_raw _target_temperature_raw _register_one_raw
       _auto_off_time_raw upd_current_temperature upd_target_temperature upd_heater_on
       upd_fan_on upd_brightness upd_is_connected upd_last_command_time
       upd_last_heater_change_time upd_heater_change_source upd_auto_off_time_seconds
       upd_command_queue upd_processing_commands upd_temp_cache_time
       upd_current_temperature_raw upd_target_temperature_raw upd_register_one_raw
       upd_auto_off_time_raw upd_client dev peer faults clock trace futures next_future
       processor with_dev with_peer with_faults with_clock with_trace with_futures
       with_next_future with_processor cmd_uuid cmd_data cmd_future fst snd andb orb negb]
    in H.

Ltac object_simpl :=
  cbn [_current_temperature _target_temperature _heater_on _fan_on _brightness
       _is_connected client _last_command_time _last_heater_change_time
       _heater_change_source _auto_off_time_seconds _command_queue _processing_commands
       _temp_cache_time _current_temperature_raw _target_temperature_raw _register_one_raw
       _auto_off_time_raw upd_current_temperature upd_target_temperature upd_heater_on
       upd_fan_on upd_brightness upd_is_connected upd_last_command_time
       upd_last_heater_change_time upd_heater_change_source upd_auto_off_time_seconds
       upd_command_queue upd_processing_commands upd_temp_cache_time
       upd_current_temperature_raw upd_target_temperature_raw upd_register_one_raw
       upd_auto_off_time_raw upd_client dev peer faults clock trace futures next_future
       processor with_dev with_peer with_faults with_clock with_trace with_futures
       with_next_future with_processor cmd_uuid cmd_data cmd_future fst snd andb orb negb].

(** * Properties *)

(** ** Bytes and rounding *)

Lemma byte_val_range (b : byte) : 0 <= byte_val b < 256.
Proof.
  unfold byte_val. pose proof (Byte.to_N_bounded b) as Hb. lia.
Qed.

Lemma byte_val_of_Z (n : Z) : 0 <= n < 256 -> byte_val (byte_of_Z n) = n.
Proof.
  intros Hn. unfold byte_val, byte_of_Z.
  rewrite Z.mod_small by lia.
  destruct (Byte.of_N (Z.to_N n)) as [b|] eqn:Hof.
  - apply Byte.to_of_N in Hof. rewrite Hof. lia.
  - apply Byte.of_N_None_iff in Hof. lia.
Qed.

Lemma byte_val_of_Z_mod (n : Z) : byte_val (byte_of_Z n) = n mod 256.
Proof.
  transitivity (byte_val (byte_of_Z (n mod 256))).
  - unfold byte_of_Z. now rewrite Z.mod_mod by lia.
  - apply byte_val_of_Z. apply Z.mod_pos_bound. lia.
Qed.

Lemma round_div10_exact (t : Z) : round_div10 (t * 10) = t.
Proof.
  unfold round_div10.
  rewrite Z.div_mul by lia. rewrite Z.mod_mul by lia. reflexivity.
Qed.

(** ** Notification decoder *)

Lemma decoded_value_word (data : list byte) :
  (2 <= length data)%nat ->
  getitem data 0 + getitem data 1 * 256 = status_word data.
Proof.
  destruct data as [|b0 [|b1 rest]]; simpl; try lia.
  intros _. unfold status_word, getitem. simpl. lia.
Qed.

Lemma status_word_range (data : list byte) : 0 <= status_word data < 65536.
Proof.
  unfold status_word.
  destruct data as [|b0 [|b1 rest]]; simpl.
  - lia.
  - pose proof (byte_val_range b0). lia.
  - pose proof (byte_val_range b0). pose proof (byte_val_range b1). lia.
Qed.

Lemma long_payload_guard (data : list byte) :
  (2 <= length data)%nat -> negb (truthy data) || (length data <? 2)%nat = false.
Proof.
  intros Hlen. destruct data as [|b0 [|b1 rest]]; simpl in *; try lia. reflexivity.
Qed.

(** The heater flag after a payload of two bytes or more: the gate of
    the source decides between the payload's bit and the old flag. *)
Lemma heater_after_payload (data : list byte) (source : string) (now : Z) (d : Device) :
  (2 <= length data)%nat ->
  _heater_on (_process_notification (Some data) source now d) =
  if String.eqb source "user_command"
     || (5000 <? now - _last_heater_change_time d)
     || negb (String.eqb (_heater_change_source d) "user_command")
  then heater_bit data else _heater_on d.
Proof.
  intros Hlen. unfold _process_notification.
  rewrite long_payload_guard by exact Hlen.
  rewrite decoded_value_word by exact Hlen.
  fold (heater_bit data).
  destruct (String.eqb source "user_command"
            || (5000 <? now - _last_heater_change_time d)
            || negb (String.eqb (_heater_change_source d) "user_command"));
    match goal with
    | |- context [if ?c then _ else _] => destruct c
    end; reflexivity.
Qed.

(** The fan flag after a payload of two bytes or more. *)
Lemma fan_after_payload (data : list byte) (source : string) (now : Z) (d : Device) :
  (2 <= length data)%nat ->
  _fan_on (_process_notification (Some data) source now d) = fan_bit data.
Proof.
  intros Hlen. unfold _process_notification.
  rewrite long_payload_guard by exact Hlen.
  rewrite decoded_value_word by exact Hlen.
  fold (fan_bit data).
  repeat match goal with
  | |- context [if ?c then _ else _] => destruct c
  end; reflexivity.
Qed.

Lemma gate_notification (now : Z) (d : Device) :
  String.eqb "notification" "user_command"
  || (5000 <? now - _last_heater_change_time d)
  || negb (String.eqb (_heater_change_source d) "user_command") = true
  <-> window_passed now d.
Proof.
  unfold window_passed. simpl.
  rewrite orb_true_iff, Z.ltb_lt, negb_true_iff, String.eqb_neq. reflexivity.
Qed.

Lemma gate_source (source : string) (now : Z) (d : Device) :
  String.eqb source "user_command"
  || (5000 <? now - _last_heater_change_time d)
  || negb (String.eqb (_heater_change_source d) "user_command") = true
  <-> source = "user_command" \/ window_passed now d.
Proof.
  unfold window_passed.
  rewrite !orb_true_iff, Z.ltb_lt, negb_true_iff, String.eqb_neq, String.eqb_eq.
  tauto.
Qed.

(** C1.  A status payload of two bytes or more that arrives as a
    notification sets the heater flag from the payload when more than
    5 seconds have passed since the last heater change or the recorded
    source of that change is not the user command, and leaves the flag as
    it was otherwise; a payload processed as a user command always sets
    the heater flag. *)
Theorem override_protection (data : list byte) (now : Z) (d : Device) :
  (2 <= length data)%nat ->
  (window_passed now d ->
   _heater_on (_process_notification (Some data) "notification" now d) = heater_bit data)
  /\ (~ window_passed now d ->
      _heater_on (_process_notification (Some data) "notification" now d) = _heater_on d)
  /\ _heater_on (_process_notification (Some data) "user_command" now d) = heater_bit data.
Proof.
  intros Hlen. repeat split.
  - intros Hpass. rewrite heater_after_payload by exact Hlen.
    apply gate_notification in Hpass. rewrite Hpass. reflexivity.
  - intros Hclosed. rewrite heater_after_payload by exact Hlen.
    destruct (String.eqb "notification" "user_command"
              || (5000 <? now - _last_heater_change_time d)
              || negb (String.eqb (_heater_change_source d) "user_command")) eqn:Hgate.
    + apply gate_notification in Hgate. contradiction.
    + reflexivity.
  - rewrite heater_after_payload by exact Hlen. reflexivity.
Qed.

Lemma override_protection_witness :
  (2 <= length [x00; x00])%nat
  /\ _heater_on (_process_notification (Some [x00; x00]) "notification" 3000
                   heater_set_by_user) = true
  /\ _heater_on (_process_notification (Some [x00; x00]) "notification" 6001
                   heater_set_by_user) = false.
Proof.
  assert (Hlen : (2 <= length [x00; x00])%nat) by (simpl; lia).
  split; [exact Hlen|]. split.
  - destruct (override_protection [x00; x00] 3000 heater_set_by_user Hlen)
      as (_ & Hkeep & _).
    rewrite Hkeep; [reflexivity|].
    unfold window_passed. simpl. intros [Hlate | Hsrc]; [lia | congruence].
  - destruct (override_protection [x00; x00] 6001 heater_set_by_user Hlen)
      as (Happly & _ & _).
    rewrite Happly; [reflexivity|].
    unfold window_passed. simpl. left. lia.
Defined.

(** C2 as worded, after the user has switched the heater off at time
    1000: bytes 0x20 0x00 that arrive as a notification at time 3000
    carry the heater bit, and the heater flag stays off. *)
Lemma heater_bit_held_back :
  let d := upd_heater_change_source "user_command" (upd_last_heater_change_time 1000 init) in
  let d' := _process_notification (Some [x20; x00]) "notification" 3000 d in
  negb (Z.land (status_word [x20; x00]) 0x0020 =? 0) = true
  /\ _heater_on d = false
  /\ _heater_on d' = false
  /\ _fan_on d' = false.
Proof. repeat split; reflexivity. Qed.

(** C2.  For a payload of two bytes or more the decoded value is the
    little-endian 16-bit word [v] of the first two bytes, and the fan
    flag becomes [(v & 0x2000) != 0].  The heater flag becomes
    [(v & 0x0020) != 0] when the source is the user command, or more
    than 5 seconds have passed since the last heater change, or that
    change was not a user command; otherwise it stays as it is.  So
    bytes 0x20 0x00 give fan off and, where the heater flag is set at
    all, heater on; bytes 0x00 0x20 give fan on and, where the heater
    flag is set at all, heater off. *)
Theorem status_decoding (data : list byte) (source : string) (now : Z) (d : Device) :
  (2 <= length data)%nat ->
  let v := status_word data in
  let d' := _process_notification (Some data) source now d in
  getitem data 0 + getitem data 1 * 256 = v
  /\ 0 <= v < 65536
  /\ _fan_on d' = negb (Z.land v 0x2000 =? 0)
  /\ (source = "user_command" \/ window_passed now d ->
      _heater_on d' = negb (Z.land v 0x0020 =? 0))
  /\ (~ (source = "user_command" \/ window_passed now d) ->
      _heater_on d' = _heater_on d)
  /\ (forall rest,
        let d1 := _process_notification (Some (x20 :: x00 :: rest)) source now d in
        _fan_on d1 = false
        /\ (source = "user_command" \/ window_passed now d -> _heater_on d1 = true)
        /\ (~ (source = "user_command" \/ window_passed now d) ->
            _heater_on d1 = _heater_on d))
  /\ (forall rest,
        let d2 := _process_notification (Some (x00 :: x20 :: rest)) source now d in
        _fan_on d2 = true
        /\ (source = "user_command" \/ window_passed now d -> _heater_on d2 = false)
        /\ (~ (source = "user_command" \/ window_passed now d) ->
            _heater_on d2 = _heater_on d)).
Proof.
  intros Hlen v d'. subst v d'.
  assert (Hheater : forall payload, (2 <= length payload)%nat ->
            (source = "user_command" \/ window_passed now d ->
             _heater_on (_process_notification (Some payload) source now d)
             = heater_bit payload)
            /\ (~ (source = "user_command" \/ window_passed now d) ->
                _heater_on (_process_notification (Some payload) source now d)
                = _heater_on d)).
  { intros payload Hlong. rewrite heater_after_payload by exact Hlong.
    pose proof (gate_source source now d) as Hgate.
    destruct (String.eqb source "user_command"
              || (5000 <? now - _last_heater_change_time d)
              || negb (String.eqb (_heater_change_source d) "user_command")).
    - split; [reflexivity|]. intros Hshut. exfalso. apply Hshut, Hgate. reflexivity.
    - split; [|reflexivity]. intros Hopen. apply Hgate in Hopen. discriminate. }
  split; [apply decoded_value_word; exact Hlen|].
  split; [apply status_word_range|].
  split; [apply fan_after_payload; exact Hlen|].
  split; [apply (Hheater data Hlen)|].
  split; [apply (Hheater data Hlen)|].
  split; intros rest; cbv zeta.
  - split; [rewrite fan_after_payload by (cbn [length]; lia); reflexivity|].
    apply (Hheater (x20 :: x00 :: rest)). cbn [length]. lia.
  - split; [rewrite fan_after_payload by (cbn [length]; lia); reflexivity|].
    apply (Hheater (x00 :: x20 :: rest)). cbn [length]. lia.
Qed.

Lemma status_decoding_witness :
  (2 <= length [x20; x20; x07])%nat
  /\ _fan_on (_process_notification (Some [x20; x20; x07]) "notification" 0 init) = true
  /\ _heater_on (_process_notification (Some [x20; x20; x07]) "notification" 0 init) = true.
Proof.
  assert (Hlen : (2 <= length [x20; x20; x07])%nat) by (simpl; lia).
  split; [exact Hlen|].
  destruct (status_decoding [x20; x20; x07] "notification" 0 init Hlen)
    as (_ & _ & Hfan & Hheat & _).
  split.
  - rewrite Hfan. reflexivity.
  - rewrite Hheat; [reflexivity|].
    right. unfold window_passed. simpl. right. congruence.
Defined.

(** C8.  A payload that is missing, empty or shorter than two bytes
    leaves the whole object as it was: heater flag, fan flag, current
    temperature, cache timestamp and every other attribute.  The handler
    of the transport that wraps the decoding then only records the raw
    bytes. *)
Theorem short_payload_rejected (data : option (list byte)) (source : string)
    (now : Z) (d : Device) :
  (forall l, data = Some l -> (length l < 2)%nat) ->
  _process_notification data source now d = d
  /\ _notification_handler data now d
     = upd_register_one_raw
         (match data with Some data => hex_or_None data | None => None end) d.
Proof.
  intros Hshort.
  assert (Hsame : forall src d0, _process_notification data src now d0 = d0).
  { intros src d0. unfold _process_notification.
    destruct data as [l|]; [|reflexivity].
    specialize (Hshort l eq_refl).
    destruct l as [|b0 [|b1 rest]]; simpl in *; try reflexivity; lia. }
  split; [apply Hsame|].
  unfold _notification_handler. cbv zeta. rewrite Hsame.
  rewrite Bool.eqb_reflx. reflexivity.
Qed.

Lemma short_payload_rejected_witness :
  (forall l, Some [x20] = Some l -> (length l < 2)%nat)
  /\ _process_notification (Some [x20]) "notification" 7000 heater_set_by_user
     = heater_set_by_user
  /\ _heater_on (_notification_handler (Some [x20]) 7000 heater_set_by_user) = true.
Proof.
  assert (Hshort : forall l : list byte, Some [x20] = Some l -> (length l < 2)%nat).
  { intros l Hl. injection Hl as <-. simpl. lia. }
  split; [exact Hshort|].
  destruct (short_payload_rejected (Some [x20]) "notification" 7000 heater_set_by_user
              Hshort) as (Hsame & Hhandler).
  split; [exact Hsame|]. rewrite Hhandler. reflexivity.
Defined.

(** C10.  The fan flag is outside the override window: a payload of two
    bytes or more sets it from bit 0x2000 whatever the source, also when
    the same payload leaves the heater flag alone because the user
    changed the heater within the last 5 seconds. *)
Theorem fan_not_protected (data : list byte) (source : string) (now : Z) (d : Device) :
  (2 <= length data)%nat ->
  let d' := _process_notification (Some data) source now d in
  _fan_on d' = negb (Z.land (status_word data) 0x2000 =? 0)
  /\ (source <> "user_command" -> ~ window_passed now d ->
      _heater_on d' = _heater_on d /\ _fan_on d' = fan_bit data).
Proof.
  intros Hlen d'. subst d'.
  split; [apply fan_after_payload; exact Hlen|].
  intros Hsrc Hclosed. split; [|apply fan_after_payload; exact Hlen].
  rewrite heater_after_payload by exact Hlen.
  destruct (String.eqb source "user_command"
            || (5000 <? now - _last_heater_change_time d)
            || negb (String.eqb (_heater_change_source d) "user_command")) eqn:Hgate.
  - apply gate_source in Hgate. tauto.
  - reflexivity.
Qed.

Lemma fan_not_protected_witness :
  (2 <= length [x00; x20])%nat
  /\ _fan_on (_process_notification (Some [x00; x20]) "notification" 3000
                heater_set_by_user) = true
  /\ _heater_on (_process_notification (Some [x00; x20]) "notification" 3000
                   heater_set_by_user) = true.
Proof.
  assert (Hlen : (2 <= length [x00; x20])%nat) by (simpl; lia).
  split; [exact Hlen|].
  destruct (fan_not_protected [x00; x20] "notification" 3000 heater_set_by_user Hlen)
    as (Hfan & Hsuppressed).
  split.
  - rewrite Hfan. reflexivity.
  - destruct Hsuppressed as (Hheat & _).
    + congruence.
    + unfold window_passed. simpl. intros [Hlate | Hsrc]; [lia | congruence].
    + rewrite Hheat. reflexivity.
Defined.

(** The heater flag after the handler is the flag after the decoding. *)
Lemma handler_heater (data : option (list byte)) (now : Z) (d : Device) :
  _heater_on (_notification_handler data now d)
  = _heater_on
      (_process_notification data "notification" now
         (upd_register_one_raw
            (match data with Some data => hex_or_None data | None => None end) d)).
Proof.
  unfold _notification_handler. cbv zeta.
  destruct (negb (Bool.eqb _ _)); reflexivity.
Qed.

(** After [turn_heater_on] has returned, a notification that reports
    the heater off is ignored for 5 seconds and applied after them. *)
Lemma heater_command_shielded (connect_effect : M bool) (w w' : World)
    (data : list byte) (now : Z) :
  turn_heater_on connect_effect w = (Return tt, w') ->
  (2 <= length data)%nat ->
  heater_bit data = false ->
  _heater_on (dev w') = true
  /\ (now - clock w' <= 5000 ->
      _heater_on (_notification_handler (Some data) now (dev w')) = true)
  /\ (5000 < now - clock w' ->
      _heater_on (_notification_handler (Some data) now (dev w')) = false).
Proof.
  intros Hon Hlen Hbit. unfold turn_heater_on in Hon.
  unfold bind at 1 in Hon.
  destruct (_send_command connect_effect heat_on_uuid [x00] w) as [[sent|e] w1];
    [|discriminate].
  cbn in Hon. injection Hon as <-. cbn [dev with_dev clock].
  split; [reflexivity|].
  rewrite handler_heater, heater_after_payload by exact Hlen.
  rewrite Hbit. cbn. split; intros Hnow.
  - destruct (Z.ltb_spec 5000 (now - clock w1)); [lia|reflexivity].
  - destruct (Z.ltb_spec 5000 (now - clock w1)); [reflexivity|lia].
Qed.

(** ** Brightness animation *)

Lemma breathing_tick (a : Animation) :
  animation_tick ANIMATION_BREATHING a =
  let b := brightness a + (if increment a then interval else - interval) in
  Some {| brightness := Z.min (Z.max b MIN_BRIGHTNESS) MAX_BRIGHTNESS;
          increment := if (MAX_BRIGHTNESS <=? b) || (b <=? MIN_BRIGHTNESS)
                       then negb (increment a) else increment a;
          sleep_time := sleep_time a |}.
Proof. reflexivity. Qed.

Lemma breathing_runs (n : nat) :
  exists a, animation_after ANIMATION_BREATHING n = Some a.
Proof.
  induction n as [|n [a Ha]].
  - exists animation_start. reflexivity.
  - simpl. rewrite Ha. rewrite breathing_tick. eexists. reflexivity.
Qed.

(** One tick of the breathing pattern from any locals: the brightness
    lands in the range, and the direction changes exactly when it lands
    on a bound. *)
Lemma breathing_tick_bounds (a a' : Animation) :
  animation_tick ANIMATION_BREATHING a = Some a' ->
  0 <= brightness a' <= 100
  /\ (increment a' <> increment a <-> brightness a' = 0 \/ brightness a' = 100).
Proof.
  rewrite breathing_tick. cbv zeta. intros Htick. injection Htick as <-.
  unfold MIN_BRIGHTNESS, MAX_BRIGHTNESS, interval. simpl.
  split; [lia|].
  destruct (increment a); simpl;
    match goal with
    | |- context [100 <=? ?b] =>
        destruct (Z.leb_spec 100 b) as [Hhi|Hhi]; destruct (Z.leb_spec b 0) as [Hlo|Hlo]
    end; simpl; split; intros H; try lia; try congruence;
    try (exfalso; apply H; reflexivity).
Qed.

(** The first ticks of the breathing pattern: up to the top in 13 ticks,
    down to the bottom in 13 more. *)
Example breathing_first_ticks :
  map (fun n => option_map brightness (animation_after ANIMATION_BREATHING n))
      [1; 2; 12; 13; 14; 25; 26; 27]%nat
  = [Some 8; Some 16; Some 96; Some 100; Some 92; Some 4; Some 0; Some 8].
Proof. reflexivity. Qed.

(** C9.  The breathing pattern starts at brightness 0 going up by 8; on
    every tick the brightness it produces lies in [0, 100], and the
    direction flips on a tick exactly when the brightness of that tick is
    a bound (0 or 100). *)
Theorem breathe_within_bounds (n : nat) :
  animation_after ANIMATION_BREATHING 0 = Some animation_start
  /\ brightness animation_start = 0 /\ increment animation_start = true
  /\ exists a a',
       animation_after ANIMATION_BREATHING n = Some a
       /\ animation_after ANIMATION_BREATHING (S n) = Some a'
       /\ 0 <= brightness a <= 100
       /\ 0 <= brightness a' <= 100
       /\ (increment a' <> increment a <-> brightness a' = 0 \/ brightness a' = 100).
Proof.
  split; [reflexivity|]. split; [reflexivity|]. split; [reflexivity|].
  destruct (breathing_runs n) as [a Ha].
  destruct (breathing_runs (S n)) as [a' Ha'].
  exists a, a'. split; [exact Ha|]. split; [exact Ha'|].
  assert (Hstep : animation_tick ANIMATION_BREATHING a = Some a').
  { simpl in Ha'. rewrite Ha in Ha'. exact Ha'. }
  split.
  - destruct n as [|m].
    + simpl in Ha. injection Ha as <-. simpl. unfold MIN_BRIGHTNESS. lia.
    + destruct (breathing_runs m) as [a0 Ha0].
      simpl in Ha. rewrite Ha0 in Ha.
      apply breathing_tick_bounds in Ha. tauto.
  - apply breathing_tick_bounds in Hstep. tauto.
Qed.

(** ** Worlds used as concrete inputs *)

(** ** Auto-off time *)

(** What the decoding makes of a value of two bytes or more. *)
Lemma auto_off_two_bytes (value : list byte) :
  (2 <= length value)%nat ->
  auto_off_seconds (Some value) =
  let raw := from_bytes_little (firstn 2 value) in
  let minutes := if (180 <? raw) && (raw mod 60 =? 0) then raw / 60 else raw in
  (if (1 <=? minutes) && (minutes <=? 180) then minutes else 30) * 60.
Proof.
  intros Hlen. unfold auto_off_seconds.
  destruct value as [|b0 [|b1 rest]]; simpl in Hlen; try lia.
  cbn [truthy andb length Nat.leb Nat.eqb].
  cbv zeta.
  set (raw := from_bytes_little (firstn 2 (b0 :: b1 :: rest))).
  destruct (180 <? raw) eqn:Hbig; destruct (raw mod 60 =? 0) eqn:Hdiv; cbn [andb];
    match goal with
    | |- (if (?m <? 1) || (180 <? ?m) then _ else _) * 60 = _ =>
        destruct (Z.ltb_spec m 1); destruct (Z.ltb_spec 180 m);
        destruct (Z.leb_spec 1 m); destruct (Z.leb_spec m 180)
    end; cbn [orb andb]; lia.
Qed.

Example auto_off_3C00 : auto_off_seconds (Some [x3c; x00]) = 60 * 60.
Proof. reflexivity. Qed.

Example auto_off_B404 :
  from_bytes_little [xb4; x04] = 1204 /\ auto_off_seconds (Some [xb4; x04]) = 30 * 60.
Proof. split; reflexivity. Qed.

Example auto_off_seconds_heuristic : auto_off_seconds (Some [x10; x0e]) = 60 * 60.
Proof. reflexivity. Qed.

(** C7, at the one-byte value 0x3C.  The length test that lets a value
    through to the decoding asks for two bytes, so the branch for a
    single byte is never taken: the value is not read as 60 minutes, the
    30-minute default is stored. *)
Theorem auto_off_one_byte_defaults :
  auto_off_seconds (Some [x3c]) = 30 * 60
  /\ _auto_off_time_seconds
       (dev (snd (read_auto_off_time
                    (world_of linked {[auto_shutoff_setting_uuid := [x3c]]} [] 0))))
     = 1800
  /\ _auto_off_time_raw
       (dev (snd (read_auto_off_time
                    (world_of linked {[auto_shutoff_setting_uuid := [x3c]]} [] 0))))
     = Some [x3c].
Proof. repeat split; vm_compute; reflexivity. Qed.

(** ** Reconnection *)

Lemma connect_trace (connect_effect : M bool) (w : World) :
  trace (snd (connect connect_effect w)) = trace w ++ [ConnectCalled].
Proof.
  unfold connect. destruct (connect_effect _) as [r w']. reflexivity.
Qed.

Lemma connect_result (connect_effect : M bool) (w : World) :
  fst (connect connect_effect w) =
  fst (connect_effect (with_trace (trace w ++ [ConnectCalled]) w)).
Proof.
  unfold connect. destruct (connect_effect _) as [r w']. reflexivity.
Qed.

Lemma reconnect_attempts_trace (connect_effect : M bool) (attempts : list Z) (w : World) :
  exists k : nat,
    (k <= length attempts)%nat
    /\ trace (snd (reconnect_attempts connect_effect attempts w))
       = trace w ++ failed_attempts (firstn k attempts)
           ++ (if (k <? length attempts)%nat then [ConnectCalled] else [])
    /\ (connect_fails connect_effect -> k = length attempts).
Proof.
  revert w. induction attempts as [|attempt rest IH]; intros w.
  - exists 0%nat. simpl. rewrite app_nil_r. auto.
  - pose proof (connect_trace connect_effect w) as Htrace.
    pose proof (connect_result connect_effect w) as Hres.
    assert (Hstop : forall w1 : World,
               trace w1 = trace w ++ [ConnectCalled] ->
               match fst (connect_effect (with_trace (trace w ++ [ConnectCalled]) w)) with
               | Return true | Raise Cancelled => True
               | _ => False
               end ->
               exists k : nat,
                 (k <= length (attempt :: rest))%nat
                 /\ trace w1
                    = trace w ++ failed_attempts (firstn k (attempt :: rest))
                        ++ (if (k <? length (attempt :: rest))%nat
                            then [ConnectCalled] else [])
                 /\ (connect_fails connect_effect -> k = length (attempt :: rest))).
    { intros w1 Hw1 Hout. exists 0%nat. cbn. split; [lia|]. split; [exact Hw1|].
      intros Hfails. specialize (Hfails (with_trace (trace w ++ [ConnectCalled]) w)).
      destruct (fst (connect_effect _)) as [[|]|[]]; contradiction. }
    assert (Hnext : forall w1 : World,
               trace w1 = trace w ++ [ConnectCalled] ->
               exists k : nat,
                 (k <= length (attempt :: rest))%nat
                 /\ trace (snd ((sleep (backoff attempt) ;;
                                 reconnect_attempts connect_effect rest) w1))
                    = trace w ++ failed_attempts (firstn k (attempt :: rest))
                        ++ (if (k <? length (attempt :: rest))%nat
                            then [ConnectCalled] else [])
                 /\ (connect_fails connect_effect -> k = length (attempt :: rest))).
    { intros w1 Hw1.
      destruct (IH (with_trace (trace w1 ++ [Slept (backoff attempt)])
                      (with_clock (clock w1 + Z.max 0 (backoff attempt)) w1)))
        as (k & Hk & Hrun & Hall).
      exists (S k). split; [simpl; lia|]. split; [|intros Hf; simpl; f_equal; auto].
      unfold bind, sleep. rewrite Hrun. cbn [trace with_trace with_clock]. rewrite Hw1.
      cbn [firstn failed_attempts flat_map length]. fold (failed_attempts (firstn k rest)).
      rewrite <- !app_assoc. reflexivity. }
    cbn [reconnect_attempts]. fold (backoff attempt).
    unfold bind at 1. unfold try_except at 1.
    destruct (connect connect_effect w) as [[[|]|e] w1]; cbn [fst snd] in *.
    + apply (Hstop w1); [exact Htrace|]. rewrite <- Hres. exact I.
    + apply Hnext. exact Htrace.
    + destruct e; cbn [ret fst snd];
        first [ apply (Hstop w1); [exact Htrace|]; rewrite <- Hres; exact I
              | apply Hnext; exact Htrace ].
Qed.

(** C5.  The reconnect procedure sleeps 2 seconds and then makes at most
    5 attempts; failed attempt number [k] (counted from 0) is followed by
    a sleep of [min(30, 2^k)] seconds, that is 1, 2, 4, 8 and 16
    seconds, and the procedure returns after the sleep that follows the
    fifth failed attempt. *)
Theorem reconnect_backoff (connect_effect : M bool) (w : World) :
  (exists k : nat,
     (k <= 5)%nat
     /\ trace (snd (_reconnect connect_effect w))
        = trace w ++ Slept 2000 :: failed_attempts (firstn k [0; 1; 2; 3; 4])
            ++ (if (k <? 5)%nat then [ConnectCalled] else []))
  /\ map backoff [0; 1; 2; 3; 4] = [1000; 2000; 4000; 8000; 16000]
  /\ (connect_fails connect_effect ->
      trace (snd (_reconnect connect_effect w))
      = trace w ++ [Slept 2000;
                    ConnectCalled; Slept 1000; ConnectCalled; Slept 2000;
                    ConnectCalled; Slept 4000; ConnectCalled; Slept 8000;
                    ConnectCalled; Slept 16000]).
Proof.
  assert (Hstart : _reconnect connect_effect w
                   = reconnect_attempts connect_effect [0; 1; 2; 3; 4]
                       (with_trace (trace w ++ [Slept 2000])
                          (with_clock (clock w + Z.max 0 2000) w))) by reflexivity.
  rewrite Hstart.
  destruct (reconnect_attempts_trace connect_effect [0; 1; 2; 3; 4]
              (with_trace (trace w ++ [Slept 2000])
                 (with_clock (clock w + Z.max 0 2000) w)))
    as (k & Hk & Hrun & Hall).
  cbn [trace with_trace with_clock length] in Hrun, Hk.
  split; [|split].
  - exists k. split; [exact Hk|]. rewrite Hrun.
    rewrite <- !app_assoc. reflexivity.
  - reflexivity.
  - intros Hfails. rewrite Hrun. rewrite (Hall Hfails).
    rewrite <- !app_assoc. reflexivity.
Qed.

Lemma reconnect_backoff_witness :
  connect_fails connect_never
  /\ sleeps (trace (snd (_reconnect connect_never (world_of init ∅ [] 0))))
     = [2000; 1000; 2000; 4000; 8000; 16000].
Proof.
  assert (Hfails : connect_fails connect_never) by (intros w; exact I).
  split; [exact Hfails|].
  destruct (reconnect_backoff connect_never (world_of init ∅ [] 0)) as (_ & _ & Hall).
  rewrite (Hall Hfails). reflexivity.
Defined.

(** C5 as worded, at a run in which every attempt fails: the sleeps
    after the 2-second wait are 1, 2, 4, 8 and 16 seconds; there is no
    sixth sleep and none of 30 seconds. *)
Lemma reconnect_never_sleeps_30 :
  sleeps (trace (snd (_reconnect connect_never (world_of init ∅ [] 0))))
  = [2000; 1000; 2000; 4000; 8000; 16000]
  /\ sleeps (trace (snd (_reconnect connect_never (world_of init ∅ [] 0))))
     <> [2000; 1000; 2000; 4000; 8000; 16000; 30000]
  /\ ~ In (Slept 30000) (trace (snd (_reconnect connect_never (world_of init ∅ [] 0)))).
Proof.
  split; [reflexivity|]. split.
  - intros H. vm_compute in H. discriminate H.
  - intros H. vm_compute in H. repeat (destruct H as [H|H]; [discriminate H|]). exact H.
Qed.


(** ** Command serializer *)

Section SerializerFacts.

Variable connect_effect : M bool.

Lemma ensure_connected_linked (w : World) :
  _is_connected (dev w) = true ->
  _ensure_connected connect_effect w = (Return tt, w).
Proof.
  intros Hconn. unfold _ensure_connected. run. rewrite Hconn. reflexivity.
Qed.

Lemma write_gatt_char_ok (uuid : string) (data : list byte) (w : World) :
  faults w = [] ->
  write_gatt_char uuid data w = (Return tt, with_peer (<[uuid := data]> (peer w)) w).
Proof.
  intros Hf. unfold write_gatt_char. run. rewrite Hf. reflexivity.
Qed.

Lemma write_gatt_char_link_error (uuid : string) (data : list byte) (w : World)
    (rest : list fault) :
  faults w = LinkError :: rest ->
  write_gatt_char uuid data w = (Raise BleakError, with_faults rest w).
Proof.
  intros Hf. unfold write_gatt_char. run. rewrite Hf. reflexivity.
Qed.

Lemma execute_command_ok (uuid : string) (data : list byte) (w : World) :
  _is_connected (dev w) = true ->
  faults w = [] ->
  _execute_command connect_effect uuid data w
  = (Return true,
     with_dev (upd_last_command_time (clock w) (dev w))
       (with_peer (<[uuid := data]> (peer w)) w)).
Proof.
  intros Hconn Hf. unfold _execute_command. unfold bind at 1.
  rewrite ensure_connected_linked by exact Hconn.
  unfold try_except. unfold bind at 1.
  rewrite write_gatt_char_ok by exact Hf. reflexivity.
Qed.

Lemma execute_command_link_error (uuid : string) (data : list byte) (w : World)
    (rest : list fault) :
  _is_connected (dev w) = true ->
  faults w = LinkError :: rest ->
  _execute_command connect_effect uuid data w
  = (Raise BleakError, with_dev (upd_is_connected false (dev w)) (with_faults rest w)).
Proof.
  intros Hconn Hf. unfold _execute_command. unfold bind at 1.
  rewrite ensure_connected_linked by exact Hconn.
  unfold try_except. unfold bind at 1.
  rewrite (write_gatt_char_link_error _ _ _ rest) by exact Hf. reflexivity.
Qed.

Lemma paced_dev (last : Z) (w : World) : dev (paced last w) = dev w.
Proof. unfold paced. destruct (_ <? _); reflexivity. Qed.

Lemma paced_peer (last : Z) (w : World) : peer (paced last w) = peer w.
Proof. unfold paced. destruct (_ <? _); reflexivity. Qed.

Lemma paced_faults (last : Z) (w : World) : faults (paced last w) = faults w.
Proof. unfold paced. destruct (_ <? _); reflexivity. Qed.

Lemma paced_futures (last : Z) (w : World) : futures (paced last w) = futures w.
Proof. unfold paced. destruct (_ <? _); reflexivity. Qed.

Lemma paced_processor (last : Z) (w : World) : processor (paced last w) = processor w.
Proof. unfold paced. destruct (_ <? _); reflexivity. Qed.

Lemma paced_clock (last : Z) (w : World) :
  last <= clock w -> clock w <= clock (paced last w) <= clock w + 200.
Proof.
  intros Hle. unfold paced, _command_rate_limit.
  destruct (Z.ltb_spec (clock w - last) 200); cbn [sleep snd clock with_trace with_clock];
    lia.
Qed.

(** One turn of the processor on a non-empty queue: the rate-limit
    sleep, the pop, the execution, and the result or the exception put
    into the future of the command.  When that future is done already,
    the [InvalidStateError] of [set_result] and of [set_exception] ends
    the turn in the outer handler: one second of sleep, and the local
    [last_command_time] as it was. *)
Lemma processor_iteration_pop (last : Z) (w : World) (cmd : Command)
    (rest : list Command) :
  _command_queue (dev w) = cmd :: rest ->
  processor_iteration connect_effect last w
  = match _execute_command connect_effect (cmd_uuid cmd) (cmd_data cmd)
            (with_dev (upd_command_queue rest (dev w)) (paced last w)) with
    | (Raise Cancelled, w') => (Raise Cancelled, w')
    | (r, w') =>
        match futures w' !! cmd_future cmd with
        | None =>
            (Return (clock w'), with_futures (<[cmd_future cmd := r]> (futures w')) w')
        | Some _ => (Return last, snd (sleep 1000 w'))
        end
    end.
Proof.
  intros Hq. unfold processor_iteration, popleft, paced. run. rewrite Hq.
  destruct (clock w - last <? _command_rate_limit); run; rewrite Hq; run;
    destruct (_execute_command _ _ _ _) as [[result|[]] w'];
    try reflexivity;
    destruct (futures w' !! cmd_future cmd) eqn:Hfut; run; rewrite ?Hfut; reflexivity.
Qed.

(** [_execute_command] leaves the futures alone. *)
Lemma execute_command_futures (uuid : string) (data : list byte) (w : World) :
  _is_connected (dev w) = true ->
  futures (snd (_execute_command connect_effect uuid data w)) = futures w.
Proof.
  intros Hconn. unfold _execute_command. unfold bind at 1.
  rewrite ensure_connected_linked by exact Hconn.
  unfold write_gatt_char. run.
  destruct (faults w) as [|[| |] later]; reflexivity.
Qed.

Lemma process_queue_turn (fuel : nat) (last : Z) (w : World) :
  processor w = Some last ->
  _processing_commands (dev w) = true ->
  _is_connected (dev w) = true ->
  _process_command_queue connect_effect (S fuel) w
  = match processor_iteration connect_effect last w with
    | (Return t, w') =>
        _process_command_queue connect_effect fuel (with_processor (Some t) w')
    | (Raise _, w') => with_processor None w'
    end.
Proof.
  intros Hp Hproc Hconn. cbn [_process_command_queue].
  rewrite Hp, Hproc, Hconn. reflexivity.
Qed.

Lemma process_queue_stops (fuel : nat) (last : Z) (w : World) :
  processor w = Some last ->
  _processing_commands (dev w) && _is_connected (dev w) = false ->
  _process_command_queue connect_effect fuel w = with_processor None w.
Proof.
  intros Hp Hguard. destruct fuel; cbn [_process_command_queue];
    rewrite Hp, Hguard; reflexivity.
Qed.

Lemma process_queue_suspended (last : Z) (w : World) :
  processor w = Some last ->
  _processing_commands (dev w) = true ->
  _is_connected (dev w) = true ->
  _process_command_queue connect_effect 0 w = w.
Proof.
  intros Hp Hproc Hconn. cbn [_process_command_queue].
  rewrite Hp, Hproc, Hconn. reflexivity.
Qed.

(** The processor after a write that the link refuses. *)
Lemma process_queue_link_error (fuel : nat) (last : Z) (w : World) (cmd : Command)
    (rest : list Command) (later : list fault) :
  processor w = Some last ->
  _processing_commands (dev w) = true ->
  _is_connected (dev w) = true ->
  _command_queue (dev w) = cmd :: rest ->
  faults w = LinkError :: later ->
  _process_command_queue connect_effect (S fuel) w
  = with_processor None
      (match futures w !! cmd_future cmd with
       | None =>
           with_futures (<[cmd_future cmd := Raise BleakError]> (futures w))
             (with_dev (upd_is_connected false (upd_command_queue rest (dev w)))
                (with_faults later (paced last w)))
       | Some _ =>
           snd (sleep 1000
                  (with_dev (upd_is_connected false (upd_command_queue rest (dev w)))
                     (with_faults later (paced last w))))
       end).
Proof.
  intros Hp Hproc Hconn Hq Hf.
  rewrite (process_queue_turn fuel last) by assumption.
  rewrite (processor_iteration_pop last w cmd rest) by exact Hq.
  rewrite (execute_command_link_error _ _ _ later).
  - world_simpl. rewrite paced_futures.
    destruct (futures w !! cmd_future cmd) as [r|].
    + rewrite (process_queue_stops fuel last).
      * reflexivity.
      * reflexivity.
      * cbn [sleep snd]. world_simpl. apply andb_false_r.
    + rewrite (process_queue_stops fuel (clock (paced last w))).
      * reflexivity.
      * reflexivity.
      * world_simpl. apply andb_false_r.
  - world_simpl. exact Hconn.
  - world_simpl. rewrite paced_faults. exact Hf.
Qed.

(** One turn of the processor on a non-empty queue either ends the task
    or takes the first command off the queue and resolves its future. *)
Lemma process_queue_progress (last : Z) (w : World) (cmd : Command)
    (rest : list Command) :
  processor w = Some last ->
  _command_queue (dev w) = cmd :: rest ->
  processor (_process_command_queue connect_effect 1 w) = None
  \/ (_command_queue (dev (_process_command_queue connect_effect 1 w)) = rest
      /\ is_Some (futures (_process_command_queue connect_effect 1 w) !! cmd_future cmd)).
Proof.
  intros Hp Hq.
  remember (_process_command_queue connect_effect 1 w) as w' eqn:Hw'.
  cbn [_process_command_queue] in Hw'. rewrite Hp in Hw'.
  destruct (_processing_commands (dev w)) eqn:Hproc; cbn [andb] in Hw';
    [|left; subst w'; reflexivity].
  destruct (_is_connected (dev w)) eqn:Hconn; [|left; subst w'; reflexivity].
  rewrite (processor_iteration_pop last w cmd rest) in Hw' by exact Hq.
  unfold _execute_command in Hw'. unfold bind at 1 in Hw'.
  rewrite ensure_connected_linked in Hw' by (world_simpl; exact Hconn).
  unfold write_gatt_char in Hw'.
  unfold ret, raise, bind, assign, time_time, try_except, next_fault in Hw'.
  cbn [faults with_dev] in Hw'.
  destruct (faults (paced last w)) as [|[| |] later];
    cbn [dev with_dev with_peer with_faults with_futures with_processor futures
         _processing_commands _is_connected upd_last_command_time upd_is_connected
         upd_command_queue] in Hw';
    destruct (futures (paced last w) !! cmd_future cmd) as [r|] eqn:Hfut;
    cbn [sleep snd dev with_dev with_peer with_faults with_futures with_processor
         with_trace with_clock futures
         _processing_commands _is_connected upd_last_command_time upd_is_connected
         upd_command_queue] in Hw';
    rewrite ?Hproc, ?Hconn in Hw'; cbn [andb] in Hw'; subst w';
    try (left; reflexivity);
    right; cbn [sleep snd]; world_simpl; (split; [reflexivity|]);
    first [ rewrite lookup_insert_eq; eexists; reflexivity
          | rewrite Hfut; eexists; reflexivity ].
Qed.

(** Cancelling a future touches the futures only. *)
Lemma cancel_frame (fut : nat) (w : World) :
  dev (cancel fut w) = dev w /\ peer (cancel fut w) = peer w
  /\ faults (cancel fut w) = faults w /\ clock (cancel fut w) = clock w
  /\ trace (cancel fut w) = trace w /\ processor (cancel fut w) = processor w
  /\ next_future (cancel fut w) = next_future w.
Proof. unfold cancel. destruct (futures w !! fut); repeat split; reflexivity. Qed.


(** Once the task is done or the future resolved, waiting longer changes
    nothing. *)
Lemma await_future_settled (n m : nat) (fut : nat) (deadline : Z) (w : World) :
  processor w = None \/ is_Some (futures w !! fut) ->
  await_future connect_effect n fut deadline w
  = await_future connect_effect m fut deadline w.
Proof.
  intros Hsettled.
  destruct n, m; cbn [await_future]; destruct (deadline <? clock w); try reflexivity;
    destruct Hsettled as [Hdone | [r Hr]];
    try (rewrite Hr; reflexivity);
    rewrite Hdone; destruct (futures w !! fut); reflexivity.
Qed.

(** The turns [_queue_command] waits for are enough: with the command in
    the queue and fewer than [n] commands ahead of it, waiting [n] turns
    or more gives the same result. *)
Lemma await_future_enough (n extra : nat) (fut : nat) (deadline : Z) (w : World) :
  queued_within n fut w ->
  await_future connect_effect (n + extra) fut deadline w
  = await_future connect_effect n fut deadline w.
Proof.
  revert w. induction n as [|n IH]; intros w (ahead & cmd & behind & Hq & Hfut & Hlen).
  - lia.
  - cbn [Nat.add await_future].
    destruct (deadline <? clock w); [reflexivity|].
    destruct (futures w !! fut); [reflexivity|].
    destruct (processor w) as [last|] eqn:Hp; [|reflexivity].
    destruct ahead as [|first ahead].
    + cbn [app] in Hq.
      destruct (process_queue_progress last w cmd behind Hp Hq) as [Hdone|[_ Hres]].
      * apply await_future_settled. left. exact Hdone.
      * apply await_future_settled. right. rewrite <- Hfut. exact Hres.
    + cbn [app] in Hq.
      destruct (process_queue_progress last w first (ahead ++ cmd :: behind) Hp Hq)
        as [Hdone|[Hrest _]].
      * apply await_future_settled. left. exact Hdone.
      * apply IH. exists ahead, cmd, behind. cbn [length] in Hlen.
        split; [exact Hrest|]. split; [exact Hfut|lia].
Qed.

End SerializerFacts.

(** C4.  A write that fails while a queued command is executed marks
    the connection as down and puts the error into the future of that
    command and of no other (a future that its sender's timeout has
    cancelled already stays as it is).  The loop of the processor runs
    only while the object is connected, so the processor task then ends:
    the commands queued behind stay in the queue, nothing of them is
    written, and the processor flag stays set. *)
Theorem write_failure_stops_processor (connect_effect : M bool) (fuel : nat) (last : Z)
    (w : World) (cmd : Command) (rest : list Command) (later : list fault) :
  processor w = Some last ->
  _processing_commands (dev w) = true ->
  _is_connected (dev w) = true ->
  _command_queue (dev w) = cmd :: rest ->
  faults w = LinkError :: later ->
  let w' := _process_command_queue connect_effect (S fuel) w in
  _is_connected (dev w') = false
  /\ futures w' = match futures w !! cmd_future cmd with
                  | None => <[cmd_future cmd := Raise BleakError]> (futures w)
                  | Some _ => futures w
                  end
  /\ (forall fut, fut <> cmd_future cmd -> futures w' !! fut = futures w !! fut)
  /\ processor w' = None
  /\ _command_queue (dev w') = rest
  /\ peer w' = peer w
  /\ _processing_commands (dev w') = true.
Proof.
  intros Hp Hproc Hconn Hq Hf w'. subst w'.
  rewrite (process_queue_link_error connect_effect fuel last w cmd rest later)
    by assumption.
  destruct (futures w !! cmd_future cmd) as [r|]; cbn [sleep snd]; world_simpl;
    rewrite paced_peer, ?paced_futures;
    repeat split; try reflexivity; try assumption.
  intros fut Hne. apply lookup_insert_ne. congruence.
Qed.

Lemma write_failure_stops_processor_witness :
  processor two_queued = Some 0
  /\ _processing_commands (dev two_queued) = true
  /\ _is_connected (dev two_queued) = true
  /\ _command_queue (dev two_queued) = [first_command; second_command]
  /\ faults two_queued = [LinkError]
  /\ _is_connected (dev (_process_command_queue connect_never 10 two_queued)) = false
  /\ futures (_process_command_queue connect_never 10 two_queued) !! 0%nat
     = Some (Raise BleakError)
  /\ processor (_process_command_queue connect_never 10 two_queued) = None
  /\ _command_queue (dev (_process_command_queue connect_never 10 two_queued))
     = [second_command].
Proof.
  assert (Hp : processor two_queued = Some 0) by reflexivity.
  assert (Hproc : _processing_commands (dev two_queued) = true) by reflexivity.
  assert (Hconn : _is_connected (dev two_queued) = true) by reflexivity.
  assert (Hq : _command_queue (dev two_queued) = [first_command; second_command])
    by reflexivity.
  assert (Hf : faults two_queued = [LinkError]) by reflexivity.
  destruct (write_failure_stops_processor connect_never 9 0 two_queued
              first_command [second_command] [] Hp Hproc Hconn Hq Hf)
    as (Hdown & Hfut & _ & Hdone & Hrest & _).
  split; [exact Hp|]. split; [exact Hproc|]. split; [exact Hconn|].
  split; [exact Hq|]. split; [exact Hf|].
  split; [exact Hdown|]. split; [rewrite Hfut; reflexivity|].
  split; [exact Hdone|exact Hrest].
Defined.

(** The command left behind is executed by the processor task that a
    later successful [connect] starts. *)
Example second_command_after_reconnect :
  let stopped := _process_command_queue connect_never 1000 two_queued in
  let restarted :=
    snd (_start_command_processor
           (with_dev (upd_is_connected true (dev stopped)) stopped)) in
  futures (_process_command_queue connect_never 1000 restarted) !! 1%nat
  = Some (Return true)
  /\ _command_queue (dev (_process_command_queue connect_never 1000 restarted)) = [].
Proof. split; vm_compute; reflexivity. Qed.

(** C4 as worded, at [two_queued]: however many turns the processor
    gets, the second command is never attempted; its future stays
    unresolved, it is still queued, nothing was written, and the task is
    done. *)
Lemma second_command_not_attempted :
  futures (_process_command_queue connect_never 1000 two_queued) !! 1%nat = None
  /\ _command_queue (dev (_process_command_queue connect_never 1000 two_queued))
     = [second_command]
  /\ peer (_process_command_queue connect_never 1000 two_queued) = ∅
  /\ processor (_process_command_queue connect_never 1000 two_queued) = None
  /\ futures (_process_command_queue connect_never 1000 two_queued) !! 0%nat
     = Some (Raise BleakError).
Proof.
  repeat split; vm_compute; reflexivity.
Qed.

(** ** Target temperature: write, then read *)

Lemma decode_packed_u32 (n : Z) :
  0 <= n < 65536 ->
  getitem (pack_u32_le n) 0 + getitem (pack_u32_le n) 1 * 256 = n.
Proof.
  intros Hn. unfold pack_u32_le, getitem. cbn [nth].
  rewrite !byte_val_of_Z_mod.
  assert (Hhi : 0 <= n / 256 < 256).
  { split; [apply Z.div_pos; lia | apply Z.div_lt_upper_bound; lia]. }
  rewrite (Z.mod_small (n / 256)) by exact Hhi.
  pose proof (Z.div_mod n 256). lia.
Qed.

Section TargetTemperature.

Variable connect_effect : M bool.

(** The processor takes the only command of the queue and writes it. *)
Lemma process_queue_single (last : Z) (w : World) (cmd : Command) :
  processor w = Some last ->
  _processing_commands (dev w) = true ->
  _is_connected (dev w) = true ->
  _command_queue (dev w) = [cmd] ->
  faults w = [] ->
  futures w !! cmd_future cmd = None ->
  _process_command_queue connect_effect 1 w
  = with_processor (Some (clock (paced last w)))
      (with_futures (<[cmd_future cmd := Return true]> (futures w))
         (with_dev (upd_last_command_time (clock (paced last w))
                      (upd_command_queue [] (dev w)))
            (with_peer (<[cmd_uuid cmd := cmd_data cmd]> (peer w)) (paced last w)))).
Proof.
  intros Hp Hproc Hconn Hq Hf Hfut.
  rewrite (process_queue_turn connect_effect 0 last) by assumption.
  rewrite (processor_iteration_pop connect_effect last w cmd []) by exact Hq.
  rewrite execute_command_ok.
  - world_simpl. rewrite paced_futures, Hfut.
    rewrite (process_queue_suspended connect_effect (clock (paced last w))).
    + rewrite paced_peer. reflexivity.
    + reflexivity.
    + world_simpl. exact Hproc.
    + world_simpl. exact Hconn.
  - world_simpl. exact Hconn.
  - world_simpl. rewrite paced_faults. exact Hf.
Qed.

(** A command sent in a ready world is written to the appliance. *)
Lemma send_command_ready (uuid : string) (data : list byte) (w : World) :
  ready w ->
  exists w',
    _send_command connect_effect uuid data w = (Return true, w')
    /\ (exists t, dev w' = upd_last_command_time t (upd_command_queue [] (dev w)))
    /\ peer w' = <[uuid := data]> (peer w)
    /\ faults w' = [].
Proof.
  intros (Hconn & Hclient & Hproc & Hq & (last & Hlast & Hle) & Hf & Hfut).
  set (cmd := {| cmd_uuid := uuid; cmd_data := data; cmd_future := next_future w |}).
  set (w2 := with_dev (upd_command_queue [cmd] (dev w))
               (with_next_future (S (next_future w)) w)).
  assert (Hqueue : _queue_command connect_effect uuid data (clock w + 10000) w
                   = await_future connect_effect 2 (next_future w) (clock w + 10000) w2).
  { unfold _queue_command. run. rewrite Hq, Hproc. reflexivity. }
  pose proof (paced_clock last w2 Hle) as Hclock.
  assert (Hturn := process_queue_single last w2 cmd Hlast Hproc Hconn eq_refl Hf Hfut).
  assert (Hawait : await_future connect_effect 2 (next_future w) (clock w + 10000) w2
                   = (Return true, _process_command_queue connect_effect 1 w2)).
  { cbn [await_future].
    destruct (Z.ltb_spec (clock w + 10000) (clock w2)) as [Hlate|_];
      [cbn [clock w2 with_dev with_next_future] in Hlate; lia|].
    replace (futures w2 !! next_future w) with (@None (outcome bool))
      by (symmetry; exact Hfut).
    replace (processor w2) with (Some last) by (symmetry; exact Hlast).
    rewrite Hturn. world_simpl.
    destruct (Z.ltb_spec (clock w + 10000) (clock (paced last w2))) as [Hlate|_];
      [cbn [clock w2 with_dev with_next_future] in Hclock; lia|].
    rewrite lookup_insert_eq. reflexivity. }
  exists (_process_command_queue connect_effect 1 w2). split.
  - unfold _send_command, asyncio_timeout. rewrite Hqueue, Hawait. reflexivity.
  - rewrite Hturn. world_simpl. rewrite paced_faults.
    split; [exists (clock (paced last w2)); reflexivity|].
    split; [reflexivity|exact Hf].
Qed.

(** The fast read of the target temperature over a sound link. *)
Lemma fast_read_target (w : World) (value : list byte) :
  _is_connected (dev w) = true ->
  client (dev w) = true ->
  faults w = [] ->
  peer w !! target_temp_uuid = Some value ->
  (2 <= length value)%nat ->
  _fast_read_target_temperature w
  = (Return (round_div10 (getitem value 0 + getitem value 1 * 256)),
     with_dev
       (upd_target_temperature (round_div10 (getitem value 0 + getitem value 1 * 256))
          (upd_target_temperature_raw (hex_or_None value)
             (upd_last_command_time (clock w) (dev w)))) w).
Proof.
  intros Hconn Hclient Hf Hpeer Hlen.
  unfold _fast_read_target_temperature, read_gatt_char. run.
  rewrite Hconn, Hclient. run. rewrite Hf. run. rewrite Hpeer. run.
  apply Nat.leb_le in Hlen. rewrite Hlen. reflexivity.
Qed.

(** What [read_target_temperature] returns over a sound link is decoded
    from the first two bytes of the characteristic. *)
Lemma read_target_decodes (w : World) (value : list byte) :
  _is_connected (dev w) = true ->
  client (dev w) = true ->
  faults w = [] ->
  peer w !! target_temp_uuid = Some value ->
  (2 <= length value)%nat ->
  0 < round_div10 (status_word value) ->
  read_target_temperature connect_effect w
  = (Return (round_div10 (status_word value)),
     with_dev
       (upd_target_temperature (round_div10 (status_word value))
          (upd_target_temperature_raw (hex_or_None value)
             (upd_last_command_time (clock w) (dev w)))) w).
Proof.
  intros Hconn Hclient Hf Hpeer Hlen Hpos.
  unfold read_target_temperature. unfold bind at 1. unfold try_except at 1.
  unfold bind at 1. rewrite (fast_read_target w value) by assumption.
  rewrite decoded_value_word by exact Hlen. unfold ret.
  destruct (Z.ltb_spec 0 (round_div10 (status_word value))) as [_|Hneg];
    [reflexivity|lia].
Qed.

(** C3.  For a temperature [t] in [40, 230], [set_target_temperature]
    writes [t * 10] as four little-endian bytes to the target
    characteristic, and [read_target_temperature], reading that
    characteristic back with nothing written in between, returns [t].
    The value returned is decoded from the first two bytes of the
    characteristic, [round(value / 10)]: it is [t] whatever the object
    has stored as its target in the meantime, and it follows the
    characteristic when the transport changes it. *)
Theorem set_then_read_target (t : Z) (w : World) :
  40 <= t <= 230 ->
  ready w ->
  exists w1 w2,
    set_target_temperature connect_effect t w = (Return tt, w1)
    /\ peer w1 !! target_temp_uuid = Some (pack_u32_le (t * 10))
    /\ _target_temperature (dev w1) = t
    /\ read_target_temperature connect_effect w1 = (Return t, w2)
    /\ _target_temperature (dev w2) = t
    /\ peer w2 = peer w1
    /\ round_div10 (status_word (pack_u32_le (t * 10))) = t
    /\ (forall stored,
          let r := read_target_temperature connect_effect
                     (with_dev (upd_target_temperature stored (dev w1)) w1) in
          fst r = Return t /\ _target_temperature (dev (snd r)) = t)
    /\ (forall value,
          (2 <= length value)%nat ->
          0 < round_div10 (status_word value) ->
          let r := read_target_temperature connect_effect
                     (with_peer (<[target_temp_uuid := value]> (peer w1)) w1) in
          fst r = Return (round_div10 (status_word value))
          /\ _target_temperature (dev (snd r)) = round_div10 (status_word value)).
Proof.
  intros Ht Hready.
  assert (Hclamp : Z.max 40 (Z.min 230 t) = t) by lia.
  destruct (send_command_ready target_temp_uuid (pack_u32_le (t * 10)) w Hready)
    as (w' & Hsend & (tc & Hdev) & Hpeer & Hf).
  destruct Hready as (Hconn & Hclient & _).
  assert (Hset : set_target_temperature connect_effect t w
                 = (Return tt, with_dev (upd_target_temperature t (dev w')) w')).
  { unfold set_target_temperature. rewrite Hclamp. run. rewrite Hsend. reflexivity. }
  assert (Hword : status_word (pack_u32_le (t * 10)) = t * 10).
  { rewrite <- decoded_value_word by (simpl; lia). apply decode_packed_u32. lia. }
  assert (Hdecode : round_div10 (status_word (pack_u32_le (t * 10))) = t)
    by (rewrite Hword; apply round_div10_exact).
  set (w1 := with_dev (upd_target_temperature t (dev w')) w').
  assert (Hconn1 : _is_connected (dev w1) = true)
    by (subst w1; world_simpl; rewrite Hdev; world_simpl; exact Hconn).
  assert (Hclient1 : client (dev w1) = true)
    by (subst w1; world_simpl; rewrite Hdev; world_simpl; exact Hclient).
  assert (Hpeer1 : peer w1 !! target_temp_uuid = Some (pack_u32_le (t * 10)))
    by (subst w1; world_simpl; rewrite Hpeer; apply lookup_insert_eq).
  assert (Hf1 : faults w1 = []) by exact Hf.
  assert (Hlen : (2 <= length (pack_u32_le (t * 10)))%nat) by (simpl; lia).
  assert (Hpos : 0 < round_div10 (status_word (pack_u32_le (t * 10))))
    by (rewrite Hdecode; lia).
  assert (Htarget : _target_temperature (dev w1) = t) by reflexivity.
  fold w1 in Hset. clearbody w1.
  exists w1. eexists. split; [exact Hset|].
  split; [exact Hpeer1|].
  split; [exact Htarget|].
  split; [rewrite (read_target_decodes w1 (pack_u32_le (t * 10))) by assumption;
          rewrite Hdecode; reflexivity|].
  split; [reflexivity|]. split; [reflexivity|]. split; [exact Hdecode|].
  split.
  - intros stored. cbv zeta.
    rewrite (read_target_decodes _ (pack_u32_le (t * 10))); try assumption.
    + rewrite Hdecode. split; reflexivity.
  - intros value Hlong Hpositive. cbv zeta.
    rewrite (read_target_decodes _ value); try assumption.
    + split; reflexivity.
    + world_simpl. apply lookup_insert_eq.
Qed.

End TargetTemperature.

Lemma set_then_read_target_witness :
  40 <= 185 <= 230
  /\ ready (world_of linked ∅ [] 5000)
  /\ fst (read_target_temperature connect_never
            (snd (set_target_temperature connect_never 185 (world_of linked ∅ [] 5000))))
     = Return 185
  /\ (let w1 := snd (set_target_temperature connect_never 185
                       (world_of linked ∅ [] 5000)) in
      fst (read_target_temperature connect_never
             (with_dev (upd_target_temperature 90 (dev w1)) w1)) = Return 185
      /\ fst (read_target_temperature connect_never
                (with_peer (<[target_temp_uuid := [x84; x03]]> (peer w1)) w1))
         = Return 90).
Proof.
  assert (Ht : 40 <= 185 <= 230) by lia.
  assert (Hready : ready (world_of linked ∅ [] 5000)).
  { unfold ready. cbn [world_of linked dev processor faults futures next_future clock
                       _is_connected client _processing_commands _command_queue].
    repeat split; try reflexivity. exists 0. split; [reflexivity|lia]. }
  split; [exact Ht|]. split; [exact Hready|].
  destruct (set_then_read_target connect_never 185 (world_of linked ∅ [] 5000) Ht Hready)
    as (w1 & w2 & Hset & _ & _ & Hread & _ & _ & _ & Hstored & Hfollows).
  rewrite Hset. cbn [snd]. rewrite Hread. split; [reflexivity|]. split.
  - apply (Hstored 90).
  - destruct (Hfollows [x84; x03]) as [Hres _];
      [cbn; lia|vm_compute; reflexivity|exact Hres].
Defined.

(** ** Current temperature *)

Lemma read_gatt_char_dev (uuid : string) (w : World) :
  dev (snd (read_gatt_char uuid w)) = dev w /\ clock (snd (read_gatt_char uuid w)) = clock w.
Proof.
  unfold read_gatt_char. run.
  destruct (faults w) as [|[| |] rest]; run; try destruct (peer _ !! uuid); auto.
Qed.

(** The fast read without the plumbing of the coroutine. *)
Lemma fast_read_current_flat (w : World) :
  _fast_read_current_temperature w =
  if clock w - _temp_cache_time (dev w) <? _temp_cache_duration
  then (Return (_current_temperature (dev w)), w)
  else if negb (_is_connected (dev w)) || negb (client (dev w))
  then (Return (_current_temperature (dev w)), w)
  else
    match read_gatt_char current_temp_uuid w with
    | (Return value, w1) =>
        let d1 := upd_current_temperature_raw (hex_or_None value)
                    (upd_last_command_time (clock w1) (dev w1)) in
        if (2 <=? length value)%nat then
          let temperature := round_div10 (getitem value 0 + getitem value 1 * 256) in
          if (1000 <? temperature) || (temperature <? 0)
          then (Return (_current_temperature (dev w1)), with_dev d1 w1)
          else (Return temperature,
                with_dev (upd_temp_cache_time (clock w1)
                            (upd_current_temperature temperature d1)) w1)
        else (Return (_current_temperature (dev w1)), with_dev d1 w1)
    | (Raise Cancelled, w1) =>
        (Return (_current_temperature (dev w1)), with_clock (clock w + 2000) w1)
    | (Raise _, w1) => (Return (_current_temperature (dev w1)), w1)
    end.
Proof.
  unfold _fast_read_current_temperature. run.
  destruct (clock w - _temp_cache_time (dev w) <? _temp_cache_duration); [reflexivity|].
  destruct (negb (_is_connected (dev w)) || negb (client (dev w))); [reflexivity|].
  destruct (read_gatt_char current_temp_uuid w) as [[value|[]] w1]; try reflexivity.
  run. destruct (2 <=? length value)%nat; [|reflexivity].
  destruct ((1000 <? _) || _); reflexivity.
Qed.

Section CurrentTemperature.

Variable connect_effect : M bool.

(** The fast read never raises. *)
Lemma fast_read_current_returns (w : World) :
  exists v w', _fast_read_current_temperature w = (Return v, w').
Proof.
  rewrite fast_read_current_flat.
  destruct (_ <? _); [eauto|]. destruct (_ || _); [eauto|].
  destruct (read_gatt_char current_temp_uuid w) as [[value|[]] w1]; eauto.
  cbv zeta. destruct (2 <=? length value)%nat; [|eauto].
  destruct ((1000 <? _) || _); eauto.
Qed.

(** A block under a timeout whose handler returns never raises. *)
Lemma guarded_returns {A} (ms : Z) (body : M A) (handler : exn -> M A) (w : World) :
  (forall e w1, exists v w', handler e w1 = (Return v, w')) ->
  exists v w', try_except (asyncio_timeout ms body) handler w = (Return v, w').
Proof.
  intros Hhandler. unfold try_except, asyncio_timeout.
  destruct (body w) as [[v|[]] w1]; eauto.
Qed.

Lemma full_read_current_returns (w : World) :
  exists v w', full_read_current_temperature connect_effect w = (Return v, w').
Proof.
  unfold full_read_current_temperature. apply guarded_returns.
  intros e w1. unfold self. eauto.
Qed.

Lemma read_current_returns (w : World) :
  exists v w', read_current_temperature connect_effect w = (Return v, w').
Proof.
  unfold read_current_temperature. unfold bind at 1. unfold try_except at 1.
  unfold bind at 1.
  destruct (fast_read_current_returns w) as (v & w' & Hfast). rewrite Hfast.
  unfold ret. destruct (0 <? v); [eauto|]. apply full_read_current_returns.
Qed.

(** A positive result of the fast read is the result of the read. *)
Lemma read_current_of_fast (w w' : World) (v : Z) :
  _fast_read_current_temperature w = (Return v, w') ->
  0 < v ->
  read_current_temperature connect_effect w = (Return v, w').
Proof.
  intros Hfast Hpos.
  unfold read_current_temperature. unfold bind at 1. unfold try_except at 1.
  unfold bind at 1. rewrite Hfast. unfold ret.
  destruct (Z.ltb_spec 0 v); [reflexivity|lia].
Qed.

(** The fast read keeps the cache when the transport read raises. *)
Lemma fast_read_current_error (w : World) (e : exn) :
  fst (read_gatt_char current_temp_uuid w) = Raise e ->
  exists w',
    _fast_read_current_temperature w = (Return (_current_temperature (dev w)), w')
    /\ dev w' = dev w.
Proof.
  intros Hread. rewrite fast_read_current_flat.
  destruct (_ <? _); [eauto|]. destruct (_ || _); [eauto|].
  destruct (read_gatt_char_dev current_temp_uuid w) as (Hdev & _).
  destruct (read_gatt_char current_temp_uuid w) as [[value|e'] w1];
    cbn [fst snd] in *; [discriminate|].
  rewrite Hdev. destruct e'; eauto.
Qed.

(** The fast read keeps the cached temperature when the payload is
    short or decodes out of range. *)
Lemma fast_read_current_rejected (w : World) (value : list byte) :
  fst (read_gatt_char current_temp_uuid w) = Return value ->
  (length value < 2)%nat
  \/ 1000 < round_div10 (status_word value)
  \/ round_div10 (status_word value) < 0 ->
  exists w',
    _fast_read_current_temperature w = (Return (_current_temperature (dev w)), w')
    /\ _current_temperature (dev w') = _current_temperature (dev w)
    /\ _temp_cache_time (dev w') = _temp_cache_time (dev w).
Proof.
  intros Hread Hbad. rewrite fast_read_current_flat.
  destruct (_ <? _); [eauto|]. destruct (_ || _); [eauto|].
  destruct (read_gatt_char_dev current_temp_uuid w) as (Hdev & _).
  destruct (read_gatt_char current_temp_uuid w) as [[value'|e'] w1];
    cbn [fst snd] in *; [|discriminate].
  injection Hread as ->. cbv zeta. rewrite Hdev.
  destruct (Nat.leb_spec 2 (length value)) as [Hlen|Hlen].
  - rewrite decoded_value_word by exact Hlen.
    destruct (Z.ltb_spec 1000 (round_div10 (status_word value)));
      destruct (Z.ltb_spec (round_div10 (status_word value)) 0);
      cbn [orb]; try (eexists; split; [reflexivity|split; reflexivity]).
    lia.
  - eexists; split; [reflexivity|split; reflexivity].
Qed.

(** The fast read takes a decoded value in range into the cache. *)
Lemma fast_read_current_accepted (w : World) (value : list byte) :
  stale w ->
  _is_connected (dev w) = true ->
  client (dev w) = true ->
  fst (read_gatt_char current_temp_uuid w) = Return value ->
  (2 <= length value)%nat ->
  0 <= round_div10 (status_word value) <= 1000 ->
  exists w',
    _fast_read_current_temperature w = (Return (round_div10 (status_word value)), w')
    /\ _current_temperature (dev w') = round_div10 (status_word value)
    /\ _temp_cache_time (dev w') = clock w.
Proof.
  intros Hstale Hconn Hclient Hread Hlen Hrange. rewrite fast_read_current_flat.
  unfold stale in Hstale.
  destruct (Z.ltb_spec (clock w - _temp_cache_time (dev w)) _temp_cache_duration);
    [lia|].
  rewrite Hconn, Hclient. cbn [negb orb].
  destruct (read_gatt_char_dev current_temp_uuid w) as (_ & Hclock).
  destruct (read_gatt_char current_temp_uuid w) as [[value'|e'] w1];
    cbn [fst snd] in *; [|discriminate].
  injection Hread as ->. cbv zeta.
  destruct (Nat.leb_spec 2 (length value)) as [_|Hshort]; [|lia].
  rewrite decoded_value_word by exact Hlen.
  destruct (Z.ltb_spec 1000 (round_div10 (status_word value))); [lia|].
  destruct (Z.ltb_spec (round_div10 (status_word value)) 0); [lia|].
  cbn [orb]. eexists. split; [reflexivity|]. world_simpl. auto.
Qed.

(** C6.  The read of the current temperature never raises.  When the
    transport read raises (link error or timeout), returns fewer than
    two bytes, or decodes to a value outside [0, 1000], the cached
    temperature is returned and the cache stays as it was; a value
    decoded inside [0, 1000], from a read made over a live connection
    with a stale cache, is stored with the time of the read and
    returned.  This is [_fast_read_current_temperature]; the wrapper
    [read_current_temperature] never raises either and returns what the
    fast read returns whenever that is positive. *)
Theorem read_current_temperature_fallback (w : World) :
  (exists v w', _fast_read_current_temperature w = (Return v, w'))
  /\ (let cached := _current_temperature (dev w) in
      let r := _fast_read_current_temperature w in
      (forall e,
          fst (read_gatt_char current_temp_uuid w) = Raise e ->
          fst r = Return cached
          /\ _current_temperature (dev (snd r)) = cached
          /\ _temp_cache_time (dev (snd r)) = _temp_cache_time (dev w))
      /\ (forall value,
             fst (read_gatt_char current_temp_uuid w) = Return value ->
             (length value < 2)%nat
             \/ 1000 < round_div10 (status_word value)
             \/ round_div10 (status_word value) < 0 ->
             fst r = Return cached
             /\ _current_temperature (dev (snd r)) = cached
             /\ _temp_cache_time (dev (snd r)) = _temp_cache_time (dev w))
      /\ (forall value,
             stale w ->
             _is_connected (dev w) = true ->
             client (dev w) = true ->
             fst (read_gatt_char current_temp_uuid w) = Return value ->
             (2 <= length value)%nat ->
             0 <= round_div10 (status_word value) <= 1000 ->
             fst r = Return (round_div10 (status_word value))
             /\ _current_temperature (dev (snd r)) = round_div10 (status_word value)
             /\ _temp_cache_time (dev (snd r)) = clock w))
  /\ (exists v w', read_current_temperature connect_effect w = (Return v, w'))
  /\ (forall v w',
         _fast_read_current_temperature w = (Return v, w') ->
         0 < v ->
         read_current_temperature connect_effect w = (Return v, w')).
Proof.
  split; [apply fast_read_current_returns|].
  split; [|split; [apply read_current_returns|intros v w'; apply read_current_of_fast]].
  cbv zeta. split; [|split].
  - intros e Hread.
    destruct (fast_read_current_error w e Hread) as (w' & Hfast & Hdev).
    rewrite Hfast. cbn [fst snd]. rewrite Hdev. auto.
  - intros value Hread Hbad.
    destruct (fast_read_current_rejected w value Hread Hbad)
      as (w' & Hfast & Hcur & Htime).
    rewrite Hfast. cbn [fst snd]. auto.
  - intros value Hstale Hconn Hclient Hread Hlen Hrange.
    destruct (fast_read_current_accepted w value Hstale Hconn Hclient Hread Hlen Hrange)
      as (w' & Hfast & Hcur & Htime).
    rewrite Hfast. cbn [fst snd]. auto.
Qed.

End CurrentTemperature.

Lemma read_current_temperature_fallback_witness :
  fst (read_gatt_char current_temp_uuid (warm [Hang])) = Raise Cancelled
  /\ fst (_fast_read_current_temperature (warm [Hang])) = Return 180
  /\ fst (read_current_temperature connect_never (warm [Hang])) = Return 180
  /\ stale (warm [])
  /\ fst (read_gatt_char current_temp_uuid (warm [])) = Return [x10; x07]
  /\ fst (_fast_read_current_temperature (warm [])) = Return 181
  /\ _current_temperature (dev (snd (_fast_read_current_temperature (warm [])))) = 181.
Proof.
  assert (Hstale : stale (warm [])) by (unfold stale, _temp_cache_duration; cbn; lia).
  destruct (read_current_temperature_fallback connect_never (warm [Hang]))
    as (_ & (Herror & _) & _ & Hwrapper).
  destruct (Herror Cancelled eq_refl) as (Hkept & _).
  change (fst (_fast_read_current_temperature (warm [Hang])) = Return 180) in Hkept.
  destruct (read_current_temperature_fallback connect_never (warm []))
    as (_ & (_ & _ & Hfresh) & _).
  destruct (Hfresh [x10; x07] Hstale eq_refl eq_refl eq_refl)
    as (Hres & Hcur & _); [cbn; lia|vm_compute; split; discriminate|].
  split; [reflexivity|]. split; [exact Hkept|]. split.
  - rewrite (Hwrapper 180 (snd (_fast_read_current_temperature (warm [Hang])))).
    + reflexivity.
    + rewrite <- Hkept. apply surjective_pairing.
    + lia.
  - split; [exact Hstale|]. split; [reflexivity|].
    split; [rewrite Hres; reflexivity|rewrite Hcur; reflexivity].
Defined.

(** With no temperature cached yet (the initial 0) the wrapper does
    not stop at the fast read: at [cold_start], where the read of the
    temperature characteristic fails, its full read takes the 55 found
    in the low byte of the status characteristic and stores it. *)
Example read_current_without_cache :
  _current_temperature (dev cold_start) = 0
  /\ fst (read_gatt_char current_temp_uuid cold_start) = Raise BleakError
  /\ fst (_fast_read_current_temperature cold_start) = Return 0
  /\ fst (read_current_temperature connect_never cold_start) = Return 55
  /\ _current_temperature (dev (snd (read_current_temperature connect_never cold_start)))
     = 55.
Proof. repeat split; vm_compute; reflexivity. Qed.

(** ** What the command path leaves alone *)

Lemma connect_calls_app (t1 t2 : list event) :
  connect_calls (t1 ++ t2) = (connect_calls t1 + connect_calls t2)%nat.
Proof.
  induction t1 as [|[ms|] t1 IH]; cbn [app connect_calls]; rewrite ?IH; reflexivity.
Qed.

Lemma untouched_refl (w : World) : untouched w w.
Proof. split; reflexivity. Qed.

Lemma untouched_trans (w1 w2 w3 : World) :
  untouched w1 w2 -> untouched w2 w3 -> untouched w1 w3.
Proof. intros [Ha Hb] [Hc Hd]. split; congruence. Qed.

Lemma paced_untouched (last : Z) (w : World) : untouched w (paced last w).
Proof.
  unfold paced. destruct (_ <? _); [|apply untouched_refl].
  split; [reflexivity|]. cbn [sleep snd trace with_trace].
  rewrite connect_calls_app. cbn. lia.
Qed.

Section CommandPath.

Variable connect_effect : M bool.

Lemma execute_untouched (uuid : string) (data : list byte) (w : World) :
  _is_connected (dev w) = true ->
  untouched w (snd (_execute_command connect_effect uuid data w)).
Proof.
  intros Hconn. unfold _execute_command. unfold bind at 1.
  rewrite ensure_connected_linked by exact Hconn.
  unfold write_gatt_char. run.
  destruct (faults w) as [|[| |] later]; run; split; reflexivity.
Qed.

Lemma processor_iteration_untouched (last : Z) (w : World) :
  _is_connected (dev w) = true ->
  untouched w (snd (processor_iteration connect_effect last w)).
Proof.
  intros Hconn.
  destruct (_command_queue (dev w)) as [|cmd rest] eqn:Hq.
  - unfold processor_iteration. run. rewrite Hq. run.
    split; [reflexivity|]. world_simpl. rewrite connect_calls_app. cbn. lia.
  - rewrite (processor_iteration_pop connect_effect last w cmd rest) by exact Hq.
    assert (Hexec := execute_untouched (cmd_uuid cmd) (cmd_data cmd)
                       (with_dev (upd_command_queue rest (dev w)) (paced last w)) Hconn).
    assert (Hpaced : untouched w (with_dev (upd_command_queue rest (dev w)) (paced last w))).
    { destruct (paced_untouched last w) as [_ Htrace]. split; [reflexivity|exact Htrace]. }
    destruct (_execute_command _ _ _ _) as [[result|[]] w']; cbn [snd] in Hexec;
      try destruct (futures w' !! cmd_future cmd) as [r|];
      cbn [sleep snd]; apply (untouched_trans _ _ _ Hpaced); destruct Hexec as [Hr Ht];
      split; world_simpl; rewrite ?connect_calls_app; cbn [connect_calls];
      rewrite ?Nat.add_0_r; assumption.
Qed.

(** The processor task changes no reading and never calls [connect],
    however long it runs. *)
Lemma process_queue_untouched (fuel : nat) (w : World) :
  untouched w (_process_command_queue connect_effect fuel w).
Proof.
  revert w. induction fuel as [|fuel IH]; intros w; cbn [_process_command_queue];
    destruct (processor w) as [last|]; try (split; reflexivity);
    destruct (_processing_commands (dev w)); cbn [andb]; try (split; reflexivity);
    destruct (_is_connected (dev w)) eqn:Hconn; try (split; reflexivity).
  pose proof (processor_iteration_untouched last w Hconn) as Hturn.
  destruct (processor_iteration connect_effect last w) as [[t|e] w']; cbn [snd] in Hturn.
  - eapply untouched_trans; [exact Hturn|].
    eapply untouched_trans; [|apply IH]. split; reflexivity.
  - destruct Hturn as [Hr Ht]. split; assumption.
Qed.

Lemma await_future_untouched (fuel : nat) (fut : nat) (deadline : Z) (w : World) :
  untouched w (snd (await_future connect_effect fuel fut deadline w)).
Proof.
  assert (Hcancel : forall w0, untouched w0 (cancel fut w0)).
  { intros w0. destruct (cancel_frame fut w0) as (Hdev & _ & _ & _ & Htrace & _).
    split; cbn [snd]; rewrite ?Hdev, ?Htrace; reflexivity. }
  revert w. induction fuel as [|fuel IH]; intros w; cbn [await_future];
    destruct (deadline <? clock w); try apply Hcancel;
    destruct (futures w !! fut); try (split; reflexivity);
    destruct (processor w); try apply Hcancel.
  eapply untouched_trans; [apply (process_queue_untouched 1)|apply IH].
Qed.

Lemma send_command_untouched (uuid : string) (data : list byte) (w : World) :
  untouched w (snd (_send_command connect_effect uuid data w)).
Proof.
  unfold _send_command, asyncio_timeout, _queue_command, _start_command_processor. run.
  set (cmd := {| cmd_uuid := uuid; cmd_data := data; cmd_future := next_future w |}).
  destruct (_processing_commands (dev w)); cbn [negb].
  - match goal with
    | |- context [await_future _ ?n ?f ?d ?x] =>
        pose proof (await_future_untouched n f d x) as Hwait;
        destruct (await_future connect_effect n f d x) as [[r|[]] w']
    end; cbn [snd] in *; destruct Hwait as [Hr Ht]; split; assumption.
  - world_simpl. destruct (processor w); run;
    match goal with
    | |- context [await_future _ ?n ?f ?d ?x] =>
        pose proof (await_future_untouched n f d x) as Hwait;
        destruct (await_future connect_effect n f d x) as [[r|[]] w']
    end; cbn [snd] in *; destruct Hwait as [Hr Ht]; split; assumption.
Qed.


Lemma failed_step_keeps_readings {A} (uuid : string) (data : list byte)
    (after : M A) (w w' : World) (e : exn) :
  (_send_command connect_effect uuid data ;; after) w = (Raise e, w') ->
  (forall w1 w2 r, after w1 = (r, w2) -> r = Raise e -> False) ->
  readings (dev w') = readings (dev w).
Proof.
  intros Hrun Hafter. unfold bind in Hrun.
  destruct (send_command_untouched uuid data w) as [Hr _].
  destruct (_send_command connect_effect uuid data w) as [[sent|e'] w1]; cbn [snd] in Hr.
  - exfalso. exact (Hafter w1 w' (Raise e) Hrun eq_refl).
  - injection Hrun as _ <-. exact Hr.
Qed.

(** X2.  A heater, fan, temperature or brightness command that raises
    leaves every reading as it was: the local state is only updated
    after the write has succeeded. *)
Theorem failed_command_changes_nothing (w w' : World) (e : exn) (t b : Z) :
  turn_heater_on connect_effect w = (Raise e, w')
  \/ turn_heater_off connect_effect w = (Raise e, w')
  \/ turn_fan_on connect_effect w = (Raise e, w')
  \/ turn_fan_off connect_effect w = (Raise e, w')
  \/ set_target_temperature connect_effect t w = (Raise e, w')
  \/ set_brightness connect_effect b w = (Raise e, w') ->
  readings (dev w') = readings (dev w).
Proof.
  intros [H|[H|[H|[H|[H|H]]]]].
  - unfold turn_heater_on in H.
    apply (failed_step_keeps_readings _ _ _ _ _ _ H).
    intros w1 w2 r Hafter Hr. subst r. cbn in Hafter. discriminate.
  - unfold turn_heater_off in H.
    apply (failed_step_keeps_readings _ _ _ _ _ _ H).
    intros w1 w2 r Hafter Hr. subst r. cbn in Hafter. discriminate.
  - unfold turn_fan_on in H.
    apply (failed_step_keeps_readings _ _ _ _ _ _ H).
    intros w1 w2 r Hafter Hr. subst r. cbn in Hafter. discriminate.
  - unfold turn_fan_off in H.
    apply (failed_step_keeps_readings _ _ _ _ _ _ H).
    intros w1 w2 r Hafter Hr. subst r. cbn in Hafter. discriminate.
  - unfold set_target_temperature, try_except in H.
    destruct ((_send_command connect_effect target_temp_uuid _ ;; _) w)
      as [[u|e'] w1] eqn:Hbody; [discriminate|].
    assert (Hsame : readings (dev w1) = readings (dev w)).
    { apply (failed_step_keeps_readings _ _ _ _ _ _ Hbody).
      intros w2 w3 r Hafter Hr. subst r. cbn in Hafter. discriminate. }
    destruct e'; cbn in H; injection H as _ <-; exact Hsame.
  - unfold set_brightness, try_except in H.
    destruct ((_send_command connect_effect screen_brightness_uuid _ ;; _) w)
      as [[u|e'] w1] eqn:Hbody; [discriminate|].
    assert (Hsame : readings (dev w1) = readings (dev w)).
    { apply (failed_step_keeps_readings _ _ _ _ _ _ Hbody).
      intros w2 w3 r Hafter Hr. subst r. cbn in Hafter. discriminate. }
    destruct e'; cbn in H; injection H as _ <-; exact Hsame.
Qed.

End CommandPath.

Lemma failed_command_changes_nothing_witness :
  turn_heater_on connect_never offline
  = (Raise TimeoutError, snd (turn_heater_on connect_never offline))
  /\ readings (dev (snd (turn_heater_on connect_never offline))) = readings init.
Proof.
  assert (Hfail : turn_heater_on connect_never offline
                  = (Raise TimeoutError, snd (turn_heater_on connect_never offline)))
    by (vm_compute; reflexivity).
  split; [exact Hfail|].
  exact (failed_command_changes_nothing connect_never offline _ TimeoutError 0 0
           (or_introl Hfail)).
Defined.

(** ** Commands while disconnected *)

Section Disconnected.

Variable connect_effect : M bool.



End Disconnected.


(** ** Order and spacing of the writes *)

Section Fifo.

Variable connect_effect : M bool.

Lemma paced_just_written (w : World) :
  clock (paced (clock w) w) = clock w + 200.
Proof.
  unfold paced, _command_rate_limit. rewrite Z.sub_diag.
  cbn [Z.ltb Z.compare sleep snd clock with_trace with_clock]. lia.
Qed.

(** With the first command done, the rest of a pending queue is
    pending. *)
Lemma pending_cons (cmd : Command) (rest : list Command) (w : World) :
  pending (cmd :: rest) w ->
  futures w !! cmd_future cmd = None
  /\ forall r w', futures w' = <[cmd_future cmd := r]> (futures w) -> pending rest w'.
Proof.
  intros [Hdistinct Hnone]. cbn [map] in Hdistinct.
  apply NoDup_cons in Hdistinct as [Hfresh Hdistinct].
  apply Forall_cons in Hnone as [Hfirst Hnone].
  split; [exact Hfirst|]. intros r w' Hfut. split; [exact Hdistinct|].
  apply Forall_forall. intros c Hin. rewrite Hfut.
  rewrite lookup_insert_ne.
  - rewrite Forall_forall in Hnone. apply Hnone. exact Hin.
  - intros Heq. apply Hfresh. rewrite Heq.
    apply list_elem_of_In, in_map, list_elem_of_In. exact Hin.
Qed.

(** The processor on a queue, entered right after a write. *)
Lemma process_queue_all (q : list Command) (w : World) :
  processor w = Some (clock w) ->
  _processing_commands (dev w) = true ->
  _is_connected (dev w) = true ->
  _command_queue (dev w) = q ->
  faults w = [] ->
  _last_command_time (dev w) = clock w ->
  pending q w ->
  let w' := _process_command_queue connect_effect (length q) w in
  _command_queue (dev w') = []
  /\ peer w' = written q (peer w)
  /\ futures w' = succeeded q (futures w)
  /\ clock w' = clock w + 200 * Z.of_nat (length q)
  /\ _last_command_time (dev w') = clock w'.
Proof.
  revert w. induction q as [|cmd rest IH]; intros w Hp Hproc Hconn Hq Hf Hlast Hpending.
  - cbn [length]. rewrite (process_queue_suspended connect_effect (clock w)) by assumption.
    cbn [written succeeded fold_left length]. repeat split; try assumption. lia.
  - cbn [length].
    destruct (pending_cons cmd rest w Hpending) as [Hfirst Hrest].
    rewrite (process_queue_turn connect_effect (length rest) (clock w)) by assumption.
    rewrite (processor_iteration_pop connect_effect (clock w) w cmd rest) by exact Hq.
    rewrite execute_command_ok
      by (world_simpl; rewrite ?paced_faults; assumption).
    world_simpl. rewrite paced_futures, Hfirst.
    match goal with
    | |- context [_process_command_queue connect_effect (length rest) ?x] =>
        specialize (IH x)
    end.
    world_simpl in IH. rewrite paced_faults, paced_peer in IH.
    specialize (IH eq_refl Hproc Hconn eq_refl Hf eq_refl ltac:(eapply Hrest; reflexivity)).
    cbv zeta in IH. destruct IH as (Hq' & Hpeer & Hfut & Hclock & Hlast').
    cbv zeta. rewrite paced_peer.
    rewrite Hq', Hpeer, Hfut, Hlast', Hclock. rewrite paced_just_written.
    cbn [written succeeded fold_left]. repeat split; try reflexivity. lia.
Qed.

(** X4.  Over a sound link the processor empties a queue of commands
    whose senders still wait (no future is done) in submission order:
    every command is written to its characteristic, first to last,
    every future resolves to success, and after the first write each
    further one waits out the 200 ms of the rate limit, counted from
    the end of the write before it. *)
Theorem queue_in_order_and_spaced (last : Z) (cmd : Command) (rest : list Command)
    (w : World) :
  processor w = Some last ->
  _processing_commands (dev w) = true ->
  _is_connected (dev w) = true ->
  _command_queue (dev w) = cmd :: rest ->
  faults w = [] ->
  pending (cmd :: rest) w ->
  let w' := _process_command_queue connect_effect (S (length rest)) w in
  _command_queue (dev w') = []
  /\ peer w' = written (cmd :: rest) (peer w)
  /\ futures w' = succeeded (cmd :: rest) (futures w)
  /\ clock w' = clock (paced last w) + 200 * Z.of_nat (length rest)
  /\ _last_command_time (dev w') = clock w'.
Proof.
  intros Hp Hproc Hconn Hq Hf Hpending.
  destruct (pending_cons cmd rest w Hpending) as [Hfirst Hrest].
  rewrite (process_queue_turn connect_effect (length rest) last) by assumption.
  rewrite (processor_iteration_pop connect_effect last w cmd rest) by exact Hq.
  rewrite execute_command_ok by (world_simpl; rewrite ?paced_faults; assumption).
  world_simpl. rewrite paced_futures, Hfirst.
  match goal with
  | |- context [_process_command_queue connect_effect (length rest) ?x] =>
      pose proof (process_queue_all rest x) as Hall
  end.
  world_simpl in Hall. rewrite paced_faults, paced_peer in Hall.
  specialize (Hall eq_refl Hproc Hconn eq_refl Hf eq_refl ltac:(eapply Hrest; reflexivity)).
  cbv zeta in Hall. destruct Hall as (Hq' & Hpeer & Hfut & Hclock & Hlast').
  cbv zeta. rewrite paced_peer. rewrite Hq', Hpeer, Hfut, Hlast', Hclock.
  cbn [written succeeded fold_left]. repeat split; reflexivity.
Qed.

(** X24.  A command whose sender has timed out is not taken back: when
    the processor gets to it over a sound link it is still written to
    the appliance.  Its future stays as the timeout left it, the turn
    ends in the handler of the loop with one second of sleep, and the
    rate limit goes on counting from the write before. *)
Theorem cancelled_command_still_written (last : Z) (cmd : Command)
    (rest : list Command) (r : outcome bool) (w : World) :
  processor w = Some last ->
  _processing_commands (dev w) = true ->
  _is_connected (dev w) = true ->
  _command_queue (dev w) = cmd :: rest ->
  faults w = [] ->
  futures w !! cmd_future cmd = Some r ->
  let w' := _process_command_queue connect_effect 1 w in
  peer w' = <[cmd_uuid cmd := cmd_data cmd]> (peer w)
  /\ _command_queue (dev w') = rest
  /\ futures w' = futures w
  /\ clock w' = clock (paced last w) + 1000
  /\ sleeps (trace w') = sleeps (trace (paced last w)) ++ [1000]
  /\ processor w' = Some last
  /\ _is_connected (dev w') = true.
Proof.
  intros Hp Hproc Hconn Hq Hf Hfut.
  rewrite (process_queue_turn connect_effect 0 last) by assumption.
  rewrite (processor_iteration_pop connect_effect last w cmd rest) by exact Hq.
  rewrite execute_command_ok by (world_simpl; rewrite ?paced_faults; assumption).
  world_simpl. rewrite paced_futures, Hfut. cbn [sleep snd]. world_simpl.
  rewrite (process_queue_suspended connect_effect last)
    by (world_simpl; first [reflexivity | assumption]).
  cbv zeta. world_simpl. rewrite paced_peer, paced_futures.
  unfold sleeps. rewrite flat_map_app. cbn [flat_map app].
  repeat split; try reflexivity; try assumption; lia.
Qed.

End Fifo.

Lemma queue_in_order_and_spaced_witness :
  let w := world_of (upd_command_queue [first_command; second_command] linked) ∅ [] 5000 in
  processor w = Some 0
  /\ _processing_commands (dev w) = true
  /\ _is_connected (dev w) = true
  /\ _command_queue (dev w) = [first_command; second_command]
  /\ faults w = []
  /\ pending [first_command; second_command] w
  /\ clock (_process_command_queue connect_never 2 w) = 5200
  /\ peer (_process_command_queue connect_never 2 w) !! fan_on_uuid = Some [x00]
  /\ futures (_process_command_queue connect_never 2 w) !! 1%nat = Some (Return true).
Proof.
  cbv zeta.
  set (w := world_of (upd_command_queue [first_command; second_command] linked) ∅ [] 5000).
  assert (Hp : processor w = Some 0) by reflexivity.
  assert (Hproc : _processing_commands (dev w) = true) by reflexivity.
  assert (Hconn : _is_connected (dev w) = true) by reflexivity.
  assert (Hq : _command_queue (dev w) = [first_command; second_command]) by reflexivity.
  assert (Hf : faults w = []) by reflexivity.
  assert (Hpending : pending [first_command; second_command] w).
  { split.
    - apply (bool_decide_unpack _). vm_compute. exact I.
    - repeat constructor. }
  repeat (split; [assumption|]).
  destruct (queue_in_order_and_spaced connect_never 0 first_command [second_command] w
              Hp Hproc Hconn Hq Hf Hpending) as (_ & Hpeer & Hfut & Hclock & _).
  cbn [length] in Hclock, Hpeer, Hfut. rewrite Hclock, Hpeer, Hfut.
  split; [|split]; vm_compute; reflexivity.
Defined.

Lemma cancelled_command_still_written_witness :
  let w := with_futures {[0%nat := Raise Cancelled]}
             (world_of (upd_command_queue [first_command] linked) ∅ [] 5000) in
  processor w = Some 0
  /\ _processing_commands (dev w) = true
  /\ _is_connected (dev w) = true
  /\ _command_queue (dev w) = [first_command]
  /\ faults w = []
  /\ futures w !! cmd_future first_command = Some (Raise Cancelled)
  /\ peer (_process_command_queue connect_never 1 w) !! heat_on_uuid = Some [x00]
  /\ futures (_process_command_queue connect_never 1 w) !! 0%nat = Some (Raise Cancelled)
  /\ clock (_process_command_queue connect_never 1 w) = 6000.
Proof.
  cbv zeta.
  set (w := with_futures {[0%nat := Raise Cancelled]}
              (world_of (upd_command_queue [first_command] linked) ∅ [] 5000)).
  assert (Hp : processor w = Some 0) by reflexivity.
  assert (Hproc : _processing_commands (dev w) = true) by reflexivity.
  assert (Hconn : _is_connected (dev w) = true) by reflexivity.
  assert (Hq : _command_queue (dev w) = [first_command]) by reflexivity.
  assert (Hf : faults w = []) by reflexivity.
  assert (Hfut : futures w !! cmd_future first_command = Some (Raise Cancelled))
    by reflexivity.
  repeat (split; [assumption|]).
  destruct (cancelled_command_still_written connect_never 0 first_command []
              (Raise Cancelled) w Hp Hproc Hconn Hq Hf Hfut)
    as (Hpeer & _ & Hsame & Hclock & _).
  rewrite Hpeer, Hsame, Hclock. split; [|split]; vm_compute; reflexivity.
Defined.

(** ** Notifications in sequence *)

Lemma process_notification_bookkeeping (data : option (list byte)) (source : string)
    (now : Z) (d : Device) :
  _last_heater_change_time (_process_notification data source now d)
  = _last_heater_change_time d
  /\ _heater_change_source (_process_notification data source now d)
     = _heater_change_source d.
Proof.
  unfold _process_notification.
  destruct data as [data|]; [|split; reflexivity].
  destruct (negb (truthy data) || (length data <? 2)%nat); [split; reflexivity|].
  cbv zeta.
  repeat match goal with
  | |- context [if ?c then _ else _] => destruct c
  end; split; reflexivity.
Qed.

Lemma process_notification_short (data : list byte) (source : string) (now : Z)
    (d : Device) :
  (length data < 2)%nat -> _process_notification (Some data) source now d = d.
Proof.
  intros Hlen. unfold _process_notification.
  destruct data as [|b0 [|b1 rest]]; simpl in *; try reflexivity; lia.
Qed.

(** One notification inside the window of a user command. *)
Lemma handler_in_window (data : option (list byte)) (now : Z) (d : Device) :
  _heater_change_source d = "user_command" ->
  now - _last_heater_change_time d <= 5000 ->
  _heater_on (_notification_handler data now d) = _heater_on d
  /\ _heater_change_source (_notification_handler data now d) = "user_command"
  /\ _last_heater_change_time (_notification_handler data now d)
     = _last_heater_change_time d.
Proof.
  intros Hsrc Hnow.
  assert (Hheat : _heater_on (_notification_handler data now d) = _heater_on d).
  { rewrite handler_heater.
    destruct data as [data|]; [|reflexivity].
    destruct (Nat.leb_spec 2 (length data)) as [Hlen|Hlen].
    - rewrite heater_after_payload by exact Hlen.
      cbn [_last_heater_change_time _heater_change_source upd_register_one_raw].
      rewrite Hsrc.
      destruct (Z.ltb_spec 5000 (now - _last_heater_change_time d)); [lia|reflexivity].
    - rewrite process_notification_short by exact Hlen. reflexivity. }
  split; [exact Hheat|].
  rewrite handler_heater in Hheat. unfold _notification_handler. cbv zeta.
  cbn [_heater_on upd_register_one_raw] in *. rewrite Hheat.
  rewrite Bool.eqb_reflx. cbn [negb].
  destruct (process_notification_bookkeeping data "notification" now
              (upd_register_one_raw
                 (match data with Some data0 => hex_or_None data0 | None => None end) d))
    as [Htime Hsource].
  rewrite Htime, Hsource. split; [exact Hsrc|reflexivity].
Qed.

(** X5.  After a user command, no run of notifications that all arrive
    within 5 seconds of it changes the heater flag, whatever they report
    and however many they are; the window itself stays as the command left
    it. *)
Theorem window_holds_against_burst (events : list (option (list byte) * Z)) (d : Device) :
  _heater_change_source d = "user_command" ->
  Forall (fun e => snd e - _last_heater_change_time d <= 5000) events ->
  _heater_on (notify_all events d) = _heater_on d
  /\ _heater_change_source (notify_all events d) = "user_command"
  /\ _last_heater_change_time (notify_all events d) = _last_heater_change_time d.
Proof.
  revert d. induction events as [|[data now] events IH]; intros d Hsrc Hall.
  - cbn. auto.
  - apply Forall_cons in Hall. destruct Hall as [Hnow Hall]. cbn [snd] in Hnow.
    destruct (handler_in_window data now d Hsrc Hnow) as (Hheat & Hsrc' & Htime).
    change (notify_all ((data, now) :: events) d)
      with (notify_all events (_notification_handler data now d)).
    destruct (IH (_notification_handler data now d) Hsrc') as (Hh & Hs & Ht).
    + rewrite Htime. exact Hall.
    + rewrite Hh, Hs, Ht. auto.
Qed.

Lemma window_holds_against_burst_witness :
  _heater_change_source heater_set_by_user = "user_command"
  /\ _heater_on
       (notify_all [(Some [x00; x00], 2000); (None, 3000); (Some [x00; x20], 6000)]
          heater_set_by_user) = true.
Proof.
  assert (Hsrc : _heater_change_source heater_set_by_user = "user_command")
    by reflexivity.
  split; [exact Hsrc|].
  destruct (window_holds_against_burst
              [(Some [x00; x00], 2000); (None, 3000); (Some [x00; x20], 6000)]
              heater_set_by_user Hsrc) as (Hheat & _).
  - repeat constructor; cbn; lia.
  - rewrite Hheat. reflexivity.
Defined.

(** X6.  A notification that changes the heater flag ends the window:
    it records itself as the source of the change, so the next
    notification of two bytes or more sets the flag from its bit whenever
    it arrives. *)
Theorem applied_notification_ends_window (data1 : option (list byte)) (now1 : Z)
    (data2 : list byte) (now2 : Z) (d : Device) :
  _heater_on (_notification_handler data1 now1 d) <> _heater_on d ->
  (2 <= length data2)%nat ->
  _heater_change_source (_notification_handler data1 now1 d) = "notification"
  /\ _last_heater_change_time (_notification_handler data1 now1 d) = now1
  /\ _heater_on (_notification_handler (Some data2) now2 (_notification_handler data1 now1 d))
     = heater_bit data2.
Proof.
  intros Hchanged Hlen.
  assert (Hbook : _heater_change_source (_notification_handler data1 now1 d)
                  = "notification"
                  /\ _last_heater_change_time (_notification_handler data1 now1 d) = now1).
  { rewrite handler_heater in Hchanged. unfold _notification_handler. cbv zeta.
    cbn [_heater_on upd_register_one_raw] in *.
    destruct (Bool.eqb (_heater_on d) (_heater_on (_process_notification data1 _ now1 _)))
      eqn:Hsame.
    - apply Bool.eqb_prop in Hsame. congruence.
    - cbn. auto. }
  destruct Hbook as [Hsrc Htime]. split; [exact Hsrc|]. split; [exact Htime|].
  rewrite handler_heater, heater_after_payload by exact Hlen.
  cbn [_last_heater_change_time _heater_change_source upd_register_one_raw].
  rewrite Hsrc. cbn. rewrite orb_true_r. reflexivity.
Qed.

Lemma applied_notification_ends_window_witness :
  _heater_on (_notification_handler (Some [x00; x00]) 7000 heater_set_by_user)
  <> _heater_on heater_set_by_user
  /\ (2 <= length [x20; x00])%nat
  /\ _heater_on
       (_notification_handler (Some [x20; x00]) 7001
          (_notification_handler (Some [x00; x00]) 7000 heater_set_by_user)) = true.
Proof.
  assert (Hchanged : _heater_on (_notification_handler (Some [x00; x00]) 7000
                                   heater_set_by_user)
                     <> _heater_on heater_set_by_user) by (cbn; discriminate).
  assert (Hlen : (2 <= length [x20; x00])%nat) by (cbn; lia).
  split; [exact Hchanged|]. split; [exact Hlen|].
  destruct (applied_notification_ends_window (Some [x00; x00]) 7000 [x20; x00] 7001
              heater_set_by_user Hchanged Hlen) as (_ & _ & Hheat).
  rewrite Hheat. reflexivity.
Defined.

(** ** Temperature taken from the status payload *)

Lemma status_high_byte (data : list byte) :
  (2 <= length data)%nat ->
  Z.shiftr (Z.land (getitem data 0 + getitem data 1 * 256) 0xFF00) 8 = getitem data 1.
Proof.
  intros Hlen. destruct data as [|b0 [|b1 rest]]; simpl in Hlen; try lia.
  unfold getitem. cbn [nth].
  pose proof (byte_val_range b0) as H0. pose proof (byte_val_range b1) as H1.
  rewrite Z.shiftr_land.
  change (Z.shiftr 0xFF00 8) with (Z.ones 8).
  rewrite Z.land_ones by lia. rewrite Z.shiftr_div_pow2 by lia.
  change (2 ^ 8) with 256.
  rewrite Z.div_add by lia. rewrite Z.div_small by lia.
  rewrite Z.mod_small; lia.
Qed.

(** What the decoder caches from a second byte in its range. *)
Lemma process_notification_caches (data : list byte) (source : string) (now : Z)
    (d : Device) :
  (2 <= length data)%nat ->
  40 <= getitem data 1 <= 230 ->
  _current_temperature (_process_notification (Some data) source now d) = getitem data 1
  /\ _temp_cache_time (_process_notification (Some data) source now d) = now.
Proof.
  intros Hlen Hrange. unfold _process_notification.
  rewrite long_payload_guard by exact Hlen. cbv zeta.
  rewrite status_high_byte by exact Hlen.
  destruct (Z.leb_spec 40 (getitem data 1)); destruct (Z.leb_spec (getitem data 1) 230);
    cbn [andb]; try lia.
  destruct (_ || _); cbn; auto.
Qed.

(** X7.  The second byte of a status payload, the byte that carries the
    fan flag, doubles as a temperature: a value of it between 40 and 230
    replaces the cached current temperature and renews the cache time;
    any other value leaves both alone. *)
Theorem status_second_byte_is_temperature (data : list byte) (source : string) (now : Z)
    (d : Device) :
  (2 <= length data)%nat ->
  let d' := _process_notification (Some data) source now d in
  (40 <= getitem data 1 <= 230 ->
   _current_temperature d' = getitem data 1 /\ _temp_cache_time d' = now)
  /\ (~ 40 <= getitem data 1 <= 230 ->
      _current_temperature d' = _current_temperature d
      /\ _temp_cache_time d' = _temp_cache_time d).
Proof.
  intros Hlen d'. subst d'. unfold _process_notification.
  rewrite long_payload_guard by exact Hlen. cbv zeta.
  rewrite status_high_byte by exact Hlen.
  destruct (Z.leb_spec 40 (getitem data 1)); destruct (Z.leb_spec (getitem data 1) 230);
    cbn [andb]; (split; intros Hrange; [|]); try lia;
    destruct (_ || _); cbn; auto.
Qed.

Lemma status_second_byte_is_temperature_witness :
  (2 <= length [x00; x30])%nat
  /\ 40 <= getitem [x00; x30] 1 <= 230
  /\ _current_temperature (_process_notification (Some [x00; x30]) "notification" 9000 init)
     = 48
  /\ _fan_on (_process_notification (Some [x00; x30]) "notification" 9000 init) = true.
Proof.
  assert (Hlen : (2 <= length [x00; x30])%nat) by (cbn; lia).
  assert (Hrange : 40 <= getitem [x00; x30] 1 <= 230) by (cbn; lia).
  split; [exact Hlen|]. split; [exact Hrange|].
  destruct (status_second_byte_is_temperature [x00; x30] "notification" 9000 init Hlen)
    as (Hset & _).
  destruct (Hset Hrange) as (Htemp & _). rewrite Htemp. split; reflexivity.
Defined.

(** X8.  For one second after such a notification the current
    temperature is served from the cache: the read returns the byte and
    touches neither the transport nor the object. *)
Theorem notified_temperature_is_cached (connect_effect : M bool) (data : list byte)
    (source : string) (now : Z) (w : World) :
  (2 <= length data)%nat ->
  40 <= getitem data 1 <= 230 ->
  now <= clock w < now + 1000 ->
  let w' := with_dev (_process_notification (Some data) source now (dev w)) w in
  _fast_read_current_temperature w' = (Return (getitem data 1), w')
  /\ read_current_temperature connect_effect w' = (Return (getitem data 1), w').
Proof.
  intros Hlen Hrange Hclock w'.
  destruct (process_notification_caches data source now (dev w) Hlen Hrange)
    as (Htemp & Htime).
  assert (Hfast : _fast_read_current_temperature w' = (Return (getitem data 1), w')).
  { rewrite fast_read_current_flat. subst w'. cbn [dev with_dev clock].
    rewrite Htemp, Htime. unfold _temp_cache_duration.
    destruct (Z.ltb_spec (clock w - now) 1000); [reflexivity|lia]. }
  split; [exact Hfast|].
  apply read_current_of_fast; [exact Hfast|lia].
Qed.

Lemma notified_temperature_is_cached_witness :
  (2 <= length [x00; x30])%nat
  /\ 40 <= getitem [x00; x30] 1 <= 230
  /\ 9000 <= clock (world_of linked ∅ [LinkError] 9999) < 9000 + 1000
  /\ fst (read_current_temperature connect_never
            (with_dev (_process_notification (Some [x00; x30]) "notification" 9000 linked)
               (world_of linked ∅ [LinkError] 9999))) = Return 48.
Proof.
  assert (Hlen : (2 <= length [x00; x30])%nat) by (cbn; lia).
  assert (Hrange : 40 <= getitem [x00; x30] 1 <= 230) by (cbn; lia).
  assert (Hclock : 9000 <= clock (world_of linked ∅ [LinkError] 9999) < 9000 + 1000)
    by (cbn; lia).
  split; [exact Hlen|]. split; [exact Hrange|]. split; [exact Hclock|].
  destruct (notified_temperature_is_cached connect_never [x00; x30] "notification" 9000
              (world_of linked ∅ [LinkError] 9999) Hlen Hrange Hclock) as (_ & Hread).
  cbn [dev world_of] in Hread. rewrite Hread. reflexivity.
Defined.

(** ** The cached temperature stays in range *)

Section Preservation.

Context {A B : Type} (P : Device -> Prop).

Lemma preserves_ret (a : A) : preserves P (ret a).
Proof. intros w Hw. exact Hw. Qed.

Lemma preserves_raise (e : exn) : preserves P (@raise A e).
Proof. intros w Hw. exact Hw. Qed.

Lemma preserves_self (field : Device -> A) : preserves P (self field).
Proof. intros w Hw. exact Hw. Qed.

Lemma preserves_bind (c : M A) (k : A -> M B) :
  preserves P c -> (forall a, preserves P (k a)) -> preserves P (bind c k).
Proof.
  intros Hc Hk w Hw. unfold bind. specialize (Hc w Hw).
  destruct (c w) as [[a|e] w1]; cbn [snd] in *; [apply Hk; exact Hc|exact Hc].
Qed.

Lemma preserves_try_except (c : M A) (h : exn -> M A) :
  preserves P c -> (forall e, preserves P (h e)) -> preserves P (try_except c h).
Proof.
  intros Hc Hh w Hw. unfold try_except. specialize (Hc w Hw).
  destruct (c w) as [[a|[]] w1]; cbn [snd] in *; try exact Hc; apply Hh; exact Hc.
Qed.

Lemma preserves_timeout (ms : Z) (c : M A) :
  preserves P c -> preserves P (asyncio_timeout ms c).
Proof.
  intros Hc w Hw. unfold asyncio_timeout. specialize (Hc w Hw).
  destruct (c w) as [[a|[]] w1]; cbn [snd] in *; exact Hc.
Qed.

Lemma preserves_assign (upd : A -> Device -> Device) (v : A) :
  (forall d, P d -> P (upd v d)) -> preserves P (assign upd v).
Proof. intros Hupd w Hw. cbn. apply Hupd. exact Hw. Qed.

End Preservation.

Lemma preserves_time (P : Device -> Prop) : preserves P time_time.
Proof. intros w Hw. exact Hw. Qed.

Lemma preserves_read (P : Device -> Prop) (uuid : string) :
  preserves P (read_gatt_char uuid).
Proof.
  intros w Hw. destruct (read_gatt_char_dev uuid w) as [Hdev _]. rewrite Hdev. exact Hw.
Qed.

Lemma preserves_getitem (P : Device -> Prop) (value : list byte) (i : nat) :
  preserves P (getitem_exn value i).
Proof. intros w Hw. unfold getitem_exn. destruct (nth_error value i); exact Hw. Qed.

Lemma out_of_range_false (t : Z) :
  (1000 <? t) || (t <? 0) = false -> 0 <= t <= 1000.
Proof.
  destruct (Z.ltb_spec 1000 t); destruct (Z.ltb_spec t 0); cbn; intros; try discriminate; lia.
Qed.

Lemma process_notification_plausible (data : option (list byte)) (source : string)
    (now : Z) (d : Device) :
  plausible d -> plausible (_process_notification data source now d).
Proof.
  intros Hd. unfold _process_notification.
  destruct data as [data|]; [|exact Hd].
  destruct (negb (truthy data) || (length data <? 2)%nat); [exact Hd|].
  cbv zeta.
  match goal with
  | |- context [(40 <=? ?t) && (?t <=? 230)] =>
      destruct (Z.leb_spec 40 t); destruct (Z.leb_spec t 230); cbn [andb]
  end;
  destruct (_ || _); unfold plausible in *; cbn; lia.
Qed.

Lemma handler_plausible (data : option (list byte)) (now : Z) (d : Device) :
  plausible d -> plausible (_notification_handler data now d).
Proof.
  intros Hd. unfold _notification_handler. cbv zeta.
  assert (Hp := process_notification_plausible data "notification" now
                  (upd_register_one_raw
                     (match data with Some data0 => hex_or_None data0 | None => None end) d)
                  Hd).
  destruct (negb (Bool.eqb _ _)); [|exact Hp]. exact Hp.
Qed.

Lemma fast_read_current_plausible : preserves plausible _fast_read_current_temperature.
Proof.
  intros w Hw. rewrite fast_read_current_flat.
  destruct (_ <? _); [exact Hw|]. destruct (_ || _); [exact Hw|].
  destruct (read_gatt_char_dev current_temp_uuid w) as [Hdev _].
  destruct (read_gatt_char current_temp_uuid w) as [[value|[]] w1]; cbn [snd] in *;
    try (unfold plausible in *; cbn; rewrite Hdev; exact Hw).
  cbv zeta. destruct (2 <=? length value)%nat;
    [|unfold plausible in *; cbn; rewrite Hdev; exact Hw].
  destruct ((1000 <? _) || _) eqn:Hrange;
    [unfold plausible in *; cbn; rewrite Hdev; exact Hw|].
  apply out_of_range_false in Hrange. unfold plausible. cbn. exact Hrange.
Qed.

Section Plausible.

Variable connect_effect : M bool.

Hypothesis connect_plausible : preserves plausible connect_effect.

Lemma ensure_connected_plausible : preserves plausible (_ensure_connected connect_effect).
Proof.
  unfold _ensure_connected. apply preserves_bind; [apply preserves_self|].
  intros connected. destruct connected; cbn [negb]; [apply preserves_ret|].
  apply preserves_bind.
  - intros w Hw. unfold connect.
    specialize (connect_plausible (with_trace (trace w ++ [ConnectCalled]) w) Hw).
    destruct (connect_effect _) as [r w1]. exact connect_plausible.
  - intros ok. destruct ok; cbn [negb]; [apply preserves_ret|apply preserves_raise].
Qed.

Lemma full_read_current_plausible :
  preserves plausible (full_read_current_temperature connect_effect).
Proof.
  unfold full_read_current_temperature.
  apply preserves_try_except; [|intros e; apply preserves_self].
  apply preserves_timeout.
  apply preserves_bind; [apply ensure_connected_plausible|intros _].
  apply preserves_try_except; [|intros e; apply preserves_self].
  apply preserves_bind.
  - apply preserves_try_except; [|intros e; apply preserves_ret].
    apply preserves_bind; [apply preserves_read|intros value].
    apply preserves_bind; [apply preserves_time|intros t].
    apply preserves_bind; [apply preserves_assign; intros d Hd; exact Hd|intros _].
    apply preserves_bind; [apply preserves_assign; intros d Hd; exact Hd|intros _].
    destruct (2 <=? length value)%nat; [|apply preserves_ret].
    cbv zeta. destruct ((1000 <? _) || _) eqn:Hrange.
    + apply preserves_bind; [apply preserves_self|intros c; apply preserves_ret].
    + apply out_of_range_false in Hrange.
      apply preserves_bind; [apply preserves_assign; intros d _; exact Hrange|intros _].
      apply preserves_bind; [apply preserves_time|intros t'].
      apply preserves_bind; [apply preserves_assign; intros d Hd; exact Hd|intros _].
      apply preserves_ret.
  - intros [temperature|]; [apply preserves_ret|].
    apply preserves_bind; [apply preserves_read|intros value].
    apply preserves_bind; [apply preserves_time|intros t].
    apply preserves_bind; [apply preserves_assign; intros d Hd; exact Hd|intros _].
    apply preserves_bind; [apply preserves_assign; intros d Hd; exact Hd|intros _].
    apply preserves_bind; [apply preserves_getitem|intros b0].
    apply preserves_bind; [apply preserves_getitem|intros b1].
    cbv zeta. destruct ((1000 <? _) || _) eqn:Hrange; [apply preserves_self|].
    apply out_of_range_false in Hrange.
    apply preserves_bind; [apply preserves_assign; intros d _; exact Hrange|intros _].
    apply preserves_bind; [apply preserves_time|intros t'].
    apply preserves_bind; [apply preserves_assign; intros d Hd; exact Hd|intros _].
    apply preserves_ret.
Qed.

(** X9.  The cached current temperature never leaves [0, 1000]: it
    starts at 0, and the decoder, the handler, both temperature reads
    and the command path keep it in range, provided [connect] does.  The
    coordinator's test for a temperature above 1000 or below 0 therefore
    never fires. *)
Theorem current_temperature_stays_plausible (w : World) :
  plausible (dev w) ->
  (forall data source now, plausible (_process_notification data source now (dev w)))
  /\ (forall data now, plausible (_notification_handler data now (dev w)))
  /\ plausible (dev (snd (_fast_read_current_temperature w)))
  /\ plausible (dev (snd (read_current_temperature connect_effect w)))
  /\ (forall uuid data, plausible (dev (snd (_send_command connect_effect uuid data w))))
  /\ plausible init.
Proof.
  intros Hw.
  split; [intros; apply process_notification_plausible; exact Hw|].
  split; [intros; apply handler_plausible; exact Hw|].
  split; [apply fast_read_current_plausible; exact Hw|].
  split.
  - revert w Hw. change (preserves plausible (read_current_temperature connect_effect)).
    unfold read_current_temperature. apply preserves_bind.
    + apply preserves_try_except; [|intros e; apply preserves_ret].
      apply preserves_bind; [apply fast_read_current_plausible|intros temp].
      apply preserves_ret.
    + intros [temp|]; [apply preserves_ret|apply full_read_current_plausible].
  - split; [|unfold plausible; cbn; lia].
    intros uuid data. destruct (send_command_untouched connect_effect uuid data w) as [Hr _].
    unfold plausible in *. unfold readings in Hr. injection Hr as Hcur _.
    rewrite Hcur. exact Hw.
Qed.

End Plausible.

Lemma current_temperature_stays_plausible_witness :
  preserves plausible connect_never
  /\ plausible (dev cold_start)
  /\ plausible (dev (snd (read_current_temperature connect_never cold_start))).
Proof.
  assert (Hconnect : preserves plausible connect_never) by (intros w Hw; exact Hw).
  assert (Hstart : plausible (dev cold_start)) by (unfold plausible; cbn; lia).
  split; [exact Hconnect|]. split; [exact Hstart|].
  destruct (current_temperature_stays_plausible connect_never Hconnect cold_start Hstart)
    as (_ & _ & _ & Hread & _).
  exact Hread.
Defined.

(** ** Clamping of the values written *)

Lemma from_bytes_packed_u16 (n : Z) :
  0 <= n < 65536 -> from_bytes_little (pack_u16_le n) = n.
Proof.
  intros Hn. unfold pack_u16_le. cbn [from_bytes_little].
  rewrite !byte_val_of_Z_mod.
  assert (Hhi : 0 <= n / 256 < 256).
  { split; [apply Z.div_pos; lia | apply Z.div_lt_upper_bound; lia]. }
  rewrite (Z.mod_small (n / 256)) by exact Hhi.
  pose proof (Z.div_mod n 256). lia.
Qed.

Section Clamping.

Variable connect_effect : M bool.

(** X10.  Whatever integer is asked for, [set_target_temperature] stores
    and writes the nearest temperature in [40, 230], as ten times that
    value in four little-endian bytes, and [read_target_temperature]
    then returns that clamped temperature. *)
Theorem target_temperature_clamped (t : Z) (w : World) :
  ready w ->
  exists w1 w2,
    set_target_temperature connect_effect t w = (Return tt, w1)
    /\ _target_temperature (dev w1) = Z.max 40 (Z.min 230 t)
    /\ peer w1 !! target_temp_uuid = Some (pack_u32_le (Z.max 40 (Z.min 230 t) * 10))
    /\ read_target_temperature connect_effect w1 = (Return (Z.max 40 (Z.min 230 t)), w2)
    /\ 40 <= _target_temperature (dev w2) <= 230.
Proof.
  intros Hready.
  set (c := Z.max 40 (Z.min 230 t)).
  assert (Hc : 40 <= c <= 230) by (subst c; lia).
  destruct (send_command_ready connect_effect target_temp_uuid (pack_u32_le (c * 10)) w
              Hready) as (w' & Hsend & (tc & Hdev) & Hpeer & Hf).
  destruct Hready as (Hconn & Hclient & _).
  assert (Hset : set_target_temperature connect_effect t w
                 = (Return tt, with_dev (upd_target_temperature c (dev w')) w')).
  { unfold set_target_temperature. fold c. run. rewrite Hsend. reflexivity. }
  assert (Hdecode := decode_packed_u32 (c * 10) ltac:(lia)).
  assert (Hfast : _fast_read_target_temperature
                    (with_dev (upd_target_temperature c (dev w')) w')
                  = (Return c,
                     with_dev
                       (upd_target_temperature c
                          (upd_target_temperature_raw (hex_or_None (pack_u32_le (c * 10)))
                             (upd_last_command_time (clock w')
                                (upd_target_temperature c (dev w'))))) w')).
  { rewrite (fast_read_target _ (pack_u32_le (c * 10))).
    - rewrite Hdecode, round_div10_exact. reflexivity.
    - world_simpl. rewrite Hdev. world_simpl. exact Hconn.
    - world_simpl. rewrite Hdev. world_simpl. exact Hclient.
    - exact Hf.
    - world_simpl. rewrite Hpeer. apply lookup_insert_eq.
    - simpl. lia. }
  eexists. eexists. split; [exact Hset|].
  split; [reflexivity|].
  split; [world_simpl; rewrite Hpeer; apply lookup_insert_eq|].
  split.
  - unfold read_target_temperature. unfold bind at 1. unfold try_except at 1.
    unfold bind at 1. rewrite Hfast. unfold ret.
    destruct (Z.ltb_spec 0 c) as [_|Hneg]; [reflexivity|lia].
  - world_simpl. exact Hc.
Qed.

(** X11.  [set_brightness] stores and writes the nearest percentage in
    [0, 100], as two little-endian bytes that decode back to it. *)
Theorem brightness_clamped (b : Z) (w : World) :
  ready w ->
  exists w1,
    set_brightness connect_effect b w = (Return tt, w1)
    /\ _brightness (dev w1) = Z.max 0 (Z.min 100 b)
    /\ 0 <= _brightness (dev w1) <= 100
    /\ peer w1 !! screen_brightness_uuid = Some (pack_u16_le (Z.max 0 (Z.min 100 b)))
    /\ (forall value, peer w1 !! screen_brightness_uuid = Some value ->
        from_bytes_little value = _brightness (dev w1)).
Proof.
  intros Hready.
  set (c := Z.max 0 (Z.min 100 b)).
  assert (Hc : 0 <= c <= 100) by (subst c; lia).
  destruct (send_command_ready connect_effect screen_brightness_uuid (pack_u16_le c) w
              Hready) as (w' & Hsend & _ & Hpeer & _).
  exists (with_dev (upd_brightness c (dev w')) w').
  assert (Hlookup : peer w' !! screen_brightness_uuid = Some (pack_u16_le c))
    by (rewrite Hpeer; apply lookup_insert_eq).
  split; [unfold set_brightness; fold c; run; rewrite Hsend; reflexivity|].
  world_simpl. split; [reflexivity|]. split; [exact Hc|]. split; [exact Hlookup|].
  intros value Hvalue. rewrite Hlookup in Hvalue. injection Hvalue as <-.
  apply from_bytes_packed_u16. lia.
Qed.

End Clamping.

Lemma target_temperature_clamped_witness :
  ready (world_of linked ∅ [] 5000)
  /\ fst (read_target_temperature connect_never
            (snd (set_target_temperature connect_never 500 (world_of linked ∅ [] 5000))))
     = Return 230.
Proof.
  assert (Hready : ready (world_of linked ∅ [] 5000)).
  { unfold ready. cbn [world_of linked dev processor faults futures next_future clock
                       _is_connected client _processing_commands _command_queue].
    repeat split; try reflexivity. exists 0. split; [reflexivity|lia]. }
  split; [exact Hready|].
  destruct (target_temperature_clamped connect_never 500 (world_of linked ∅ [] 5000) Hready)
    as (w1 & w2 & Hset & _ & _ & Hread & _).
  rewrite Hset. cbn [snd]. rewrite Hread. reflexivity.
Defined.

Lemma brightness_clamped_witness :
  ready (world_of linked ∅ [] 5000)
  /\ _brightness (dev (snd (set_brightness connect_never (-7) (world_of linked ∅ [] 5000))))
     = 0.
Proof.
  assert (Hready : ready (world_of linked ∅ [] 5000)).
  { unfold ready. cbn [world_of linked dev processor faults futures next_future clock
                       _is_connected client _processing_commands _command_queue].
    repeat split; try reflexivity. exists 0. split; [reflexivity|lia]. }
  split; [exact Hready|].
  destruct (brightness_clamped connect_never (-7) (world_of linked ∅ [] 5000) Hready)
    as (w1 & Hset & Hb & _).
  rewrite Hset. cbn [snd]. rewrite Hb. reflexivity.
Defined.

(** ** Target temperature reads *)

(** The fast read of the target temperature without the plumbing of the
    coroutine. *)
Lemma fast_read_target_flat (w : World) :
  _fast_read_target_temperature w =
  if negb (_is_connected (dev w)) || negb (client (dev w))
  then (Return (_target_temperature (dev w)), w)
  else
    match read_gatt_char target_temp_uuid w with
    | (Return value, w1) =>
        let d1 := upd_target_temperature_raw (hex_or_None value)
                    (upd_last_command_time (clock w1) (dev w1)) in
        if (2 <=? length value)%nat then
          let temperature := round_div10 (getitem value 0 + getitem value 1 * 256) in
          (Return temperature, with_dev (upd_target_temperature temperature d1) w1)
        else (Return (_target_temperature (dev w1)), with_dev d1 w1)
    | (Raise Cancelled, w1) =>
        (Return (_target_temperature (dev w1)), with_clock (clock w + 2000) w1)
    | (Raise _, w1) => (Return (_target_temperature (dev w1)), w1)
    end.
Proof.
  unfold _fast_read_target_temperature. run.
  destruct (negb (_is_connected (dev w)) || negb (client (dev w))); [reflexivity|].
  destruct (read_gatt_char target_temp_uuid w) as [[value|[]] w1]; try reflexivity.
  run. destruct (2 <=? length value)%nat; reflexivity.
Qed.

Section TargetReads.

Variable connect_effect : M bool.

Lemma fast_read_target_returns (w : World) :
  exists v w', _fast_read_target_temperature w = (Return v, w').
Proof.
  rewrite fast_read_target_flat.
  destruct (_ || _); [eauto|].
  destruct (read_gatt_char target_temp_uuid w) as [[value|[]] w1]; eauto.
  cbv zeta. destruct (2 <=? length value)%nat; eauto.
Qed.

Lemma read_target_of_fast (w w' : World) (v : Z) :
  _fast_read_target_temperature w = (Return v, w') ->
  0 < v ->
  read_target_temperature connect_effect w = (Return v, w').
Proof.
  intros Hfast Hpos.
  unfold read_target_temperature. unfold bind at 1. unfold try_except at 1.
  unfold bind at 1. rewrite Hfast. unfold ret.
  destruct (Z.ltb_spec 0 v); [reflexivity|lia].
Qed.

(** X12.  [read_target_temperature] never raises.  While the stored
    target is positive, a transport read that raises or returns fewer than
    two bytes gives the stored target back and leaves it; a payload of two
    bytes or more that decodes to 1 or more is stored and returned as it
    is, with no upper limit checked (up to 6554 for bytes 0xFF 0xFF). *)
Theorem read_target_temperature_fallback (w : World) :
  (exists v w', read_target_temperature connect_effect w = (Return v, w'))
  /\ (0 < _target_temperature (dev w) ->
      let stored := _target_temperature (dev w) in
      let r := read_target_temperature connect_effect w in
      (forall e,
          fst (read_gatt_char target_temp_uuid w) = Raise e ->
          fst r = Return stored /\ _target_temperature (dev (snd r)) = stored)
      /\ (forall value,
             fst (read_gatt_char target_temp_uuid w) = Return value ->
             (length value < 2)%nat ->
             fst r = Return stored /\ _target_temperature (dev (snd r)) = stored))
  /\ (forall value,
         _is_connected (dev w) = true ->
         client (dev w) = true ->
         fst (read_gatt_char target_temp_uuid w) = Return value ->
         (2 <= length value)%nat ->
         1 <= round_div10 (status_word value) ->
         let r := read_target_temperature connect_effect w in
         fst r = Return (round_div10 (status_word value))
         /\ _target_temperature (dev (snd r)) = round_div10 (status_word value)
         /\ round_div10 (status_word value) <= 6554).
Proof.
  split; [|split].
  - unfold read_target_temperature. unfold bind at 1. unfold try_except at 1.
    unfold bind at 1.
    destruct (fast_read_target_returns w) as (v & w' & Hfast). rewrite Hfast.
    unfold ret. destruct (0 <? v); [eauto|].
    apply guarded_returns. intros e w1. unfold self. eauto.
  - intros Hpos stored r. subst stored r. split.
    + intros e Hread.
      assert (Hfast : exists w', _fast_read_target_temperature w
                                 = (Return (_target_temperature (dev w)), w')
                                 /\ dev w' = dev w).
      { rewrite fast_read_target_flat. destruct (_ || _); [eauto|].
        destruct (read_gatt_char_dev target_temp_uuid w) as (Hdev & _).
        destruct (read_gatt_char target_temp_uuid w) as [[value|e'] w1];
          cbn [fst snd] in *; [discriminate|].
        rewrite Hdev. destruct e'; eauto. }
      destruct Hfast as (w' & Hfast & Hdev).
      rewrite (read_target_of_fast w w' _ Hfast Hpos). cbn [fst snd]. rewrite Hdev. auto.
    + intros value Hread Hshort.
      assert (Hfast : exists w', _fast_read_target_temperature w
                                 = (Return (_target_temperature (dev w)), w')
                                 /\ _target_temperature (dev w')
                                    = _target_temperature (dev w)).
      { rewrite fast_read_target_flat. destruct (_ || _); [eauto|].
        destruct (read_gatt_char_dev target_temp_uuid w) as (Hdev & _).
        destruct (read_gatt_char target_temp_uuid w) as [[value'|e'] w1];
          cbn [fst snd] in *; [|discriminate].
        injection Hread as ->. cbv zeta. rewrite Hdev.
        destruct (Nat.leb_spec 2 (length value)); [lia|].
        eexists. split; reflexivity. }
      destruct Hfast as (w' & Hfast & Hsame).
      rewrite (read_target_of_fast w w' _ Hfast Hpos). cbn [fst snd]. auto.
  - intros value Hconn Hclient Hread Hlen Hpos r. subst r.
    assert (Hfast : exists w', _fast_read_target_temperature w
                               = (Return (round_div10 (status_word value)), w')
                               /\ _target_temperature (dev w')
                                  = round_div10 (status_word value)).
    { rewrite fast_read_target_flat. rewrite Hconn, Hclient. cbn [negb orb].
      destruct (read_gatt_char target_temp_uuid w) as [[value'|e'] w1];
        cbn [fst snd] in *; [|discriminate].
      injection Hread as ->. cbv zeta.
      destruct (Nat.leb_spec 2 (length value)); [|lia].
      rewrite decoded_value_word by exact Hlen.
      eexists. split; reflexivity. }
    destruct Hfast as (w' & Hfast & Hstored).
    rewrite (read_target_of_fast w w' _ Hfast ltac:(lia)). cbn [fst snd].
    split; [reflexivity|]. split; [exact Hstored|].
    pose proof (status_word_range value) as Hword. unfold round_div10.
    pose proof (Z.div_lt_upper_bound (status_word value) 10 6554 ltac:(lia) ltac:(lia)).
    repeat match goal with
    | |- context [if ?c then _ else _] => destruct c
    end; lia.
Qed.

End TargetReads.

Lemma read_target_temperature_fallback_witness :
  let w := world_of (upd_target_temperature 185 linked) {[target_temp_uuid := [xff; xff]]}
             [Hang] 5000 in
  let w0 := world_of linked {[target_temp_uuid := [xff; xff]]} [] 5000 in
  0 < _target_temperature (dev w)
  /\ fst (read_target_temperature connect_never w) = Return 185
  /\ fst (read_target_temperature connect_never w0) = Return 6554.
Proof.
  cbv zeta.
  set (w := world_of (upd_target_temperature 185 linked) {[target_temp_uuid := [xff; xff]]}
              [Hang] 5000).
  set (w0 := world_of linked {[target_temp_uuid := [xff; xff]]} [] 5000).
  assert (Hpos : 0 < _target_temperature (dev w)) by (cbn; lia).
  split; [exact Hpos|]. split.
  - destruct (read_target_temperature_fallback connect_never w) as (_ & Hkeep & _).
    destruct (Hkeep Hpos) as (Herror & _).
    destruct (Herror Cancelled eq_refl) as (Hres & _). exact Hres.
  - destruct (read_target_temperature_fallback connect_never w0) as (_ & _ & Hstore).
    destruct (Hstore [xff; xff] eq_refl eq_refl eq_refl) as (Hres & _).
    + cbn. lia.
    + vm_compute. discriminate.
    + rewrite Hres. reflexivity.
Defined.

(** ** Auto-off time: bounds, write and read back *)

(** X13.  Whatever was read, the stored auto-off time is a whole number
    of minutes between 1 and 180, so the number entity shows that number
    and never its fallback for a zero value. *)
Theorem auto_off_time_bounded (auto_off_value : option (list byte)) :
  exists minutes,
    1 <= minutes <= 180
    /\ auto_off_seconds auto_off_value = minutes * 60
    /\ auto_off_native_value (auto_off_seconds auto_off_value) = minutes.
Proof.
  assert (Hshow : forall m, 1 <= m <= 180 -> auto_off_native_value (m * 60) = m).
  { intros m Hm. unfold auto_off_native_value.
    destruct (Z.eqb_spec (m * 60) 0); [lia|]. apply Z.div_mul. lia. }
  assert (Hdefault : exists minutes,
             1 <= minutes <= 180 /\ 30 * 60 = minutes * 60
             /\ auto_off_native_value (30 * 60) = minutes).
  { exists 30. split; [lia|]. split; [reflexivity|]. apply Hshow. lia. }
  destruct auto_off_value as [value|]; [|exact Hdefault].
  destruct (Nat.leb_spec 2 (length value)) as [Hlen|Hlen].
  - rewrite auto_off_two_bytes by exact Hlen. cbv zeta.
    set (raw := from_bytes_little (firstn 2 value)).
    set (m := if (180 <? raw) && (raw mod 60 =? 0) then raw / 60 else raw).
    destruct (Z.leb_spec 1 m); destruct (Z.leb_spec m 180); cbn [andb];
      try (exists 30; split; [lia|]; split; [reflexivity|]; apply Hshow; lia).
    exists m. split; [lia|]. split; [reflexivity|]. apply Hshow. lia.
  - unfold auto_off_seconds.
    destruct (Nat.leb_spec 2 (length value)); [lia|].
    rewrite andb_false_r. exact Hdefault.
Qed.

Lemma characteristic_exists_true (uuid : string) (w : World) :
  _is_connected (dev w) = true ->
  client (dev w) = true ->
  is_Some (peer w !! uuid) ->
  _characteristic_exists uuid w = (Return true, w).
Proof.
  intros Hconn Hclient Hsome. unfold _characteristic_exists. run.
  rewrite Hconn, Hclient. cbn [negb orb].
  rewrite bool_decide_eq_true_2 by exact Hsome. reflexivity.
Qed.

Lemma characteristic_exists_false (uuid : string) (w : World) :
  peer w !! uuid = None ->
  _characteristic_exists uuid w = (Return false, w).
Proof.
  intros Hnone. unfold _characteristic_exists. run.
  destruct (negb (_is_connected (dev w)) || negb (client (dev w))); [reflexivity|].
  rewrite bool_decide_eq_false_2; [reflexivity|].
  rewrite Hnone. intros [v Hv]. discriminate.
Qed.

(** What [read_auto_off_time] stores when the first characteristic is
    there and its read returns a value that is not empty. *)
Lemma read_auto_off_first (value : list byte) (w : World) :
  _is_connected (dev w) = true ->
  client (dev w) = true ->
  faults w = [] ->
  peer w !! auto_shutoff_setting_uuid = Some value ->
  truthy value = true ->
  read_auto_off_time w
  = (Return tt,
     with_dev (upd_auto_off_time_seconds (auto_off_seconds (Some value))
                 (upd_auto_off_time_raw (Some value) (dev w))) w).
Proof.
  intros Hconn Hclient Hf Hpeer Htruthy. unfold read_auto_off_time.
  unfold try_except at 1. unfold bind at 1. unfold try_except at 1. unfold bind at 1.
  rewrite characteristic_exists_true by (rewrite ?Hpeer; eauto).
  unfold read_gatt_char. run. rewrite Hf. run. rewrite Hpeer. run.
  rewrite Htruthy. cbn [negb]. run. unfold hex_or_None. rewrite Htruthy. reflexivity.
Qed.

Section AutoOff.

Variable connect_effect : M bool.

(** X14.  Setting the auto-off time writes the clamped minutes as
    seconds; reading the setting back stores the same time only from
    4 minutes up.  For 1, 2 or 3 minutes the 60, 120 or 180 seconds read
    back are not above 180 and are taken for minutes: the stored time
    becomes 60 times longer. *)
Theorem auto_off_set_then_read (minutes : Z) (w : World) :
  ready w ->
  is_Some (peer w !! auto_shutoff_setting_uuid) ->
  let m := Z.max 1 (Z.min 180 minutes) in
  exists w1 w2,
    set_auto_off_time connect_effect minutes w = (Return true, w1)
    /\ _auto_off_time_seconds (dev w1) = m * 60
    /\ peer w1 !! auto_shutoff_setting_uuid = Some (pack_u16_le (m * 60))
    /\ read_auto_off_time w1 = (Return tt, w2)
    /\ _auto_off_time_seconds (dev w2) = if 4 <=? m then m * 60 else m * 3600.
Proof.
  intros Hready Hsome m.
  assert (Hm : 1 <= m <= 180) by (subst m; lia).
  destruct (send_command_ready connect_effect auto_shutoff_setting_uuid
              (pack_u16_le (m * 60)) w Hready)
    as (w' & Hsend & (tc & Hdev) & Hpeer & Hf).
  destruct Hready as (Hconn & Hclient & _).
  assert (Hlookup : peer w' !! auto_shutoff_setting_uuid = Some (pack_u16_le (m * 60)))
    by (rewrite Hpeer; apply lookup_insert_eq).
  assert (Hset : set_auto_off_time connect_effect minutes w
                 = (Return true, with_dev (upd_auto_off_time_seconds (m * 60) (dev w')) w')).
  { unfold set_auto_off_time. fold m. cbv zeta.
    unfold bind at 1. rewrite characteristic_exists_true by assumption.
    unfold bind at 1. unfold try_except at 1. unfold bind at 1. rewrite Hsend.
    reflexivity. }
  eexists. eexists. split; [exact Hset|].
  split; [reflexivity|]. split; [exact Hlookup|].
  split.
  - apply (read_auto_off_first (pack_u16_le (m * 60))).
    + world_simpl. rewrite Hdev. world_simpl. exact Hconn.
    + world_simpl. rewrite Hdev. world_simpl. exact Hclient.
    + exact Hf.
    + exact Hlookup.
    + reflexivity.
  - world_simpl. rewrite auto_off_two_bytes by (cbn; lia). cbv zeta.
    change (firstn 2 (pack_u16_le (m * 60))) with (pack_u16_le (m * 60)).
    rewrite from_bytes_packed_u16 by lia.
    rewrite Z.mod_mul by lia. rewrite Z.div_mul by lia. cbn [Z.eqb].
    rewrite andb_true_r.
    destruct (Z.leb_spec 4 m); destruct (Z.ltb_spec 180 (m * 60)); try lia; cbn [andb].
    + destruct (Z.leb_spec 1 m); destruct (Z.leb_spec m 180); try lia. reflexivity.
    + destruct (Z.leb_spec 1 (m * 60)); destruct (Z.leb_spec (m * 60) 180); try lia.
      cbn [andb]. lia.
Qed.

End AutoOff.

Lemma auto_off_set_then_read_witness :
  let w := world_of linked {[auto_shutoff_setting_uuid := [x00; x00]]} [] 5000 in
  ready w
  /\ is_Some (peer w !! auto_shutoff_setting_uuid)
  /\ _auto_off_time_seconds (dev (snd (set_auto_off_time connect_never 2 w))) = 120
  /\ _auto_off_time_seconds
       (dev (snd (read_auto_off_time (snd (set_auto_off_time connect_never 2 w))))) = 7200.
Proof.
  cbv zeta.
  set (w := world_of linked {[auto_shutoff_setting_uuid := [x00; x00]]} [] 5000).
  assert (Hready : ready w).
  { unfold ready. cbn [w world_of linked dev processor faults futures next_future clock
                       _is_connected client _processing_commands _command_queue].
    repeat split; try reflexivity. exists 0. split; [reflexivity|lia]. }
  assert (Hsome : is_Some (peer w !! auto_shutoff_setting_uuid))
    by (eexists; reflexivity).
  split; [exact Hready|]. split; [exact Hsome|].
  destruct (auto_off_set_then_read connect_never 2 w Hready Hsome)
    as (w1 & w2 & Hset & Hstored & _ & Hread & Hback).
  rewrite Hset. cbn [snd]. rewrite Hread. cbn [snd]. rewrite Hstored, Hback.
  split; reflexivity.
Defined.

(** X15.  When the setting characteristic is not on the appliance, or
    reading it raises, the auto-off time is taken from the auto-shutoff
    characteristic; when the object is not connected nothing is read and
    the 30-minute default is stored. *)
Theorem auto_off_fallback (value : list byte) (w : World) :
  (_is_connected (dev w) = true ->
   client (dev w) = true ->
   peer w !! auto_shutoff_uuid = Some value ->
   peer w !! auto_shutoff_setting_uuid = None /\ faults w = []
   \/ is_Some (peer w !! auto_shutoff_setting_uuid) /\ faults w = [LinkError] ->
   _auto_off_time_seconds (dev (snd (read_auto_off_time w)))
   = auto_off_seconds (Some value))
  /\ (_is_connected (dev w) = false ->
      _auto_off_time_seconds (dev (snd (read_auto_off_time w))) = 30 * 60
      /\ faults (snd (read_auto_off_time w)) = faults w
      /\ clock (snd (read_auto_off_time w)) = clock w).
Proof.
  split.
  - intros Hconn Hclient Hsecond [[Hnone Hf]|[Hsome Hf]].
    + unfold read_auto_off_time.
      unfold try_except at 1. unfold bind at 1. unfold try_except at 1. unfold bind at 1.
      rewrite characteristic_exists_false by exact Hnone.
      unfold ret at 1. cbv beta iota zeta. unfold bind at 1.
      rewrite characteristic_exists_true by (rewrite ?Hsecond; eauto).
      unfold read_gatt_char. run. rewrite Hf. run. rewrite Hsecond. reflexivity.
    + unfold read_auto_off_time.
      unfold try_except at 1. unfold bind at 1. unfold try_except at 1. unfold bind at 1.
      rewrite characteristic_exists_true by assumption.
      unfold read_gatt_char. run. rewrite Hf. run.
      unfold _characteristic_exists. run. rewrite Hconn, Hclient. cbn [negb orb].
      rewrite bool_decide_eq_true_2 by (world_simpl; rewrite Hsecond; eauto).
      run. rewrite Hsecond. reflexivity.
  - intros Hdown. unfold read_auto_off_time, _characteristic_exists. run.
    rewrite Hdown. cbn [negb orb]. run.
    rewrite Hdown. cbn [negb orb]. run. repeat split; reflexivity.
Qed.

Lemma auto_off_fallback_witness :
  let w := world_of linked {[auto_shutoff_uuid := [x2d; x00]]} [] 5000 in
  _is_connected (dev w) = true
  /\ client (dev w) = true
  /\ peer w !! auto_shutoff_uuid = Some [x2d; x00]
  /\ peer w !! auto_shutoff_setting_uuid = None
  /\ faults w = []
  /\ _auto_off_time_seconds (dev (snd (read_auto_off_time w))) = 45 * 60.
Proof.
  cbv zeta.
  set (w := world_of linked {[auto_shutoff_uuid := [x2d; x00]]} [] 5000).
  assert (Hconn : _is_connected (dev w) = true) by reflexivity.
  assert (Hclient : client (dev w) = true) by reflexivity.
  assert (Hsecond : peer w !! auto_shutoff_uuid = Some [x2d; x00]) by reflexivity.
  assert (Hnone : peer w !! auto_shutoff_setting_uuid = None) by reflexivity.
  assert (Hf : faults w = []) by reflexivity.
  repeat (split; [assumption|]).
  destruct (auto_off_fallback [x2d; x00] w) as (Hfall & _).
  rewrite (Hfall Hconn Hclient Hsecond (or_introl (conj Hnone Hf))). reflexivity.
Defined.

(** ** Disconnecting *)

Section Disconnect.

Variable connect_effect : M bool.

(** X16.  [disconnect()] ends with the processor stopped and the
    readings as they were.  With a client on a link marked up it ends
    with the link marked down and the client dropped, also when
    [stop_notify] or the client's [disconnect] raises; nothing escapes
    unless one of the two calls hangs.  On a link already marked down
    it calls nothing on the client and keeps it. *)
Theorem disconnect_marks_down (w : World) :
  exists r w',
    disconnect connect_effect w = (r, w')
    /\ _processing_commands (dev w') = false
    /\ processor w' = None
    /\ readings (dev w') = readings (dev w)
    /\ (r = Return tt \/ r = Raise Cancelled /\ In Hang (firstn 2 (faults w)))
    /\ (client (dev w) = true -> _is_connected (dev w) = true ->
        _is_connected (dev w') = false /\ client (dev w') = false)
    /\ (_is_connected (dev w) = false ->
        client (dev w') = client (dev w) /\ faults w' = faults w /\ r = Return tt).
Proof.
  destruct (processor w) as [last|] eqn:Hp;
    destruct (client (dev w)) eqn:Hclient;
    destruct (_is_connected (dev w)) eqn:Hconn;
    destruct (faults w) as [|f1 [|f2 later]] eqn:Hf;
    try destruct f1; try destruct f2;
    eexists; eexists;
    (split;
     [ unfold disconnect; run; cbn [_process_command_queue]; world_simpl; rewrite Hp; run;
       rewrite Hclient, Hconn; cbn [andb]; unfold try_finally, client_call; run;
       repeat (rewrite Hf; run); reflexivity
     | object_simpl; rewrite ?Hclient;
       repeat split; try reflexivity; try discriminate; try assumption;
       first [ left; reflexivity | right; split; [reflexivity|cbn; tauto] ] ]).
Qed.

End Disconnect.

Lemma disconnect_marks_down_witness :
  let w := world_of linked ∅ [LinkError] 0 in
  client (dev w) = true
  /\ _is_connected (dev w) = true
  /\ exists w',
       disconnect connect_never w = (Return tt, w')
       /\ _is_connected (dev w') = false
       /\ client (dev w') = false
       /\ faults w' = [].
Proof.
  cbv zeta.
  destruct (disconnect_marks_down connect_never (world_of linked ∅ [LinkError] 0))
    as (r & w' & Hrun & _ & _ & _ & _ & Hdown & _).
  split; [reflexivity|]. split; [reflexivity|].
  exists w'.
  assert (Hrun' := Hrun). vm_compute in Hrun'. injection Hrun' as Hr Hw.
  rewrite <- Hr in Hrun. split; [exact Hrun|].
  destruct (Hdown eq_refl eq_refl) as [Hconn Hclient].
  split; [exact Hconn|]. split; [exact Hclient|].
  rewrite <- Hw. reflexivity.
Defined.

(** ** Keepalive *)

Lemma keepalive_iteration_keeps (w : World) :
  exists r w',
    keepalive_iteration w = (r, w')
    /\ untouched w w'
    /\ peer w' = peer w
    /\ futures w' = futures w
    /\ _is_connected (dev w') = _is_connected (dev w)
    /\ _command_queue (dev w') = _command_queue (dev w)
    /\ (forall f, In f (faults w') -> In f (faults w))
    /\ (r = Return tt \/ r = Raise Cancelled /\ In Hang (faults w)).
Proof.
  assert (Hslept : forall t ms, connect_calls (t ++ [Slept ms]) = connect_calls t).
  { intros t ms. rewrite connect_calls_app. cbn. lia. }
  destruct (20000 <? clock w - _last_command_time (dev w)) eqn:Hidle;
    destruct (peer w !! register_one_uuid) as [value|] eqn:Hpeer;
    destruct (faults w) as [|[| |] later] eqn:Hf;
    eexists; eexists;
    (split;
     [ unfold keepalive_iteration, read_gatt_char; run; rewrite Hidle; run;
       rewrite ?Hf; run; rewrite ?Hpeer; run; reflexivity
     | unfold untouched; world_simpl; rewrite ?Hslept, ?Hf;
       repeat split; try reflexivity; try (intros f0 Hin; cbn; tauto);
       first [ left; reflexivity | right; split; [reflexivity|cbn; tauto] ] ]).
Qed.

(** X17.  The keepalive loop only reads: however many turns it takes and
    whatever the reads meet, it changes no reading, writes nothing,
    never calls [connect] and leaves the queue, the futures and the
    connection flag as they are, so a failing keepalive read does not
    mark the link down.  It ends by an exception only when a read
    hangs. *)
Theorem keepalive_only_reads (fuel : nat) (w : World) :
  exists r w',
    _keepalive_loop fuel w = (r, w')
    /\ readings (dev w') = readings (dev w)
    /\ connect_calls (trace w') = connect_calls (trace w)
    /\ peer w' = peer w
    /\ futures w' = futures w
    /\ _is_connected (dev w') = _is_connected (dev w)
    /\ _command_queue (dev w') = _command_queue (dev w)
    /\ (r = Return tt \/ r = Raise Cancelled /\ In Hang (faults w)).
Proof.
  revert w. induction fuel as [|fuel IH]; intros w.
  - exists (Return tt), w. split.
    + cbn [_keepalive_loop]. destruct (_is_connected (dev w)); reflexivity.
    + repeat split; try reflexivity. left. reflexivity.
  - cbn [_keepalive_loop]. destruct (_is_connected (dev w)) eqn:Hconn.
    + destruct (keepalive_iteration_keeps w)
        as (r & w1 & Hturn & [Hr Ht] & Hpeer & Hfut & Hc & Hq & Hfaults & Hout).
      rewrite Hturn. destruct Hout as [->|[-> Hhang]].
      * destruct (IH w1) as (r2 & w2 & Hloop & Hr2 & Ht2 & Hpeer2 & Hfut2 & Hc2 & Hq2 & Hout2).
        exists r2, w2. split; [exact Hloop|].
        repeat split; try congruence.
        destruct Hout2 as [->|[-> Hhang]]; [left; reflexivity|].
        right. split; [reflexivity|]. apply Hfaults. exact Hhang.
      * exists (Raise Cancelled), w1. split; [reflexivity|].
        repeat split; try congruence. right. split; [reflexivity|exact Hhang].
    + exists (Return tt), w. repeat split; try reflexivity; try assumption.
      left. reflexivity.
Qed.

(** X18.  While no more than 20 seconds have passed since the last
    command the keepalive loop reads nothing: its turns only sleep, 10
    seconds each, and leave the object and the transport alone. *)
Theorem keepalive_waits_for_idle (fuel : nat) (w : World) :
  _is_connected (dev w) = true ->
  clock w + 10000 * Z.of_nat fuel <= _last_command_time (dev w) + 30000 ->
  exists w',
    _keepalive_loop fuel w = (Return tt, w')
    /\ dev w' = dev w
    /\ peer w' = peer w
    /\ faults w' = faults w
    /\ clock w' = clock w + 10000 * Z.of_nat fuel
    /\ sleeps (trace w') = sleeps (trace w) ++ repeat 10000 fuel.
Proof.
  revert w. induction fuel as [|fuel IH]; intros w Hconn Hidle.
  - exists w. split.
    + cbn [_keepalive_loop]. rewrite Hconn. reflexivity.
    + repeat split; try reflexivity; [lia|]. cbn [repeat]. rewrite app_nil_r. reflexivity.
  - cbn [_keepalive_loop]. rewrite Hconn.
    assert (Hquiet : (20000 <? clock w - _last_command_time (dev w)) = false)
      by (apply Z.ltb_ge; lia).
    assert (Hturn : keepalive_iteration w
                    = (Return tt, with_trace (trace w ++ [Slept 10000])
                                    (with_clock (clock w + 10000) w))).
    { unfold keepalive_iteration. run. rewrite Hquiet. run. reflexivity. }
    rewrite Hturn.
    destruct (IH (with_trace (trace w ++ [Slept 10000]) (with_clock (clock w + 10000) w)))
      as (w' & Hloop & Hdev & Hpeer & Hfaults & Hclock & Hsleeps).
    + exact Hconn.
    + world_simpl. lia.
    + exists w'. split; [exact Hloop|]. world_simpl in Hdev. world_simpl in Hpeer.
      world_simpl in Hfaults. world_simpl in Hclock. world_simpl in Hsleeps.
      repeat split; try assumption; [lia|].
      rewrite Hsleeps. unfold sleeps. rewrite flat_map_app. cbn [repeat flat_map].
      rewrite <- app_assoc. reflexivity.
Qed.

Lemma keepalive_waits_for_idle_witness :
  let w := world_of linked ∅ [LinkError] 15000 in
  _is_connected (dev w) = true
  /\ clock w + 10000 * Z.of_nat 1 <= _last_command_time (dev w) + 30000
  /\ exists w', _keepalive_loop 1 w = (Return tt, w') /\ faults w' = [LinkError].
Proof.
  cbv zeta.
  assert (Hconn : _is_connected (dev (world_of linked ∅ [LinkError] 15000)) = true)
    by reflexivity.
  assert (Hidle : clock (world_of linked ∅ [LinkError] 15000) + 10000 * Z.of_nat 1
                  <= _last_command_time (dev (world_of linked ∅ [LinkError] 15000)) + 30000)
    by (vm_compute; discriminate).
  split; [exact Hconn|]. split; [exact Hidle|].
  destruct (keepalive_waits_for_idle 1 _ Hconn Hidle)
    as (w' & Hloop & _ & _ & Hfaults & _).
  exists w'. split; [exact Hloop|exact Hfaults].
Defined.

(** ** Fan timer *)

Section FanTimer.

Variable connect_effect : M bool.

(** A hang inside [_send_command] ends with the 10-second timeout. *)
Lemma send_command_not_cancelled (uuid : string) (data : list byte) (w w' : World)
    (e : exn) :
  _send_command connect_effect uuid data w = (Raise e, w') -> e <> Cancelled.
Proof.
  unfold _send_command, asyncio_timeout.
  destruct (_queue_command connect_effect uuid data (clock w + 10000) w) as [[r|[]] w1];
    run; intros H; first [discriminate H | injection H as <- _; discriminate].
Qed.

Lemma turn_fan_off_not_cancelled (w w' : World) (e : exn) :
  turn_fan_off connect_effect w = (Raise e, w') -> e <> Cancelled.
Proof.
  unfold turn_fan_off, bind.
  destruct (_send_command connect_effect fan_off_uuid [x00] w) as [[r|e1] w1] eqn:Hsend;
    cbn; intros H; [discriminate|].
  injection H as <- _. exact (send_command_not_cancelled _ _ _ _ _ Hsend).
Qed.

Lemma turn_heater_off_not_cancelled (w w' : World) (e : exn) :
  turn_heater_off connect_effect w = (Raise e, w') -> e <> Cancelled.
Proof.
  unfold turn_heater_off, bind.
  destruct (_send_command connect_effect heat_off_uuid [x00] w) as [[r|e1] w1] eqn:Hsend;
    cbn; intros H; [discriminate|].
  injection H as <- _. exact (send_command_not_cancelled _ _ _ _ _ Hsend).
Qed.

Lemma set_brightness_not_cancelled (b : Z) (w w' : World) (e : exn) :
  set_brightness connect_effect b w = (Raise e, w') -> e <> Cancelled.
Proof.
  unfold set_brightness, try_except, bind.
  match goal with
  | |- context [_send_command connect_effect ?u ?d w] =>
      destruct (_send_command connect_effect u d w) as [[r|e1] w1] eqn:Hsend
  end; cbn; intros H; [discriminate|].
  pose proof (send_command_not_cancelled _ _ _ _ _ Hsend) as Hnot.
  destruct e1; cbn in H; injection H as <- _; first [discriminate | exact Hnot].
Qed.

(** What [except Exception] makes of a block that is never cancelled. *)
Lemma try_except_catches (c : M unit) (w : World) :
  (forall e w', c w = (Raise e, w') -> e <> Cancelled) ->
  try_except c (fun e => ret tt) w = (Return tt, snd (c w)).
Proof.
  intros Hnot. unfold try_except. destruct (c w) as [[[]|e] w'] eqn:Hc; [reflexivity|].
  pose proof (Hnot e w' eq_refl) as He. destruct e; first [reflexivity | contradiction].
Qed.

(** X19.  The fan timer task never raises.  When its fan-off command
    fails it ends there: no heater-off and no brightness command is
    queued, whatever was asked for, and every reading of the object is
    as before the task. *)
Theorem fan_timer_task_stops_at_failure (duration : Z)
    (turn_off_heat turn_off_screen : bool) (w : World) :
  fst (_fan_timer_task connect_effect duration turn_off_heat turn_off_screen w) = Return tt
  /\ forall e w1,
       _send_command connect_effect fan_off_uuid [x00] (snd (sleep duration w))
       = (Raise e, w1) ->
       snd (_fan_timer_task connect_effect duration turn_off_heat turn_off_screen w) = w1
       /\ readings (dev w1) = readings (dev w).
Proof.
  set (w0 := snd (sleep duration w)).
  set (block := (turn_fan_off connect_effect ;;
                 (if turn_off_heat then turn_heater_off connect_effect else ret tt) ;;
                 (if turn_off_screen then set_brightness connect_effect 0 else ret tt))).
  assert (Hrun : _fan_timer_task connect_effect duration turn_off_heat turn_off_screen w
                 = (Return tt, snd (block w0))).
  { unfold _fan_timer_task. fold block. unfold bind at 1.
    change (sleep duration w) with (Return tt, w0). cbv iota beta.
    apply try_except_catches.
    intros e w' Hblock. unfold block, bind in Hblock.
    destruct (turn_fan_off connect_effect w0) as [[u|e1] w1] eqn:Hfan.
    - destruct turn_off_heat.
      + destruct (turn_heater_off connect_effect w1) as [[u'|e2] w2] eqn:Hheat.
        * destruct turn_off_screen; [|discriminate].
          exact (set_brightness_not_cancelled _ _ _ _ Hblock).
        * injection Hblock as <- _. exact (turn_heater_off_not_cancelled _ _ _ Hheat).
      + cbn [ret] in Hblock. destruct turn_off_screen; [|discriminate].
        exact (set_brightness_not_cancelled _ _ _ _ Hblock).
    - injection Hblock as <- _. exact (turn_fan_off_not_cancelled _ _ _ Hfan). }
  rewrite Hrun. cbn [fst snd]. split; [reflexivity|].
  intros e w1 Hsend.
  destruct (send_command_untouched connect_effect fan_off_uuid [x00] w0) as [Hr _].
  rewrite Hsend in Hr. cbn [snd] in Hr.
  split; [|rewrite Hr; reflexivity].
  assert (Hfan : turn_fan_off connect_effect w0 = (Raise e, w1))
    by (unfold turn_fan_off, bind; rewrite Hsend; reflexivity).
  unfold block, bind. rewrite Hfan. reflexivity.
Qed.

End FanTimer.

Lemma fan_timer_task_stops_at_failure_witness :
  let w := world_of linked ∅ [LinkError] 0 in
  exists w1,
    _send_command connect_never fan_off_uuid [x00] (snd (sleep 60000 w))
    = (Raise BleakError, w1)
    /\ _fan_timer_task connect_never 60000 true true w = (Return tt, w1)
    /\ _heater_on (dev w1) = _heater_on (dev w)
    /\ _command_queue (dev w1) = [].
Proof.
  cbv zeta.
  set (w := world_of linked ∅ [LinkError] 0).
  assert (Hsend : _send_command connect_never fan_off_uuid [x00] (snd (sleep 60000 w))
                  = (Raise BleakError,
                     snd (_send_command connect_never fan_off_uuid [x00]
                            (snd (sleep 60000 w)))))
    by (vm_compute; reflexivity).
  destruct (fan_timer_task_stops_at_failure connect_never 60000 true true w)
    as [Hret Hstop].
  destruct (Hstop _ _ Hsend) as [Hend Hreadings].
  eexists. split; [exact Hsend|]. split.
  - rewrite <- Hend. rewrite <- Hret. apply surjective_pairing.
  - split; [|vm_compute; reflexivity].
    apply (f_equal (fun r => match r with (_, _, h, _, _, _, _, _, _) => h end)) in Hreadings.
    exact Hreadings.
Defined.

(** ** Animation patterns *)

Lemma animation_tick_bounds (animation_type : string) (a : Animation) :
  In animation_type patterns ->
  0 <= brightness a <= 100 ->
  exists a', animation_tick animation_type a = Some a' /\ 0 <= brightness a' <= 100.
Proof.
  intros Hin Ha.
  destruct Hin as [<-|[<-|[<-|[<-|[]]]]]; eexists; (split; [reflexivity|]);
    cbn [brightness]; unfold MIN_BRIGHTNESS, MAX_BRIGHTNESS, interval.
  - destruct (brightness a =? 100); lia.
  - lia.
  - destruct (100 <=? brightness a); lia.
  - destruct (brightness a <=? 0); lia.
Qed.

Lemma unknown_animation_breaks (animation_type : string) (a : Animation) :
  ~ In animation_type patterns -> animation_tick animation_type a = None.
Proof.
  intros Hout. unfold animation_tick.
  destruct (String.eqb_spec animation_type ANIMATION_BLINKING) as [->|_];
    [exfalso; apply Hout; cbn; tauto|].
  destruct (String.eqb_spec animation_type ANIMATION_BREATHING) as [->|_];
    [exfalso; apply Hout; cbn; tauto|].
  destruct (String.eqb_spec animation_type ANIMATION_ASCENDING) as [->|_];
    [exfalso; apply Hout; cbn; tauto|].
  destruct (String.eqb_spec animation_type ANIMATION_DESCENDING) as [->|_];
    [exfalso; apply Hout; cbn; tauto|].
  reflexivity.
Qed.

(** X20.  Every known animation pattern keeps running and only ever
    produces a brightness in [0, 100], so the clamp of [set_brightness]
    passes it on as it is; any other animation type leaves the loop on
    its first turn. *)
Theorem animation_within_bounds (animation_type : string) (n : nat) :
  (In animation_type patterns ->
   exists a,
     animation_after animation_type n = Some a
     /\ 0 <= brightness a <= 100
     /\ Z.max 0 (Z.min 100 (brightness a)) = brightness a)
  /\ (~ In animation_type patterns -> animation_after animation_type (S n) = None).
Proof.
  split.
  - intros Hin.
    assert (Hrange : exists a, animation_after animation_type n = Some a
                               /\ 0 <= brightness a <= 100).
    { induction n as [|n (a & Ha & Hb)].
      - exists animation_start. split; [reflexivity|]. cbn. unfold MIN_BRIGHTNESS. lia.
      - cbn [animation_after]. rewrite Ha. apply animation_tick_bounds; assumption. }
    destruct Hrange as (a & Ha & Hb). exists a. repeat split; try assumption; lia.
  - intros Hout. induction n as [|n IH].
    + cbn [animation_after]. apply unknown_animation_breaks. exact Hout.
    + change (animation_after animation_type (S (S n)))
        with (match animation_after animation_type (S n) with
              | Some a => animation_tick animation_type a
              | None => None
              end).
      rewrite IH. reflexivity.
Qed.

Lemma animation_within_bounds_witness :
  In ANIMATION_DESCENDING patterns
  /\ option_map brightness (animation_after ANIMATION_DESCENDING 14) = Some 0
  /\ ~ In "rainbow" patterns
  /\ animation_after "rainbow" 1 = None.
Proof.
  assert (Hin : In ANIMATION_DESCENDING patterns) by (cbn; tauto).
  assert (Hout : ~ In "rainbow" patterns)
    by (cbn; intros [H|[H|[H|[H|[]]]]]; discriminate H).
  destruct (animation_within_bounds ANIMATION_DESCENDING 14) as [Hknown _].
  destruct (animation_within_bounds "rainbow" 0) as [_ Hbreak].
  destruct (Hknown Hin) as (a & Ha & _).
  split; [exact Hin|]. split; [reflexivity|]. split; [exact Hout|].
  exact (Hbreak Hout).
Defined.

Lemma animation_shift (animation_type : string) (k n : nat) :
  animation_after animation_type k = animation_after animation_type 0 ->
  animation_after animation_type (n + k) = animation_after animation_type n.
Proof.
  intros Hk. induction n as [|n IH]; [exact Hk|].
  cbn [Nat.add animation_after]. rewrite IH. reflexivity.
Qed.

(** X21.  The patterns repeat: breathing is back at its start after 26
    turns, ascending and descending after 14; blinking alternates
    between 100 and 0 from its first turn on. *)
Theorem animation_repeats (n : nat) :
  animation_after ANIMATION_BREATHING (n + 26) = animation_after ANIMATION_BREATHING n
  /\ animation_after ANIMATION_ASCENDING (n + 14) = animation_after ANIMATION_ASCENDING n
  /\ animation_after ANIMATION_DESCENDING (n + 14) = animation_after ANIMATION_DESCENDING n
  /\ animation_after ANIMATION_BLINKING (S n + 2) = animation_after ANIMATION_BLINKING (S n)
  /\ option_map brightness (animation_after ANIMATION_BLINKING (S n))
     = Some (if Nat.even n then 100 else 0).
Proof.
  split; [apply animation_shift; reflexivity|].
  split; [apply animation_shift; reflexivity|].
  split; [apply animation_shift; reflexivity|].
  assert (Hblink : forall m, animation_after ANIMATION_BLINKING (S m)
                             = Some {| brightness := if Nat.even m then 100 else 0;
                                       increment := true; sleep_time := 500 |}).
  { induction m as [|m IH]; [reflexivity|].
    change (animation_after ANIMATION_BLINKING (S (S m)))
      with (match animation_after ANIMATION_BLINKING (S m) with
            | Some a => animation_tick ANIMATION_BLINKING a
            | None => None
            end).
    rewrite IH. rewrite Nat.even_succ, <- Nat.negb_even.
    destruct (Nat.even m); reflexivity. }
  split.
  - replace (S n + 2)%nat with (S (S (S n))) by lia. rewrite !Hblink.
    rewrite !Nat.even_succ_succ. reflexivity.
  - rewrite Hblink. reflexivity.
Qed.

(** ** Brightness scales of the light entity *)

(** X22.  Between the 0..100 scale of the appliance and the 0..255 scale
    of the light entity: every percentage is shown within 0..255, and
    sending the shown value back gives the percentage again only for
    multiples of 20, one less otherwise; a brightness of 1 or 2 turns
    into 0 percent. *)
Theorem light_scale_round_trip (p b : Z) :
  (0 <= p <= 100 ->
   0 <= light_brightness p <= 255
   /\ p - 1 <= light_brightness_percent (light_brightness p) <= p
   /\ (light_brightness_percent (light_brightness p) = p <-> p mod 20 = 0))
  /\ (0 <= b <= 255 ->
      0 <= light_brightness_percent b <= 100
      /\ (light_brightness_percent b = 0 <-> b <= 2)
      /\ light_brightness (light_brightness_percent b) <= b).
Proof.
  unfold light_brightness, light_brightness_percent. split; intros H.
  - repeat split; try (Z.div_mod_to_equations; lia).
  - repeat split; try (Z.div_mod_to_equations; lia).
Qed.

Lemma light_scale_round_trip_witness :
  0 <= 50 <= 100
  /\ light_brightness 50 = 127
  /\ light_brightness_percent (light_brightness 50) = 49
  /\ 0 <= 2 <= 255
  /\ light_brightness_percent 2 = 0.
Proof.
  destruct (light_scale_round_trip 50 2) as [Hp Hb].
  assert (H50 : 0 <= 50 <= 100) by lia.
  assert (H2 : 0 <= 2 <= 255) by lia.
  destruct (Hp H50) as (_ & _ & _). destruct (Hb H2) as (_ & Hzero & _).
  split; [exact H50|]. split; [reflexivity|]. split; [reflexivity|].
  split; [exact H2|]. apply Hzero. lia.
Defined.

(** ** Retry counter of the coordinator *)

Lemma succ_mod_six (f : nat) :
  0 <= Z.of_nat (f mod 6) <= 5
  /\ Z.of_nat (S f mod 6)
     = if Z.of_nat (f mod 6) =? 5 then 0 else Z.of_nat (f mod 6) + 1.
Proof.
  rewrite !Nat2Z.inj_mod. change (Z.of_nat 6) with 6. rewrite Nat2Z.inj_succ.
  destruct (Z.eqb_spec (Z.of_nat f mod 6) 5); Z.div_mod_to_equations; lia.
Qed.

(** X23.  The retry counter of [async_connect] stays within 0..5 and
    counts the failures since the last success modulo 6: a failed call
    gives up exactly when it is the sixth failure in a row since the
    last success or the last giving up, and otherwise announces a
    retry. *)
Theorem connect_retry_counter (history : list bool) (success : bool) :
  count_after history = Z.of_nat (failures_in_a_row history mod 6)
  /\ 0 <= count_after history <= _max_connection_retries
  /\ (snd (async_connect_count success (count_after history)) = GaveUp
      <-> success = false /\ (failures_in_a_row (success :: history) mod 6 = 0)%nat)
  /\ (snd (async_connect_count success (count_after history)) = ConnectedNow
      <-> success = true).
Proof.
  assert (Hcount : forall h, count_after h = Z.of_nat (failures_in_a_row h mod 6)).
  { induction h as [|[|] h IH]; [reflexivity|reflexivity|].
    cbn [count_after failures_in_a_row]. rewrite IH.
    destruct (succ_mod_six (failures_in_a_row h)) as [Hr ->].
    unfold async_connect_count, _max_connection_retries. cbn [negb].
    destruct (Z.ltb_spec 5 (Z.of_nat (failures_in_a_row h mod 6) + 1)) as [Hlt|Hge];
      destruct (Z.eqb_spec (Z.of_nat (failures_in_a_row h mod 6)) 5) as [Heq|Hne];
      cbn [fst]; lia. }
  split; [apply Hcount|]. rewrite Hcount.
  destruct (succ_mod_six (failures_in_a_row history)) as [Hr Hs].
  unfold _max_connection_retries. split; [exact Hr|].
  unfold async_connect_count, _max_connection_retries. destruct success; cbn [negb].
  - cbn [snd]. split; split; try discriminate; try reflexivity.
    intros [H _]. discriminate H.
  - cbn [failures_in_a_row]. rewrite <- Nat2Z.inj_iff, Hs. change (Z.of_nat 0) with 0.
    destruct (Z.ltb_spec 5 (Z.of_nat (failures_in_a_row history mod 6) + 1)) as [Hlt|Hge];
      destruct (Z.eqb_spec (Z.of_nat (failures_in_a_row history mod 6)) 5) as [Heq|Hne];
      cbn [snd]; split; split; try discriminate; try reflexivity; try lia.
Qed.
